(** * Moona: mood-to-recommendation backend (app.py)

    A shallow embedding of [app.py] and of the fragments of the Python
    run time it relies on ([str], [dict], truthiness, [re], [json]),
    followed by the properties of the response-extraction and tolerant
    JSON-recovery pipeline and of the [/recommend] route. *)

From Stdlib Require Import List NArith ZArith String Ascii Bool Arith Lia.
From Stdlib Require Import DecimalString.
Import ListNotations.

Set Implicit Arguments.
Set Warnings "-register-all".

(** ** Python text

    A Python [str] is a sequence of Unicode code points.  Code points are
    kept as numbers so that the typographic quotes of [parse_json_block],
    the Unicode reading of [\s] and the [\uXXXX] escapes of JSON are what
    they are in Python. *)

Definition char := N.
Definition pystr := list char.

Definition ch (a : ascii) : char := N_of_ascii a.

(** An ASCII literal, character by character. *)
Definition py (s : string) : pystr := map ch (list_ascii_of_string s).

(** The same, where a backquote in the literal stands for the double
    quote character (U+0022). *)
Definition pyq (s : string) : pystr :=
  map (fun c => if N.eqb c 96 then 34%N else c) (py s).

Definition dquote : char := 34%N.
Definition newline : char := 10%N.

Fixpoint str_eqb (a b : pystr) : bool :=
  match a, b with
  | [], [] => true
  | x :: a', y :: b' => N.eqb x y && str_eqb a' b'
  | _, _ => false
  end.

Fixpoint starts_with (prefix s : pystr) : bool :=
  match prefix, s with
  | [], _ => true
  | p :: prefix', c :: s' => N.eqb p c && starts_with prefix' s'
  | _ :: _, [] => false
  end.

(** [sub in s], the substring test of [str.__contains__]. *)
Fixpoint str_contains (sub s : pystr) : bool :=
  starts_with sub s ||
  match s with
  | [] => false
  | _ :: s' => str_contains sub s'
  end.

(** [s.replace(old, new)] for a one-character [old]. *)
Definition replace_char (old : char) (new : pystr) (s : pystr) : pystr :=
  flat_map (fun c => if N.eqb c old then new else [c]) s.

(** ** Python values

    The values the program handles: what [json.loads] produces, plus
    opaque objects (the SDK's response), which are known only through
    their attributes and their [str()] rendering.  A [dict] is an
    association list in insertion order, with string keys and no
    duplicates once built through [dict_set]. *)

(** A float is kept as the decimal it was read from: [FDec neg m e] is
    the binary64 number nearest to [(-1)^neg * m * 10^e]. *)
Inductive pyfloat : Type :=
| FNaN
| FInf (negative : bool)
| FDec (negative : bool) (mantissa : N) (exp10 : Z).

Inductive value : Type :=
| VNone
| VBool (b : bool)
| VInt (z : Z)
| VFloat (f : pyfloat)
| VStr (s : pystr)
| VList (items : list value)
| VDict (entries : list (pystr * value))
| VObj (attrs : list (pystr * value)) (rendering : pystr).

Definition dict := list (pystr * value).

Fixpoint dict_get (d : dict) (k : pystr) : option value :=
  match d with
  | [] => None
  | (k', v) :: d' => if str_eqb k' k then Some v else dict_get d' k
  end.

(** [d[k] = v]: an existing key keeps its position, a new one goes last. *)
Fixpoint dict_set (d : dict) (k : pystr) (v : value) : dict :=
  match d with
  | [] => [(k, v)]
  | (k', v') :: d' =>
      if str_eqb k' k then (k', v) :: d' else (k', v') :: dict_set d' k v
  end.

Definition dict_mem (d : dict) (k : pystr) : bool :=
  match dict_get d k with Some _ => true | None => false end.

(** [d.get(k)] and [d.get(k, default)]. *)
Definition dict_get_or (d : dict) (k : pystr) (default : value) : value :=
  match dict_get d k with Some v => v | None => default end.

(** A decimal rounds to (plus or minus) zero when its mantissa is zero or
    when it is at most half the smallest subnormal, [2^-1075]. *)
Definition float_is_zero (f : pyfloat) : bool :=
  match f with
  | FNaN | FInf _ => false
  | FDec _ m e =>
      N.eqb m 0 ||
      (Z.ltb e 0 && Z.leb (Z.of_N m * 2 ^ 1075) (10 ^ (- e)))
  end.

(** Truth value testing. *)
Definition truthy (v : value) : bool :=
  match v with
  | VNone => false
  | VBool b => b
  | VInt z => negb (Z.eqb z 0)
  | VFloat f => negb (float_is_zero f)
  | VStr s => match s with [] => false | _ => true end
  | VList l => match l with [] => false | _ => true end
  | VDict d => match d with [] => false | _ => true end
  | VObj _ _ => true
  end.

(** [a or b]. *)
Definition py_or (a b : value) : value := if truthy a then a else b.

(** [v == s] and [v != s] against a string literal. *)
Definition eq_str (v : value) (s : pystr) : bool :=
  match v with VStr t => str_eqb t s | _ => false end.

Definition type_name (v : value) : pystr :=
  match v with
  | VNone => py "NoneType"
  | VBool _ => py "bool"
  | VInt _ => py "int"
  | VFloat _ => py "float"
  | VStr _ => py "str"
  | VList _ => py "list"
  | VDict _ => py "dict"
  | VObj _ _ => py "object"
  end.

(** ** Exceptions

    An exception is its class and its [str()]; the wording of the
    interpreter's own messages is CPython 3.12's. *)

Inductive exn_class : Type :=
| TypeError | AttributeError | KeyError
| JSONDecodeError        (* json, and requests' subclass of it *)
| RequestException       (* requests: connection error, timeout, ... *)
| APIError               (* the generation SDK's errors *)
| HTTPException.         (* werkzeug: BadRequest, UnsupportedMediaType *)

Record exn : Type := Exn { exn_class_of : exn_class; exn_str : pystr }.

Inductive result (A : Type) : Type :=
| Ok (a : A)
| Raise (e : exn).
Arguments Ok {A} a.
Arguments Raise {A} e.

Definition rbind {A B} (r : result A) (k : A -> result B) : result B :=
  match r with Ok a => k a | Raise e => Raise e end.

Definition quoted (s : pystr) : pystr := py "'" ++ s ++ py "'".

Definition no_attribute (v : value) (name : pystr) : exn :=
  Exn AttributeError
      (quoted (type_name v) ++ py " object has no attribute " ++ quoted name).

(** [iter(v)]: the elements a [for] loop visits. *)
Definition py_iter (v : value) : result (list value) :=
  match v with
  | VList l => Ok l
  | VDict d => Ok (map (fun kv => VStr (fst kv)) d)
  | VStr s => Ok (map (fun c => VStr [c]) s)
  | _ => Raise (Exn TypeError
                    (quoted (type_name v) ++ py " object is not iterable"))
  end.

(** [v.get(k, default)]; only a [dict] has the method. *)
Definition py_get (v : value) (k : pystr) (default : value) : result value :=
  match v with
  | VDict d => Ok (dict_get_or d k default)
  | _ => Raise (no_attribute v (py "get"))
  end.

(** [k in v] for a string [k]. *)
Definition py_contains (v : value) (k : pystr) : result bool :=
  match v with
  | VDict d => Ok (dict_mem d k)
  | VList l => Ok (existsb (fun x => eq_str x k) l)
  | VStr s => Ok (str_contains k s)
  | _ => Raise (Exn TypeError
                    (py "argument of type " ++ quoted (type_name v)
                        ++ py " is not iterable"))
  end.

(** [v[k]] for a string [k]. *)
Definition py_getitem (v : value) (k : pystr) : result value :=
  match v with
  | VDict d =>
      match dict_get d k with
      | Some x => Ok x
      | None => Raise (Exn KeyError (quoted k))
      end
  | VList _ =>
      Raise (Exn TypeError (py "list indices must be integers or slices, not str"))
  | VStr _ =>
      Raise (Exn TypeError (py "string indices must be integers, not 'str'"))
  | _ => Raise (Exn TypeError
                    (quoted (type_name v) ++ py " object is not subscriptable"))
  end.

(** [v[k] = x] for a string [k]. *)
Definition py_setitem (v : value) (k : pystr) (x : value) : result value :=
  match v with
  | VDict d => Ok (VDict (dict_set d k x))
  | _ => Raise (Exn TypeError
                    (quoted (type_name v)
                       ++ py " object does not support item assignment"))
  end.

(** [sep.join(parts)] with the empty separator: every part must be text. *)
Fixpoint join_from (i : nat) (parts : list value) : result pystr :=
  match parts with
  | [] => Ok []
  | VStr s :: rest => rbind (join_from (S i) rest) (fun t => Ok (s ++ t))
  | v :: _ =>
      Raise (Exn TypeError
                 (py "sequence item " ++ py (NilEmpty.string_of_uint (Nat.to_uint i))
                     ++ py ": expected str instance, " ++ type_name v
                     ++ py " found"))
  end.

Definition py_join (parts : list value) : result pystr := join_from 0 parts.

(** ** Regular expressions ([re])

    The fragment of [re] the program uses: single-character atoms, the
    greedy star of an atom, concatenation and capturing groups, matched
    by backtracking as [re] does (leftmost start, greedy star). *)

Module Re.

Inductive atom : Type :=
| Lit (c : char)             (* an ordinary or escaped character *)
| Dot                        (* [.] under re.DOTALL *)
| Space                      (* [\s] on a str pattern *)
| OneOf (cs : list char).    (* a character set *)

Inductive regex : Type :=
| Atom (a : atom)
| Star (a : atom)
| Cat (r1 r2 : regex)
| Group (r : regex).

(** [str.isspace] on one code point, which is what [\s] tests. *)
Definition is_space (c : char) : bool :=
  ((9 <=? c) && (c <=? 13) || (28 <=? c) && (c <=? 32)
   || (c =? 133) || (c =? 160) || (c =? 5760)
   || (8192 <=? c) && (c <=? 8202)
   || (c =? 8232) || (c =? 8233) || (c =? 8239) || (c =? 8287)
   || (c =? 12288))%N.

Definition atom_matches (a : atom) (c : char) : bool :=
  match a with
  | Lit c' => N.eqb c' c
  | Dot => true
  | Space => is_space c
  | OneOf cs => existsb (N.eqb c) cs
  end.

Section Matcher.
Variable R : Type.

(** Greedy star: take as much as possible, give back one character at
    a time until the continuation succeeds. *)
Fixpoint star_greedy (a : atom) (s : pystr) (k : pystr -> option R)
  : option R :=
  match s with
  | c :: s' =>
      if atom_matches a c then
        match star_greedy a s' k with
        | Some r => Some r
        | None => k s
        end
      else k s
  | [] => k []
  end.

(** [run r s gs k] matches [r] at the start of [s]; [k] receives the
    rest of the text and the groups closed so far. *)
Fixpoint run (r : regex) (s : pystr) (gs : list pystr)
         (k : pystr -> list pystr -> option R) : option R :=
  match r with
  | Atom a =>
      match s with
      | c :: s' => if atom_matches a c then k s' gs else None
      | [] => None
      end
  | Star a => star_greedy a s (fun rest => k rest gs)
  | Cat r1 r2 => run r1 s gs (fun rest gs' => run r2 rest gs' k)
  | Group r1 =>
      run r1 s gs
          (fun rest gs' =>
             k rest (gs' ++ [firstn (List.length s - List.length rest) s]))
  end.
End Matcher.

(** [pattern.match(s)]: the rest of the text after the match, and the
    groups. *)
Definition match_at (r : regex) (s : pystr) : option (pystr * list pystr) :=
  run r s [] (fun rest gs => Some (rest, gs)).

(** [re.search(r, s)]: group 0 of the leftmost match. *)
Fixpoint search (r : regex) (s : pystr) : option pystr :=
  match match_at r s with
  | Some (rest, _) => Some (firstn (List.length s - List.length rest) s)
  | None =>
      match s with
      | [] => None
      | _ :: s' => search r s'
      end
  end.

(** A replacement template: literal text and group references. *)
Inductive repl_item : Type :=
| RLit (c : char)
| RGroup (n : nat).

Definition expand (repl : list repl_item) (gs : list pystr) : pystr :=
  flat_map (fun it => match it with
                      | RLit c => [c]
                      | RGroup n => nth (n - 1) gs []
                      end) repl.

(** [re.sub(r, repl, s)]: non-overlapping matches, left to right.  [skip]
    counts the characters of the current match still to be passed. *)
Fixpoint sub_from (r : regex) (repl : list repl_item) (s : pystr)
         (skip : nat) : pystr :=
  match skip with
  | S k =>
      match s with
      | [] => []
      | _ :: s' => sub_from r repl s' k
      end
  | O =>
      match match_at r s with
      | Some (rest, gs) =>
          expand repl gs ++
          match s with
          | [] => []
          | c :: s' =>
              match List.length s - List.length rest with
              | O => c :: sub_from r repl s' 0
              | S n => sub_from r repl s' n
              end
          end
      | None =>
          match s with
          | [] => []
          | c :: s' => c :: sub_from r repl s' 0
          end
      end
  end.

Definition sub (r : regex) (repl : list repl_item) (s : pystr) : pystr :=
  sub_from r repl s 0.

End Re.

(** ** JSON decoding ([json.loads])

    The decoder of the standard library with its default settings, as its
    C scanner reads a [str]: strict strings, ASCII digits, the constants
    [NaN], [Infinity] and [-Infinity], objects decoded into a [dict]
    (a repeated key keeps its first position and its last value).
    [None] stands for a raised [JSONDecodeError].  The limits of the run
    time (recursion depth, integer digit count) are not modelled: where
    CPython stops at one of them, raising an [Exception] that sends
    [parse_json_block] to its fallback, this decoder goes on and decodes.
    The statements that depend on decoding are stated on the outcome of
    this decoder. *)

Module Json.

Definition is_ws (c : char) : bool :=
  ((c =? 32) || (c =? 9) || (c =? 10) || (c =? 13))%N.

Fixpoint skip_ws (s : pystr) : pystr :=
  match s with
  | c :: s' => if is_ws c then skip_ws s' else s
  | [] => []
  end.

Definition is_digit (c : char) : bool := ((48 <=? c) && (c <=? 57))%N.

Definition hex_digit (c : char) : option N :=
  if is_digit c then Some (c - 48)%N
  else if ((97 <=? c) && (c <=? 102))%N then Some (c - 87)%N
  else if ((65 <=? c) && (c <=? 70))%N then Some (c - 55)%N
  else None.

Definition hex4 (a b c d : char) : option N :=
  match hex_digit a, hex_digit b, hex_digit c, hex_digit d with
  | Some x, Some y, Some z, Some w =>
      Some (((x * 16 + y) * 16 + z) * 16 + w)%N
  | _, _, _, _ => None
  end.

Definition is_high_surrogate (c : N) : bool :=
  ((55296 <=? c) && (c <=? 56319))%N.
Definition is_low_surrogate (c : N) : bool :=
  ((56320 <=? c) && (c <=? 57343))%N.
Definition join_surrogates (hi lo : N) : char :=
  (65536 + ((hi - 55296) * 1024 + (lo - 56320)))%N.

Definition simple_escape (c : char) : option char :=
  if (c =? 34)%N then Some 34%N          (* the quote *)
  else if (c =? 92)%N then Some 92%N     (* the backslash *)
  else if (c =? 47)%N then Some 47%N     (* the slash *)
  else if (c =? 98)%N then Some 8%N      (* escape b *)
  else if (c =? 102)%N then Some 12%N    (* escape f *)
  else if (c =? 110)%N then Some 10%N    (* escape n *)
  else if (c =? 114)%N then Some 13%N    (* escape r *)
  else if (c =? 116)%N then Some 9%N     (* escape t *)
  else None.

(** The body of a string literal, after its opening quote; [acc] is the
    decoded text so far, last character first. *)
Fixpoint scanstring (s : pystr) (acc : pystr) : option (pystr * pystr) :=
  match s with
  | [] => None
  | c :: r =>
      if (c =? 34)%N then Some (rev acc, r)
      else if (c =? 92)%N then
        match r with
        | [] => None
        | e :: r' =>
            if (e =? 117)%N then
              match r' with
              | h1 :: h2 :: h3 :: h4 :: r5 =>
                  match hex4 h1 h2 h3 h4 with
                  | None => None
                  | Some c1 =>
                      if is_high_surrogate c1 then
                        match r5 with
                        | b :: u :: l1 :: l2 :: l3 :: l4 :: ((_ :: _) as r6) =>
                            if ((b =? 92) && (u =? 117))%N then
                              match hex4 l1 l2 l3 l4 with
                              | None => None
                              | Some c2 =>
                                  if is_low_surrogate c2
                                  then scanstring r6 (join_surrogates c1 c2 :: acc)
                                  else scanstring r5 (c1 :: acc)
                              end
                            else scanstring r5 (c1 :: acc)
                        | _ => scanstring r5 (c1 :: acc)
                        end
                      else scanstring r5 (c1 :: acc)
                  end
              | _ => None
              end
            else
              match simple_escape e with
              | Some d => scanstring r' (d :: acc)
              | None => None
              end
        end
      else if (c <=? 31)%N then None
      else scanstring r (c :: acc)
  end.

Fixpoint span_digits (s : pystr) : pystr * pystr :=
  match s with
  | c :: s' =>
      if is_digit c then let (d, r) := span_digits s' in (c :: d, r)
      else ([], s)
  | [] => ([], [])
  end.

Definition digits_value (ds : pystr) : N :=
  fold_left (fun acc c => (acc * 10 + (c - 48))%N) ds 0%N.

Definition signed (negative : bool) (n : N) : Z :=
  if negative then (- Z.of_N n)%Z else Z.of_N n.

(** A number is read in four steps, as the scanner does: an optional
    minus sign; a zero, or a digit string that does not begin with zero;
    a fraction, if a digit follows the point; an exponent, if a digit
    follows [e] and its sign (an exponent without digits is given back). *)
Definition take_sign (s : pystr) : bool * pystr :=
  match s with
  | c :: r => if (c =? 45)%N then (true, r) else (false, s)
  | [] => (false, s)
  end.

Definition take_int (s : pystr) : option (pystr * pystr) :=
  match s with
  | [] => None
  | c :: r =>
      if ((49 <=? c) && (c <=? 57))%N
      then let (d, r') := span_digits r in Some (c :: d, r')
      else if (c =? 48)%N then Some ([c], r)
      else None
  end.

Definition take_frac (s : pystr) : option pystr * pystr :=
  match s with
  | dot :: ((d :: _) as r) =>
      if (dot =? 46)%N && is_digit d
      then let (f, r') := span_digits r in (Some f, r')
      else (None, s)
  | _ => (None, s)
  end.

Definition take_exp (s : pystr) : option Z * pystr :=
  match s with
  | e :: r =>
      if ((e =? 101) || (e =? 69))%N then
        let (eneg, r1) :=
          match r with
          | sg :: r' =>
              if (sg =? 45)%N then (true, r')
              else if (sg =? 43)%N then (false, r')
              else (false, r)
          | [] => (false, r)
          end in
        let (ed, r2) := span_digits r1 in
        match ed with
        | [] => (None, s)
        | _ :: _ => (Some (signed eneg (digits_value ed)), r2)
        end
      else (None, s)
  | [] => (None, s)
  end.

(** Without fraction and exponent the number is an [int], else a
    [float]. *)
Definition match_number (s : pystr) : option (value * pystr) :=
  let (neg, s1) := take_sign s in
  match take_int s1 with
  | None => None
  | Some (ip, s2) =>
      let (frac, s3) := take_frac s2 in
      let (expo, s4) := take_exp s3 in
      match frac, expo with
      | None, None => Some (VInt (signed neg (digits_value ip)), s4)
      | _, _ =>
          let f := match frac with Some f => f | None => [] end in
          let e := match expo with Some e => e | None => 0%Z end in
          Some (VFloat (FDec neg (digits_value (ip ++ f))
                             (e - Z.of_nat (List.length f))), s4)
      end
  end.

Section Containers.
(** The scanner for the values nested one level down. *)
Variable scan : pystr -> option (value * pystr).

(** The elements of an array, from the first one on; every round takes
    at least one character, which [fuel] counts. *)
Fixpoint parse_array_items (fuel : nat) (s : pystr) (acc : list value)
  : option (value * pystr) :=
  match fuel with
  | O => None
  | S n =>
      match scan s with
      | None => None
      | Some (v, r) =>
          match skip_ws r with
          | c :: r' =>
              if (c =? 93)%N then Some (VList (rev (v :: acc)), r')
              else if (c =? 44)%N
                   then parse_array_items n (skip_ws r') (v :: acc)
                   else None
          | [] => None
          end
      end
  end.

Definition parse_array (s : pystr) : option (value * pystr) :=
  match skip_ws s with
  | c :: r =>
      if (c =? 93)%N then Some (VList [], r)
      else parse_array_items (S (List.length s)) (skip_ws s) []
  | [] => None
  end.

(** The members of an object, from the first key on. *)
Fixpoint parse_object_items (fuel : nat) (s : pystr) (acc : dict)
  : option (value * pystr) :=
  match fuel with
  | O => None
  | S n =>
      match s with
      | q :: r =>
          if (q =? 34)%N then
            match scanstring r [] with
            | None => None
            | Some (key, r1) =>
                match skip_ws r1 with
                | colon :: r2 =>
                    if (colon =? 58)%N then
                      match scan (skip_ws r2) with
                      | None => None
                      | Some (v, r3) =>
                          let acc' := dict_set acc key v in
                          match skip_ws r3 with
                          | c :: r4 =>
                              if (c =? 125)%N then Some (VDict acc', r4)
                              else if (c =? 44)%N
                                   then parse_object_items n (skip_ws r4) acc'
                                   else None
                          | [] => None
                          end
                      end
                    else None
                | [] => None
                end
            end
          else None
      | [] => None
      end
  end.

Definition parse_object (s : pystr) : option (value * pystr) :=
  match skip_ws s with
  | c :: r =>
      if (c =? 125)%N then Some (VDict [], r)
      else parse_object_items (S (List.length s)) (skip_ws s) []
  | [] => None
  end.
End Containers.

Definition constant (word : pystr) (v : value) (s : pystr)
           (otherwise : option (value * pystr)) : option (value * pystr) :=
  if starts_with word s then Some (v, skipn (List.length word) s)
  else otherwise.

(** One JSON value at the start of [s]; [depth] bounds the nesting. *)
Fixpoint scan_once (depth : nat) (s : pystr) : option (value * pystr) :=
  match depth with
  | O => None
  | S d =>
      match s with
      | [] => None
      | c :: r =>
          if (c =? 34)%N then
            match scanstring r [] with
            | Some (t, r') => Some (VStr t, r')
            | None => None
            end
          else if (c =? 123)%N then parse_object (scan_once d) r
          else if (c =? 91)%N then parse_array (scan_once d) r
          else if (c =? 110)%N then constant (py "null") VNone s (match_number s)
          else if (c =? 116)%N then constant (py "true") (VBool true) s (match_number s)
          else if (c =? 102)%N then constant (py "false") (VBool false) s (match_number s)
          else if (c =? 78)%N then constant (py "NaN") (VFloat FNaN) s (match_number s)
          else if (c =? 73)%N
               then constant (py "Infinity") (VFloat (FInf false)) s (match_number s)
          else if (c =? 45)%N
               then constant (py "-Infinity") (VFloat (FInf true)) s (match_number s)
          else match_number s
      end
  end.

(** [json.loads(s)]: one value, surrounded by optional white space, and
    nothing else; a leading byte-order mark is refused. *)
Definition loads (s : pystr) : option value :=
  if starts_with [65279%N] s then None
  else
    match scan_once (S (List.length s)) (skip_ws s) with
    | Some (v, rest) =>
        match skip_ws rest with
        | [] => Some v
        | _ :: _ => None
        end
    | None => None
    end.

End Json.

(** ** The world outside the program

    The two services the program calls and what it takes from the
    interpreter.  Each call to a service is recorded, in order, in a log;
    the metadata provider may answer differently from call to call, so
    its answer is a function of the log so far as well as of the query. *)

Record generation_request : Type := GenReq {
  req_model : pystr;
  req_input : pystr;
  req_temperature : pyfloat;
  req_max_output_tokens : Z
}.

Inductive api_outcome : Type :=
| ApiReturn (response : value)
| ApiRaise (message : pystr).

Inductive http_outcome : Type :=
| HttpReply (text : pystr)       (* a response arrived; its body as text *)
| HttpRaise (message : pystr).   (* connection error, timeout, ... *)

Inductive event : Type :=
| GenerationCall (rq : generation_request)
| MetadataCall (params : dict).

Record world : Type := World {
  responses_create : generation_request -> api_outcome;
  requests_get : list event -> dict -> http_outcome;
  (** [str(v)] for the values whose rendering the embedding does not
      compute (numbers, containers). *)
  builtin_str : value -> pystr
}.

(** The process-wide settings read from the environment at start-up.  The
    program refuses to start without [OPENAI_API_KEY]. *)
Record config : Type := Config {
  OPENAI_API_KEY : pystr;
  OMDB_API_KEY : option pystr;
  OPENAI_MODEL : pystr
}.

Definition getenv_value (v : option pystr) : value :=
  match v with Some s => VStr s | None => VNone end.

(** ** Computations that call the world

    A computation takes the log of calls made so far and gives back a
    value or a raised exception, and the extended log. *)

Definition M (A : Type) : Type := list event -> result A * list event.

Definition ret {A} (a : A) : M A := fun log => (Ok a, log).

Definition bind {A B} (m : M A) (k : A -> M B) : M B :=
  fun log =>
    match m log with
    | (Ok a, log') => k a log'
    | (Raise e, log') => (Raise e, log')
    end.

Definition lift {A} (r : result A) : M A := fun log => (r, log).

(** [try: m  except Exception as e: h e]. *)
Definition try_except {A} (m : M A) (h : exn -> M A) : M A :=
  fun log =>
    match m log with
    | (Ok a, log') => (Ok a, log')
    | (Raise e, log') => h e log'
    end.

Declare Scope py_scope.
Delimit Scope py_scope with py.
Notation "x <- m ;; k" := (bind m (fun x => k))
  (at level 61, m at next level, right associativity) : py_scope.
Notation "' pat <- m ;; k" := (bind m (fun x => match x with pat => k end))
  (at level 61, pat pattern, m at next level, right associativity) : py_scope.
Local Open Scope py_scope.

Definition call_responses_create (w : world) (rq : generation_request)
  : M value :=
  fun log =>
    (match responses_create w rq with
     | ApiReturn r => Ok r
     | ApiRaise msg => Raise (Exn APIError msg)
     end,
     log ++ [GenerationCall rq]).

(** [requests.get("https://www.omdbapi.com/", params=params, timeout=8)]
    followed by nothing else: the body is decoded by the caller. *)
Definition call_requests_get (w : world) (params : dict) : M pystr :=
  fun log =>
    (match requests_get w log params with
     | HttpReply text => Ok text
     | HttpRaise msg => Raise (Exn RequestException msg)
     end,
     log ++ [MetadataCall params]).

(** [json.loads] and [res.json()] as they raise.  The decoder's message
    gives the position of the error, which the embedding does not track;
    every call site catches the exception and drops it. *)
Definition json_loads (s : pystr) : result value :=
  match Json.loads s with
  | Some v => Ok v
  | None => Raise (Exn JSONDecodeError (py "invalid JSON"))
  end.

Definition getattr (v : value) (name : pystr) : option value :=
  match v with
  | VObj attrs _ => dict_get attrs name
  | _ => None
  end.

Definition str_of (w : world) (v : value) : pystr :=
  match v with
  | VStr s => s
  | VObj _ rendering => rendering
  | _ => builtin_str w v
  end.

(** ** app.py *)

Definition build_prompt (mood : pystr) : pystr :=
  py "You are a helpful movie curator. Based on the user's mood '" ++ mood
     ++ py "', "
  ++ py "suggest 3 movies and 3 songs." ++ [newline]
  ++ py "Output a valid JSON object with keys 'movies' and 'songs'." ++ [newline]
  ++ py "Each movie must have: title, year (if known), why (1 sentence)." ++ [newline]
  ++ py "Each song must have: title, artist (if known), why (1 sentence)." ++ [newline]
  ++ py "Return strictly JSON, no other text." ++ [newline]
  ++ py "Example:" ++ [newline]
  ++ py "{"
  ++ pyq "`movies`: ["
  ++ pyq "{`title`: `In the Mood for Love`, `year`: `2000`, `why`: `A melancholic and visually poetic film about longing.`}"
  ++ py "],"
  ++ pyq "`songs`: ["
  ++ pyq "{`title`: `The Look of Love`, `artist`: `Dusty Springfield`, `why`: `Smooth and romantic.`}"
  ++ py "]}".

(** The inner loop body of [extract_text_from_response]: one element [c]
    of a block's content list. *)
Definition collect_fragment (parts : list value) (c : value) : list value :=
  match c with
  | VStr _ => parts ++ [c]
  | VDict d =>
      match dict_get d (py "text") with
      | Some t => parts ++ [t]
      | None => parts
      end
  | _ => parts
  end.

(** The outer loop body: one [block] of the output sequence. *)
Definition collect_block (parts : list value) (block : value) : list value :=
  match block with
  | VDict d =>
      match dict_get_or d (py "content") VNone with
      | VList cs => fold_left collect_fragment cs parts
      | VStr s => parts ++ [VStr s]
      | _ => parts
      end
  | _ => parts
  end.

(** [hasattr(response, "output_text") and response.output_text], which
    is the attribute when it is there and truthy. *)
Definition populated_output_text (response : value) : option value :=
  match getattr response (py "output_text") with
  | Some t => if truthy t then Some t else None
  | None => None
  end.

Definition extract_text_from_response (w : world) (response : value)
  : result value :=
  match populated_output_text response with
  | Some t => Ok t
  | None =>
      let output :=
        match getattr response (py "output") with
        | Some o => o
        | None => VNone
        end in
      if truthy output then
        rbind (py_iter output) (fun blocks =>
        rbind (py_join (fold_left collect_block blocks [])) (fun s =>
        Ok (VStr s)))
      else Ok (VStr (str_of w response))
  end.

(** The two patterns of [parse_json_block]: an opening brace, anything,
    a closing brace; and a comma, white space, then a captured closing
    brace or bracket. *)
Definition brace_span : Re.regex :=
  Re.Cat (Re.Atom (Re.Lit (ch "{")))
         (Re.Cat (Re.Star Re.Dot) (Re.Atom (Re.Lit (ch "}")))).

Definition trailing_comma : Re.regex :=
  Re.Cat (Re.Atom (Re.Lit (ch ",")))
         (Re.Cat (Re.Star Re.Space)
                 (Re.Group (Re.Atom (Re.OneOf [ch "}"; ch "]"])))).

(** The typographic quotes: U+201C, U+201D and U+2019. *)
Definition left_double_quote : char := 8220%N.
Definition right_double_quote : char := 8221%N.
Definition right_single_quote : char := 8217%N.

Definition normalize_quotes (text : pystr) : pystr :=
  replace_char right_single_quote (py "'")
    (replace_char right_double_quote [dquote]
       (replace_char left_double_quote [dquote] text)).

Definition raw_text_fallback (text : pystr) : value :=
  VDict [(py "raw_text", VStr text)].

(** The text handed to the decoder: the span from the first opening brace
    to the last closing brace if there is one, else the whole text; then
    without the commas that precede a closing brace or bracket. *)
Definition json_candidate (text : pystr) : pystr :=
  let candidate :=
    match Re.search brace_span text with
    | Some m => m
    | None => text
    end in
  Re.sub trailing_comma [Re.RGroup 1] candidate.

Definition parse_json_block (text : pystr) : result value :=
  let text := normalize_quotes text in
  let candidate := json_candidate text in
  match json_loads candidate with
  | Ok v => Ok v
  | Raise _ => Ok (raw_text_fallback text)
  end.

Definition all_absent : value * value * value * value :=
  (VNone, VNone, VNone, VNone).

(** The query of a lookup: [{"t": title, "apikey": key}], and [y] when
    [year] is truthy. *)
Definition omdb_params (key title year : value) : dict :=
  let params := [(py "t", title); (py "apikey", key)] in
  if truthy year then dict_set params (py "y") year else params.

Definition omdb_lookup (cfg : config) (w : world) (title year : value)
  : M (value * value * value * value) :=
  if negb (truthy (getenv_value (OMDB_API_KEY cfg))) then ret all_absent
  else
    found <-
      try_except
        (let params :=
           omdb_params (getenv_value (OMDB_API_KEY cfg)) title year in
         res <- call_requests_get w params ;;
         data <- lift (json_loads res) ;;
         response <- lift (py_get data (py "Response") VNone) ;;
         if eq_str response (py "True") then
           poster <- lift (py_get data (py "Poster") VNone) ;;
           real_year <- lift (py_get data (py "Year") VNone) ;;
           genre <- lift (py_get data (py "Genre") VNone) ;;
           plot <- lift (py_get data (py "Plot") VNone) ;;
           ret (Some (if negb (eq_str poster (py "N/A")) then poster else VNone,
                      real_year, genre, plot))
         else ret None)
        (fun _ => ret None) ;;
    match found with
    | Some answer => ret answer
    | None => ret all_absent
    end.

Definition poster_placeholder : pystr := py "/static/poster-placeholder.png".

(** The body of the enrichment loop, for one movie [m]. *)
Definition enrich_movie (cfg : config) (w : world) (m : value) : M value :=
  title <- lift (py_get m (py "title") VNone) ;;
  year <- lift (py_get m (py "year") VNone) ;;
  why <- lift (py_get m (py "why") (VStr [])) ;;
  '(poster, real_year, genre, plot) <- omdb_lookup cfg w title year ;;
  ret (VDict [(py "title", title);
              (py "year", py_or real_year year);
              (py "why", why);
              (py "poster_url", py_or poster (VStr poster_placeholder));
              (py "genre", genre);
              (py "plot", plot)]).

(** [for m in movies: ... enriched.append(...)]. *)
Fixpoint enrich_loop (cfg : config) (w : world) (movies : list value)
         (enriched : list value) : M (list value) :=
  match movies with
  | [] => ret enriched
  | m :: rest =>
      e <- enrich_movie cfg w m ;;
      enrich_loop cfg w rest (enriched ++ [e])
  end.

(** What a view function hands to Flask: the dictionary given to
    [jsonify], and a status.  Writing it out as JSON text is Flask's; the
    order of the keys in that text is Flask's choice, not the order
    here. *)
Definition jsonify (body : dict) (status : nat) : value * nat :=
  (VDict body, status).

(** The call [parse_json_block(text)]: [text] must have [str]'s
    [replace]. *)
Definition call_parse_json_block (text : value) : result value :=
  match text with
  | VStr s => parse_json_block s
  | v => Raise (no_attribute v (py "replace"))
  end.

(** The [/recommend] route, from the value [request.get_json()] returned
    on; an exception that leaves the function is Flask's to answer.
    ([recommend_view] below adds the call of [get_json] itself, which
    may raise.) *)
Definition recommend (cfg : config) (w : world) (request_json : value)
  : M (value * nat) :=
  let data := py_or request_json (VDict []) in
  mood <- lift (py_get data (py "mood") VNone) ;;
  if negb (truthy mood) then
    ret (jsonify [(py "error", VStr (py "Mood is required"))] 400)
  else
    let prompt := build_prompt (str_of w mood) in
    try_except
      (response <- call_responses_create w
                     (GenReq (OPENAI_MODEL cfg) prompt (FDec false 7 (-1)) 700) ;;
       text <- lift (extract_text_from_response w response) ;;
       parsed <- lift (call_parse_json_block text) ;;
       has_movies <- lift (py_contains parsed (py "movies")) ;;
       if negb has_movies then
         ret (jsonify [(py "error", VStr (py "No movie data returned"));
                       (py "raw", text)] 200)
       else
         movies <- lift (py_getitem parsed (py "movies")) ;;
         movies <- lift (py_iter movies) ;;
         enriched <- enrich_loop cfg w movies [] ;;
         parsed <- lift (py_setitem parsed (py "movies") (VList enriched)) ;;
         ret (jsonify [(py "recommendations", parsed)] 200))
      (fun e =>
         ret (jsonify [(py "error", VStr (py "OpenAI request failed"));
                       (py "details", VStr (exn_str e))] 500)).

(** * Definitions for the statements *)

(** No typographic quote occurs in the text. *)
Definition plain_quotes (text : pystr) : Prop :=
  ~ In left_double_quote text /\ ~ In right_double_quote text
  /\ ~ In right_single_quote text.

(** The lookup with a credential, as one case analysis on what the
    provider does: only a decoded object whose [Response] is ["True"]
    gives anything else than the four absent fields. *)
Definition provider_answer (reply : http_outcome)
  : value * value * value * value :=
  match reply with
  | HttpRaise _ => all_absent
  | HttpReply body =>
      match Json.loads body with
      | Some (VDict data) =>
          if eq_str (dict_get_or data (py "Response") VNone) (py "True")
          then (let poster := dict_get_or data (py "Poster") VNone in
                if eq_str poster (py "N/A") then VNone else poster,
                dict_get_or data (py "Year") VNone,
                dict_get_or data (py "Genre") VNone,
                dict_get_or data (py "Plot") VNone)
          else all_absent
      | _ => all_absent
      end
  end.

Definition generation_request_for (cfg : config) (prompt : pystr)
  : generation_request :=
  GenReq (OPENAI_MODEL cfg) prompt (FDec false 7 (-1)) 700.

Definition mood_required : value * nat :=
  jsonify [(py "error", VStr (py "Mood is required"))] 400.

Definition no_movie_data (text : value) : value * nat :=
  jsonify [(py "error", VStr (py "No movie data returned"));
           (py "raw", text)] 200.

Definition request_failed (details : pystr) : value * nat :=
  jsonify [(py "error", VStr (py "OpenAI request failed"));
           (py "details", VStr details)] 500.

Definition recommendations (parsed : value) : value * nat :=
  jsonify [(py "recommendations", parsed)] 200.

(** [(request.get_json() or {}).get("mood")]. *)
Definition request_mood (request_json : value) : result value :=
  py_get (py_or request_json (VDict [])) (py "mood") VNone.

(** The statements of the [try] block that follow the generation call. *)
Definition after_generation (cfg : config) (w : world) (response : value)
  : M (value * nat) :=
  text <- lift (extract_text_from_response w response) ;;
  parsed <- lift (call_parse_json_block text) ;;
  has_movies <- lift (py_contains parsed (py "movies")) ;;
  if negb has_movies then ret (no_movie_data text)
  else
    movies <- lift (py_getitem parsed (py "movies")) ;;
    movies <- lift (py_iter movies) ;;
    enriched <- enrich_loop cfg w movies [] ;;
    parsed <- lift (py_setitem parsed (py "movies") (VList enriched)) ;;
    ret (recommendations parsed).

(** What the [except] clause makes of the outcome of the [try] block. *)
Definition caught (r : result (value * nat) * list event)
  : result (value * nat) * list event :=
  match r with
  | (Ok a, log) => (Ok a, log)
  | (Raise e, log) => (Ok (request_failed (exn_str e)), log)
  end.

(** What a lookup returns and what it adds to the log, in closed form. *)
Definition lookup_answer (cfg : config) (w : world) (title year : value)
           (log : list event) : value * value * value * value :=
  let key := getenv_value (OMDB_API_KEY cfg) in
  if truthy key
  then provider_answer (requests_get w log (omdb_params key title year))
  else all_absent.

Definition lookup_log (cfg : config) (title year : value) (log : list event)
  : list event :=
  let key := getenv_value (OMDB_API_KEY cfg) in
  if truthy key then log ++ [MetadataCall (omdb_params key title year)]
  else log.

(** The entry built for the movie [d] from the answer of its lookup. *)
Definition enriched_entry (d : dict) (answer : value * value * value * value)
  : value :=
  let '(poster, real_year, genre, plot) := answer in
  VDict [(py "title", dict_get_or d (py "title") VNone);
         (py "year", py_or real_year (dict_get_or d (py "year") VNone));
         (py "why", dict_get_or d (py "why") (VStr []));
         (py "poster_url", py_or poster (VStr poster_placeholder));
         (py "genre", genre);
         (py "plot", plot)].

Definition movie_lookup_answer (cfg : config) (w : world) (d : dict)
           (log : list event) : value * value * value * value :=
  lookup_answer cfg w (dict_get_or d (py "title") VNone)
                (dict_get_or d (py "year") VNone) log.

(** [e] is the entry of the movie [m]: [m] is an object and [e] is built
    from it and from the answer to its lookup, made at some point [l] of
    the log. *)
Definition enriches (cfg : config) (w : world) (m e : value) : Prop :=
  exists (d : dict) (l : list event),
    m = VDict d /\ e = enriched_entry d (movie_lookup_answer cfg w d l).

(** Following the specification: the poster URL an enriched movie is to show,
    given the credential and what the provider did with the lookup.  It
    is the provider's poster when the lookup succeeded and brought one
    that is neither the marker [N/A] nor empty, and the placeholder when
    there is no credential, the lookup failed, or it brought no poster. *)
Definition expected_poster_url (cfg : config) (reply : http_outcome) : value :=
  match OMDB_API_KEY cfg with
  | None | Some [] => VStr poster_placeholder
  | Some (_ :: _) =>
      match reply with
      | HttpRaise _ => VStr poster_placeholder
      | HttpReply body =>
          match Json.loads body with
          | Some (VDict data) =>
              if eq_str (dict_get_or data (py "Response") VNone) (py "True")
              then
                match dict_get data (py "Poster") with
                | None => VStr poster_placeholder
                | Some p =>
                    if eq_str p (py "N/A") then VStr poster_placeholder
                    else if truthy p then p
                         else VStr poster_placeholder
                end
              else VStr poster_placeholder
          | _ => VStr poster_placeholder
          end
      end
  end.

(** The provider keeps to its interface: a [Poster] field, when a reply
    has one, is text or null. *)
Definition poster_is_text (w : world) : Prop :=
  forall (log : list event) (params : dict) (body : pystr) (data : dict)
         (p : value),
    requests_get w log params = HttpReply body ->
    Json.loads body = Some (VDict data) ->
    dict_get data (py "Poster") = Some p ->
    p = VNone \/ exists s, p = VStr s.

(** The query made for the movie [d]. *)
Definition movie_params (cfg : config) (d : dict) : dict :=
  omdb_params (getenv_value (OMDB_API_KEY cfg))
              (dict_get_or d (py "title") VNone)
              (dict_get_or d (py "year") VNone).

Definition poster_url_of (e : value) : option value :=
  match e with
  | VDict d => dict_get d (py "poster_url")
  | _ => None
  end.

(** Following the specification: the fragments one element of a content
    sequence contributes, and those of one block. *)
Definition element_fragments (c : value) : list value :=
  match c with
  | VStr s => [VStr s]
  | VDict d =>
      match dict_get d (py "text") with
      | Some t => [t]
      | None => []
      end
  | _ => []
  end.

Definition block_fragments (block : value) : list value :=
  match block with
  | VDict d =>
      match dict_get d (py "content") with
      | Some (VList cs) => flat_map element_fragments cs
      | Some (VStr s) => [VStr s]
      | _ => []
      end
  | _ => []
  end.

(** A configuration and a world to run the program in: the model answers
    every prompt with [text], the provider every lookup with [reply]. *)
Definition sample_config : config :=
  Config (py "sk-sample") (Some (py "omdb-sample")) (py "gpt-4o-mini").

Definition sample_config_no_key : config :=
  Config (py "sk-sample") None (py "gpt-4o-mini").

Definition sample_world_of (response : value) (reply : http_outcome)
  : world :=
  World (fun _ => ApiReturn response)
        (fun _ _ => reply)
        (fun _ => py "<value>").

Definition sample_response (text : pystr) : value :=
  VObj [(py "output_text", VStr text)] (py "<Response>").

Definition sample_world (text : pystr) (reply : http_outcome) : world :=
  sample_world_of (sample_response text) reply.

Definition sample_request : value := VDict [(py "mood", VStr (py "wistful"))].

Definition sample_mood : value := VStr (py "wistful").

(** A run that succeeds: one suggested movie, one song, and a provider
    that knows the movie. *)
Definition sample_model_text : pystr :=
  pyq "{`movies`: [{`title`: `Heat`, `year`: `1995`, `why`: `Tense.`}], `songs`: [{`title`: `Blue`}]}".

Definition sample_provider_reply : http_outcome :=
  HttpReply
    (pyq "{`Response`: `True`, `Poster`: `https://img.example/heat.jpg`, `Year`: `1995`, `Genre`: `Crime`, `Plot`: `A heist.`}").

Definition sample_success_world : world :=
  sample_world sample_model_text sample_provider_reply.

(** Two runs in which the generation call returns: the model lists its
    movies as plain titles; the response has no direct text and a
    fragment whose [text] is a number. *)
Definition titles_only_world : world :=
  sample_world (pyq "{`movies`: [`Inception`]}") (HttpRaise []).

Definition numeric_fragment_response : value :=
  VObj [(py "output",
         VList [VDict [(py "content",
                        VList [VDict [(py "text", VInt 5)]])]])]
       (py "<Response>").

Definition numeric_fragment_world : world :=
  sample_world_of numeric_fragment_response (HttpRaise []).

Definition sample_generation_request (w : world) : generation_request :=
  generation_request_for sample_config (build_prompt (str_of w sample_mood)).

(** ** Start-up

    The module-level statements of [app.py] that read the environment.
    [environ] is the process environment as [os.getenv] sees it; the
    outcome is the settings and what was printed, or the [RuntimeError]
    that stops the process.  (Creating the Flask application and the SDK
    client is left to those libraries.) *)

Inductive startup_outcome : Type :=
| Started (cfg : config) (printed : list pystr)
| StartupError (message : pystr).

(** The warning: U+26A0 U+FE0F, the text, with U+2014 as its dash. *)
Definition omdb_warning : pystr :=
  [9888%N; 65039%N] ++ py " OMDb key not found " ++ [8212%N]
  ++ py " posters will not load.".

Definition startup (environ : pystr -> option pystr) : startup_outcome :=
  let openai_api_key := environ (py "OPENAI_API_KEY") in
  let omdb_api_key := environ (py "OMDB_API_KEY") in
  match openai_api_key with
  | None | Some [] =>
      StartupError (py "Please set your OPENAI_API_KEY in the environment.")
  | Some (c :: key) =>
      let printed :=
        if negb (truthy (getenv_value omdb_api_key)) then [omdb_warning]
        else [] in
      let openai_model :=
        match environ (py "OPENAI_MODEL") with
        | Some m => m
        | None => py "gpt-4o-mini"
        end in
      Started (Config (c :: key) omdb_api_key openai_model) printed
  end.

(** ** More definitions for the statements *)

Definition is_metadata_call (ev : event) : Prop :=
  match ev with
  | MetadataCall _ => True
  | GenerationCall _ => False
  end.

(** The lookups the enrichment loop issues for [movies], in order: one
    for each movie when a credential is configured, none otherwise. *)
Definition lookup_calls (cfg : config) (movies : list value) : list event :=
  if truthy (getenv_value (OMDB_API_KEY cfg))
  then flat_map (fun m => match m with
                          | VDict d => [MetadataCall (movie_params cfg d)]
                          | _ => []
                          end) movies
  else [].

(** The characters the comma rewrite may delete. *)
Definition comma_or_space (c : char) : bool :=
  N.eqb c (ch ",") || Re.is_space c.

(** The six keys of an enriched movie, in the order the loop writes
    them. *)
Definition enriched_keys : list pystr :=
  [py "title"; py "year"; py "why"; py "poster_url"; py "genre"; py "plot"].

(** The example the prompt shows to the model, decoded. *)
Definition prompt_example : value :=
  VDict [(py "movies",
          VList [VDict [(py "title", VStr (py "In the Mood for Love"));
                        (py "year", VStr (py "2000"));
                        (py "why",
                         VStr (py "A melancholic and visually poetic film about longing."))]]);
         (py "songs",
          VList [VDict [(py "title", VStr (py "The Look of Love"));
                        (py "artist", VStr (py "Dusty Springfield"));
                        (py "why", VStr (py "Smooth and romantic."))]])].

Definition is_text (v : value) : bool :=
  match v with VStr _ => true | _ => false end.

(** What is left to match after the star of [brace_span]. *)
Definition closing_brace (rest0 : pystr) : option (pystr * list pystr) :=
  Re.run (Re.Atom (Re.Lit (ch "}"))) rest0 []
         (fun rest gs => Some (rest, gs)).

(** The prompt, cut in two: everything up to the example, and the
    example as text. *)
Definition prompt_head (mood : pystr) : pystr :=
  py "You are a helpful movie curator. Based on the user's mood '" ++ mood
  ++ py "', suggest 3 movies and 3 songs." ++ [newline]
  ++ py "Output a valid JSON object with keys 'movies' and 'songs'." ++ [newline]
  ++ py "Each movie must have: title, year (if known), why (1 sentence)." ++ [newline]
  ++ py "Each song must have: title, artist (if known), why (1 sentence)." ++ [newline]
  ++ py "Return strictly JSON, no other text." ++ [newline]
  ++ py "Example:" ++ [newline].

Definition prompt_example_text : pystr :=
  pyq "{`movies`: [{`title`: `In the Mood for Love`, `year`: `2000`, `why`: `A melancholic and visually poetic film about longing.`}],`songs`: [{`title`: `The Look of Love`, `artist`: `Dusty Springfield`, `why`: `Smooth and romantic.`}]}".

(** What the continuation of the star of [trailing_comma] accepts: one
    closing character, captured. *)
Definition closing_group (rest0 : pystr) : option (pystr * list pystr) :=
  Re.run (Re.Group (Re.Atom (Re.OneOf [ch "}"; ch "]"]))) rest0 []
         (fun rest gs => Some (rest, gs)).

(** More sample runs: an environment with the generation credential
    only; a response made of opaque blocks; a model that answers with a
    JSON list, and one that suggests no movie. *)
Definition sample_environ (name : pystr) : option pystr :=
  if str_eqb name (py "OPENAI_API_KEY") then Some (py "sk-sample") else None.

Definition opaque_blocks_response : value :=
  VObj [(py "output", VList [VObj [] (py "<Message>")])] (py "<Response>").

Definition opaque_blocks_world : world :=
  sample_world_of opaque_blocks_response (HttpRaise []).

Definition list_output_world : world :=
  sample_world (py "[1, 2]") (HttpRaise []).

Definition no_movies_text : pystr := pyq "{`movies`: [], `songs`: []}".

Definition no_movies_world : world :=
  sample_world no_movies_text (HttpRaise []).

(** Runs for the cases the route does not take softly: a model whose
    text is a number or [null], and a provider whose [Poster] is a
    number. *)
Definition number_output_world : world :=
  sample_world (py "42") (HttpRaise []).

Definition null_output_world : world :=
  sample_world (py "null") (HttpRaise []).

Definition numeric_poster_world : world :=
  sample_world sample_model_text
               (HttpReply (pyq "{`Response`: `True`, `Poster`: 5}")).

(** Line 108 as a whole: [request.get_json()] is called first, and
    either returns the decoded body or raises (an [HTTPException]:
    [BadRequest] for a body that is not JSON, [UnsupportedMediaType] for
    a request whose content type is not JSON); the rest of the view runs
    on what it returned. *)
Definition recommend_view (cfg : config) (w : world)
           (get_json : result value) : M (value * nat) :=
  (request_json <- lift get_json ;;
   recommend cfg w request_json)%py.

(** The year an enriched movie is to show, by cases on the credential, what the provider did with the movie's lookup
    and the year the model suggested.  It is the provider's [Year] when
    a credential is configured, the reply decodes to an object whose
    [Response] is ["True"] and its [Year] is truthy; it is the suggested
    year in every other case. *)
Definition expected_year (cfg : config) (reply : http_outcome)
           (suggested : value) : value :=
  match OMDB_API_KEY cfg with
  | None | Some [] => suggested
  | Some (_ :: _) =>
      match reply with
      | HttpRaise _ => suggested
      | HttpReply body =>
          match Json.loads body with
          | Some (VDict data) =>
              if eq_str (dict_get_or data (py "Response") VNone) (py "True")
              then
                match dict_get data (py "Year") with
                | Some y => if truthy y then y else suggested
                | None => suggested
                end
              else suggested
          | _ => suggested
          end
      end
  end.

(** The log when the lookup of the movie at position [i] is made: the
    log at the start of the request, the generation call, and the
    lookups of the movies before it. *)
Definition log_at_lookup (cfg : config) (w : world) (mood : value)
           (log : list event) (movies : list value) (i : nat) : list event :=
  (log ++ [GenerationCall
             (generation_request_for cfg (build_prompt (str_of w mood)))])
    ++ lookup_calls cfg (firstn i movies).

(** A provider whose [Year] differs from the model's. *)
Definition other_year_reply : http_outcome :=
  HttpReply (pyq "{`Response`: `True`, `Year`: `1996`}").

Definition other_year_world : world :=
  sample_world sample_model_text other_year_reply.

(** * Properties *)

(** ** The decoder's bounds

    Every scanner consumes input, so the counters of the decoder (the
    nesting depth of [scan_once], the rounds of the element loops) never
    run out before the input does: a larger counter gives the same
    answer, and [None] always is a decoding error. *)

Lemma skip_ws_length (s : pystr) :
  List.length (Json.skip_ws s) <= List.length s.
Proof.
  induction s as [| c s IH]; cbn [Json.skip_ws List.length]; [lia |].
  destruct (Json.is_ws c); cbn [List.length]; lia.
Qed.

Ltac case_scrutinee H :=
  match type of H with
  | context [if ?b then _ else _] => destruct b eqn:?
  | context [match ?x with _ => _ end] => destruct x eqn:?
  end.

Lemma scanstring_shorter (n : nat) :
  forall (s acc t r : pystr),
    List.length s <= n ->
    Json.scanstring s acc = Some (t, r) ->
    List.length r < List.length s.
Proof.
  induction n as [| n IH]; intros s acc t r Hn H.
  - destruct s; [discriminate H | cbn [List.length] in Hn; lia].
  - destruct s as [| c s1]; [discriminate H |].
    cbn [Json.scanstring] in H. cbn [List.length] in Hn |- *.
    repeat (first
              [ discriminate H
              | injection H as _ <-; lia
              | apply IH in H; [cbn [List.length] in *; lia
                               | cbn [List.length] in *; lia]
              | case_scrutinee H; subst ]).
Qed.

Lemma span_digits_length (s : pystr) :
  forall d r, Json.span_digits s = (d, r) -> List.length r <= List.length s.
Proof.
  induction s as [| c s IH]; intros d r H; cbn [Json.span_digits] in H.
  - injection H as _ <-. lia.
  - destruct (Json.is_digit c).
    + destruct (Json.span_digits s) as [d0 r0]. injection H as _ <-.
      specialize (IH d0 r0 eq_refl). cbn [List.length]. lia.
    + injection H as _ <-. lia.
Qed.

Lemma take_sign_length (s : pystr) (neg : bool) (r : pystr) :
  Json.take_sign s = (neg, r) -> List.length r <= List.length s.
Proof.
  unfold Json.take_sign. destruct s as [| c s]; [intro H | destruct (c =? 45)%N; intro H];
    injection H as _ <-; cbn [List.length]; lia.
Qed.

Lemma take_int_shorter (s ip r : pystr) :
  Json.take_int s = Some (ip, r) -> List.length r < List.length s.
Proof.
  unfold Json.take_int. destruct s as [| c s]; [discriminate |].
  destruct ((49 <=? c) && (c <=? 57))%N.
  - destruct (Json.span_digits s) as [d r'] eqn:E.
    apply span_digits_length in E. intro H. injection H as _ <-.
    cbn [List.length]. lia.
  - destruct (c =? 48)%N; [| discriminate].
    intro H. injection H as _ <-. cbn [List.length]. lia.
Qed.

Lemma take_frac_length (s : pystr) (f : option pystr) (r : pystr) :
  Json.take_frac s = (f, r) -> List.length r <= List.length s.
Proof.
  unfold Json.take_frac. destruct s as [| dot [| d s]];
    try (intro H; injection H as _ <-; lia).
  destruct ((dot =? 46)%N && Json.is_digit d).
  - destruct (Json.span_digits (d :: s)) as [f' r'] eqn:E.
    apply span_digits_length in E. intro H. injection H as _ <-.
    cbn [List.length] in *. lia.
  - intro H. injection H as _ <-. lia.
Qed.

Lemma take_exp_length (s : pystr) (e : option Z) (r : pystr) :
  Json.take_exp s = (e, r) -> List.length r <= List.length s.
Proof.
  unfold Json.take_exp. destruct s as [| c s];
    [intro H; injection H as _ <-; lia |].
  destruct ((c =? 101) || (c =? 69))%N;
    [| intro H; injection H as _ <-; lia].
  assert (B : forall (eneg : bool) (r1 : pystr),
             List.length r1 <= List.length s ->
             (let (ed, r2) := Json.span_digits r1 in
              match ed with
              | [] => (None, c :: s)
              | _ :: _ => (Some (Json.signed eneg (Json.digits_value ed)), r2)
              end) = (e, r) ->
             List.length r <= List.length (c :: s)).
  { intros eneg r1 L. destruct (Json.span_digits r1) as [ed r2] eqn:E.
    apply span_digits_length in E.
    destruct ed; intro H; injection H as _ <-; cbn [List.length]; lia. }
  destruct s as [| sg s']; [apply B; cbn [List.length]; lia |].
  destruct (sg =? 45)%N; [apply B; cbn [List.length]; lia |].
  destruct (sg =? 43)%N; apply B; cbn [List.length]; lia.
Qed.

Lemma match_number_shorter (s : pystr) (v : value) (r : pystr) :
  Json.match_number s = Some (v, r) -> List.length r < List.length s.
Proof.
  unfold Json.match_number.
  destruct (Json.take_sign s) as [neg s1] eqn:E1.
  apply take_sign_length in E1.
  destruct (Json.take_int s1) as [[ip s2] |] eqn:E2; [| discriminate].
  apply take_int_shorter in E2.
  destruct (Json.take_frac s2) as [frac s3] eqn:E3.
  apply take_frac_length in E3.
  destruct (Json.take_exp s3) as [expo s4] eqn:E4.
  apply take_exp_length in E4.
  destruct frac, expo; intro H; injection H as _ <-; lia.
Qed.

Lemma constant_shorter (word : pystr) (v : value) (s : pystr)
      (otherwise : option (value * pystr)) (v' : value) (r : pystr) :
  word <> [] ->
  (otherwise = Some (v', r) -> List.length r < List.length s) ->
  Json.constant word v s otherwise = Some (v', r) ->
  List.length r < List.length s.
Proof.
  intros Hw Ho. unfold Json.constant.
  destruct (starts_with word s) eqn:E; [| exact Ho].
  intro H. injection H as _ <-.
  assert (L : List.length word <= List.length s).
  { clear - E. revert s E. induction word as [| p word IH]; intros s E.
    - cbn. lia.
    - destruct s as [| c s]; [discriminate E |].
      cbn [starts_with] in E. apply andb_true_iff in E. destruct E as [_ E].
      specialize (IH s E). cbn [List.length]. lia. }
  rewrite length_skipn. destruct word; [contradiction Hw; reflexivity |].
  cbn [List.length] in *. lia.
Qed.

Section ContainerBounds.
Variable scan : pystr -> option (value * pystr).
Hypothesis scan_shorter :
  forall s v r, scan s = Some (v, r) -> List.length r < List.length s.

Lemma parse_array_items_shorter (fuel : nat) :
  forall s acc v r,
    Json.parse_array_items scan fuel s acc = Some (v, r) ->
    List.length r < List.length s.
Proof.
  induction fuel as [| n IH]; intros s acc v r H; [discriminate H |].
  cbn [Json.parse_array_items] in H.
  destruct (scan s) as [[v0 r0] |] eqn:E; [| discriminate H].
  apply scan_shorter in E.
  pose proof (skip_ws_length r0) as W.
  destruct (Json.skip_ws r0) as [| c r1]; [discriminate H |].
  cbn [List.length] in W.
  destruct (c =? 93)%N.
  - injection H as _ <-. lia.
  - destruct (c =? 44)%N; [| discriminate H].
    apply IH in H. pose proof (skip_ws_length r1). lia.
Qed.

Lemma parse_array_items_fuel (f1 : nat) :
  forall f2 s acc,
    List.length s < f1 -> List.length s < f2 ->
    Json.parse_array_items scan f1 s acc
    = Json.parse_array_items scan f2 s acc.
Proof.
  induction f1 as [| n IH]; intros f2 s acc H1 H2; [lia |].
  destruct f2 as [| m]; [lia |].
  cbn [Json.parse_array_items].
  destruct (scan s) as [[v0 r0] |] eqn:E; [| reflexivity].
  apply scan_shorter in E.
  pose proof (skip_ws_length r0) as W.
  destruct (Json.skip_ws r0) as [| c r1]; [reflexivity |].
  cbn [List.length] in W.
  destruct (c =? 93)%N; [reflexivity |].
  destruct (c =? 44)%N; [| reflexivity].
  pose proof (skip_ws_length r1).
  apply IH; lia.
Qed.

Lemma parse_object_items_shorter (fuel : nat) :
  forall s acc v r,
    Json.parse_object_items scan fuel s acc = Some (v, r) ->
    List.length r < List.length s.
Proof.
  induction fuel as [| n IH]; intros s acc v r H; [discriminate H |].
  cbn [Json.parse_object_items] in H.
  destruct s as [| q s0]; [discriminate H |].
  destruct (q =? 34)%N; [| discriminate H].
  destruct (Json.scanstring s0 []) as [[key r1] |] eqn:K; [| discriminate H].
  apply (scanstring_shorter (n := List.length s0)) in K; [| lia].
  pose proof (skip_ws_length r1) as W1.
  destruct (Json.skip_ws r1) as [| colon r2]; [discriminate H |].
  cbn [List.length] in W1.
  destruct (colon =? 58)%N; [| discriminate H].
  pose proof (skip_ws_length r2) as W2.
  destruct (scan (Json.skip_ws r2)) as [[v0 r3] |] eqn:E; [| discriminate H].
  apply scan_shorter in E.
  pose proof (skip_ws_length r3) as W3.
  destruct (Json.skip_ws r3) as [| c r4]; [discriminate H |].
  cbn [List.length] in W3 |- *.
  destruct (c =? 125)%N.
  - injection H as _ <-. lia.
  - destruct (c =? 44)%N; [| discriminate H].
    apply IH in H. pose proof (skip_ws_length r4). lia.
Qed.

Lemma parse_object_items_fuel (f1 : nat) :
  forall f2 s acc,
    List.length s < f1 -> List.length s < f2 ->
    Json.parse_object_items scan f1 s acc
    = Json.parse_object_items scan f2 s acc.
Proof.
  induction f1 as [| n IH]; intros f2 s acc H1 H2; [lia |].
  destruct f2 as [| m]; [lia |].
  cbn [Json.parse_object_items].
  destruct s as [| q s0]; [reflexivity |].
  destruct (q =? 34)%N; [| reflexivity].
  destruct (Json.scanstring s0 []) as [[key r1] |] eqn:K; [| reflexivity].
  apply (scanstring_shorter (n := List.length s0)) in K; [| lia].
  pose proof (skip_ws_length r1) as W1.
  destruct (Json.skip_ws r1) as [| colon r2]; [reflexivity |].
  cbn [List.length] in W1.
  destruct (colon =? 58)%N; [| reflexivity].
  pose proof (skip_ws_length r2) as W2.
  destruct (scan (Json.skip_ws r2)) as [[v0 r3] |] eqn:E; [| reflexivity].
  apply scan_shorter in E.
  pose proof (skip_ws_length r3) as W3.
  destruct (Json.skip_ws r3) as [| c r4]; [reflexivity |].
  cbn [List.length] in W3, H1, H2.
  destruct (c =? 125)%N; [reflexivity |].
  destruct (c =? 44)%N; [| reflexivity].
  pose proof (skip_ws_length r4).
  apply IH; lia.
Qed.

Lemma parse_array_shorter (s : pystr) (v : value) (r : pystr) :
  Json.parse_array scan s = Some (v, r) -> List.length r < S (List.length s).
Proof.
  unfold Json.parse_array. pose proof (skip_ws_length s) as W.
  destruct (Json.skip_ws s) as [| c r0] eqn:E; [discriminate |].
  destruct (c =? 93)%N.
  - intro H. injection H as _ <-. cbn [List.length] in W. lia.
  - intro H. apply parse_array_items_shorter in H. lia.
Qed.

Lemma parse_object_shorter (s : pystr) (v : value) (r : pystr) :
  Json.parse_object scan s = Some (v, r) -> List.length r < S (List.length s).
Proof.
  unfold Json.parse_object. pose proof (skip_ws_length s) as W.
  destruct (Json.skip_ws s) as [| c r0] eqn:E; [discriminate |].
  destruct (c =? 125)%N.
  - intro H. injection H as _ <-. cbn [List.length] in W. lia.
  - intro H. apply parse_object_items_shorter in H. lia.
Qed.
End ContainerBounds.

Section ScannerAgreement.
Variables scan1 scan2 : pystr -> option (value * pystr).
Variable n : nat.
Hypothesis agree : forall s, List.length s <= n -> scan1 s = scan2 s.
Hypothesis scan1_shorter :
  forall s v r, scan1 s = Some (v, r) -> List.length r < List.length s.

Lemma parse_array_items_agree (fuel : nat) :
  forall s acc,
    List.length s <= n ->
    Json.parse_array_items scan1 fuel s acc
    = Json.parse_array_items scan2 fuel s acc.
Proof.
  induction fuel as [| m IH]; intros s acc L; [reflexivity |].
  cbn [Json.parse_array_items]. rewrite <- (agree s L).
  destruct (scan1 s) as [[v0 r0] |] eqn:E; [| reflexivity].
  apply scan1_shorter in E.
  pose proof (skip_ws_length r0) as W.
  destruct (Json.skip_ws r0) as [| c r1]; [reflexivity |].
  cbn [List.length] in W.
  destruct (c =? 93)%N; [reflexivity |].
  destruct (c =? 44)%N; [| reflexivity].
  pose proof (skip_ws_length r1).
  apply IH. lia.
Qed.

Lemma parse_object_items_agree (fuel : nat) :
  forall s acc,
    List.length s <= n ->
    Json.parse_object_items scan1 fuel s acc
    = Json.parse_object_items scan2 fuel s acc.
Proof.
  induction fuel as [| m IH]; intros s acc L; [reflexivity |].
  cbn [Json.parse_object_items].
  destruct s as [| q s0]; [reflexivity |].
  destruct (q =? 34)%N; [| reflexivity].
  destruct (Json.scanstring s0 []) as [[key r1] |] eqn:K; [| reflexivity].
  apply (scanstring_shorter (n := List.length s0)) in K; [| lia].
  pose proof (skip_ws_length r1) as W1.
  destruct (Json.skip_ws r1) as [| colon r2]; [reflexivity |].
  cbn [List.length] in W1, L.
  destruct (colon =? 58)%N; [| reflexivity].
  pose proof (skip_ws_length r2) as W2.
  rewrite <- (agree (Json.skip_ws r2)) by lia.
  destruct (scan1 (Json.skip_ws r2)) as [[v0 r3] |] eqn:E; [| reflexivity].
  apply scan1_shorter in E.
  pose proof (skip_ws_length r3) as W3.
  destruct (Json.skip_ws r3) as [| c r4]; [reflexivity |].
  cbn [List.length] in W3.
  destruct (c =? 125)%N; [reflexivity |].
  destruct (c =? 44)%N; [| reflexivity].
  pose proof (skip_ws_length r4).
  apply IH. lia.
Qed.

Lemma parse_array_agree (s : pystr) :
  List.length s <= n ->
  Json.parse_array scan1 s = Json.parse_array scan2 s.
Proof.
  intro L. unfold Json.parse_array. pose proof (skip_ws_length s) as W.
  destruct (Json.skip_ws s) as [| c r0]; [reflexivity |].
  destruct (c =? 93)%N; [reflexivity |].
  apply parse_array_items_agree. lia.
Qed.

Lemma parse_object_agree (s : pystr) :
  List.length s <= n ->
  Json.parse_object scan1 s = Json.parse_object scan2 s.
Proof.
  intro L. unfold Json.parse_object. pose proof (skip_ws_length s) as W.
  destruct (Json.skip_ws s) as [| c r0]; [reflexivity |].
  destruct (c =? 125)%N; [reflexivity |].
  apply parse_object_items_agree. lia.
Qed.
End ScannerAgreement.

Lemma scan_once_shorter (depth : nat) :
  forall s v r,
    Json.scan_once depth s = Some (v, r) -> List.length r < List.length s.
Proof.
  induction depth as [| d IH]; intros s v r H; [discriminate H |].
  cbn [Json.scan_once] in H.
  destruct s as [| c s0]; [discriminate H |].
  assert (Hn : Json.match_number (c :: s0) = Some (v, r) ->
               List.length r < List.length (c :: s0))
    by apply match_number_shorter.
  destruct (c =? 34)%N.
  { destruct (Json.scanstring s0 []) as [[t r'] |] eqn:K; [| discriminate H].
    apply (scanstring_shorter (n := List.length s0)) in K; [| lia].
    injection H as _ <-. cbn [List.length]. lia. }
  destruct (c =? 123)%N.
  { apply (@parse_object_shorter (Json.scan_once d) IH) in H. exact H. }
  destruct (c =? 91)%N.
  { apply (@parse_array_shorter (Json.scan_once d) IH) in H. exact H. }
  repeat (match type of H with
          | (if ?b then _ else _) = _ => destruct b
          end;
          [ apply constant_shorter in H;
            [exact H | vm_compute; discriminate | exact Hn] |]).
  apply Hn. exact H.
Qed.

Lemma scan_once_depth (d1 : nat) :
  forall d2 s,
    List.length s < d1 -> List.length s < d2 ->
    Json.scan_once d1 s = Json.scan_once d2 s.
Proof.
  induction d1 as [| d1 IH]; intros d2 s H1 H2; [lia |].
  destruct d2 as [| d2]; [lia |].
  cbn [Json.scan_once].
  destruct s as [| c s0]; [reflexivity |].
  cbn [List.length] in H1, H2.
  assert (A : forall t, List.length t <= List.length s0 ->
                        Json.scan_once d1 t = Json.scan_once d2 t).
  { intros t L. apply IH; lia. }
  destruct (c =? 34)%N; [reflexivity |].
  destruct (c =? 123)%N.
  { apply (@parse_object_agree (Json.scan_once d1) (Json.scan_once d2)
             (List.length s0) A (@scan_once_shorter d1)). lia. }
  destruct (c =? 91)%N.
  { apply (@parse_array_agree (Json.scan_once d1) (Json.scan_once d2)
             (List.length s0) A (@scan_once_shorter d1)). lia. }
  reflexivity.
Qed.

(** The depth [json.loads] starts from is enough: any larger one decodes
    every text to the same result. *)
Theorem loads_depth_irrelevant (s : pystr) (depth : nat) :
  List.length s < depth ->
  Json.scan_once depth (Json.skip_ws s)
  = Json.scan_once (S (List.length s)) (Json.skip_ws s).
Proof.
  intro H. pose proof (skip_ws_length s).
  apply scan_once_depth; lia.
Qed.

(** The element loops as [scan_once] runs them never stop for want of
    rounds. *)
Theorem container_loops_fuel_irrelevant (depth f1 f2 : nat) (s : pystr) :
  List.length s < f1 -> List.length s < f2 ->
  (forall acc, Json.parse_array_items (Json.scan_once depth) f1 s acc
               = Json.parse_array_items (Json.scan_once depth) f2 s acc)
  /\ (forall acc, Json.parse_object_items (Json.scan_once depth) f1 s acc
                  = Json.parse_object_items (Json.scan_once depth) f2 s acc).
Proof.
  intros H1 H2. split; intro acc.
  - apply (@parse_array_items_fuel (Json.scan_once depth)
             (@scan_once_shorter depth)); assumption.
  - apply (@parse_object_items_fuel (Json.scan_once depth)
             (@scan_once_shorter depth)); assumption.
Qed.

(** ** The comma rewrite *)

Lemma star_greedy_spaces (R : Type) (ws : pystr) (c : char) (rest : pystr)
      (k : pystr -> option R) (r : R) :
  forallb Re.is_space ws = true ->
  Re.is_space c = false ->
  k (c :: rest) = Some r ->
  Re.star_greedy Re.Space (ws ++ c :: rest) k = Some r.
Proof.
  intros Hws Hc Hk. induction ws as [| x ws IH]; cbn [app Re.star_greedy].
  - cbn [Re.atom_matches]. rewrite Hc. exact Hk.
  - cbn [forallb] in Hws. apply andb_true_iff in Hws. destruct Hws as [Hx Hws].
    cbn [Re.atom_matches]. rewrite Hx, (IH Hws). reflexivity.
Qed.

Lemma closer_not_space (c : char) :
  c = ch "}" \/ c = ch "]" -> Re.is_space c = false.
Proof. intros [-> | ->]; reflexivity. Qed.

Lemma match_at_trailing_comma (ws : pystr) (c : char) (rest : pystr) :
  forallb Re.is_space ws = true ->
  c = ch "}" \/ c = ch "]" ->
  Re.match_at trailing_comma (ch "," :: ws ++ c :: rest) = Some (rest, [[c]]).
Proof.
  intros Hws Hc. unfold Re.match_at, trailing_comma.
  cbn [Re.run]. cbn [Re.atom_matches]. rewrite N.eqb_refl.
  apply star_greedy_spaces; [exact Hws | apply closer_not_space; exact Hc |].
  cbn [Re.run Re.atom_matches existsb].
  assert (E : (N.eqb c (ch "}") || (N.eqb c (ch "]") || false)) = true).
  { destruct Hc as [-> | ->]; reflexivity. }
  rewrite E. cbn [app List.length].
  replace (S (List.length rest) - List.length rest) with 1 by lia.
  reflexivity.
Qed.

Lemma sub_from_skip (r : Re.regex) (repl : list Re.repl_item)
      (l rest : pystr) :
  Re.sub_from r repl (l ++ rest) (List.length l) = Re.sub_from r repl rest 0.
Proof.
  induction l as [| x l IH]; [reflexivity |].
  cbn [app List.length Re.sub_from]. exact IH.
Qed.

(** One step of the rewrite at a match: the comma and the white space go,
    the closing character stays, and the rewrite goes on behind it. *)
Lemma sub_trailing_comma_match (ws : pystr) (c : char) (rest : pystr) :
  forallb Re.is_space ws = true ->
  c = ch "}" \/ c = ch "]" ->
  Re.sub trailing_comma [Re.RGroup 1] (ch "," :: ws ++ c :: rest)
  = c :: Re.sub trailing_comma [Re.RGroup 1] rest.
Proof.
  intros Hws Hc. unfold Re.sub. cbn [Re.sub_from].
  rewrite (match_at_trailing_comma ws rest Hws Hc).
  cbn [Re.expand flat_map nth Nat.sub app].
  replace (List.length (ch "," :: ws ++ c :: rest) - List.length rest)
    with (S (List.length (ws ++ [c]))).
  2:{ cbn [List.length]. rewrite !length_app. cbn [List.length]. lia. }
  replace (ws ++ c :: rest) with ((ws ++ [c]) ++ rest).
  2:{ rewrite <- app_assoc. reflexivity. }
  rewrite sub_from_skip. reflexivity.
Qed.

(** One step elsewhere: a character that is not a comma is copied. *)
Lemma sub_trailing_comma_other (x : char) (rest : pystr) :
  x <> ch "," ->
  Re.sub trailing_comma [Re.RGroup 1] (x :: rest)
  = x :: Re.sub trailing_comma [Re.RGroup 1] rest.
Proof.
  intro Hx. unfold Re.sub. cbn [Re.sub_from].
  unfold Re.match_at, trailing_comma. cbn [Re.run Re.atom_matches].
  destruct (N.eqb (ch ",") x) eqn:E; [| reflexivity].
  apply N.eqb_eq in E. congruence.
Qed.


(** ** The tolerant parser *)

Lemma json_loads_Ok (s : pystr) (v : value) :
  json_loads s = Ok v <-> Json.loads s = Some v.
Proof.
  unfold json_loads. destruct (Json.loads s); split; intro H;
    inversion H; reflexivity.
Qed.

Lemma json_loads_Raise (s : pystr) :
  (exists e, json_loads s = Raise e) <-> Json.loads s = None.
Proof.
  unfold json_loads. destruct (Json.loads s); split.
  - intros [e H]. discriminate.
  - discriminate.
  - reflexivity.
  - intros _. eexists. reflexivity.
Qed.

(** C2. [parse_json_block] returns a value for every text and never
    raises: the decoded structure when strict decoding of the recovered
    candidate succeeds, and otherwise exactly the fallback
    [{"raw_text": text}] on the normalized text.  In particular the text
    [no json here] gives [{"raw_text": "no json here"}]. *)
Theorem parse_json_block_total :
  (forall text : pystr,
      parse_json_block text =
      Ok (match Json.loads (json_candidate (normalize_quotes text)) with
          | Some v => v
          | None => VDict [(py "raw_text", VStr (normalize_quotes text))]
          end))
  /\ (forall text : pystr, exists v : value, parse_json_block text = Ok v)
  /\ parse_json_block (py "no json here")
     = Ok (VDict [(py "raw_text", VStr (py "no json here"))]).
Proof.
  assert (E : forall text : pystr,
             parse_json_block text =
             Ok (match Json.loads (json_candidate (normalize_quotes text)) with
                 | Some v => v
                 | None => VDict [(py "raw_text", VStr (normalize_quotes text))]
                 end)).
  { intro text. unfold parse_json_block, json_loads, raw_text_fallback.
    destruct (Json.loads (json_candidate (normalize_quotes text)));
      reflexivity. }
  split; [exact E | split].
  - intro text. rewrite E. eexists. reflexivity.
  - vm_compute. reflexivity.
Qed.

(** C3. Some text is strictly valid JSON, holds no typographic quote,
    and yet [parse_json_block] returns a structure other than its strict
    decoding: in [{"a": "x,}"}] the comma inside the string literal is
    followed by a closing brace, the rewrite deletes it, and the value of
    [a] becomes [x}]. *)
Theorem parse_json_block_alters_valid_json :
  exists (text : pystr) (strict parsed : value),
    plain_quotes text
    /\ Json.loads text = Some strict
    /\ parse_json_block text = Ok parsed
    /\ strict <> parsed
    /\ text = pyq "{`a`: `x,}`}"
    /\ strict = VDict [(py "a", VStr (py "x,}"))]
    /\ parsed = VDict [(py "a", VStr (py "x}"))].
Proof.
  exists (pyq "{`a`: `x,}`}"),
         (VDict [(py "a", VStr (py "x,}"))]),
         (VDict [(py "a", VStr (py "x}"))]).
  split.
  { unfold plain_quotes, left_double_quote, right_double_quote,
      right_single_quote.
    repeat split; vm_compute; intro H;
      repeat (destruct H as [H | H]; [discriminate H |]); exact H. }
  split; [vm_compute; reflexivity |].
  split; [vm_compute; reflexivity |].
  split; [| repeat split; reflexivity].
  vm_compute. intro H. discriminate H.
Qed.

(** C5. The text [{"movies": [{"title": "X",}], "songs": []}], with its
    comma before the closing brace, decodes to
    [{movies: [{title: "X"}], songs: []}], although the strict decoder
    refuses it as it stands: the candidate handed to the decoder is the
    same text without that comma.  In general the rewrite turns a comma,
    any white space and a closing brace or bracket into that closing
    character alone. *)
Theorem parse_json_block_trailing_comma :
  parse_json_block (pyq "{`movies`: [{`title`: `X`,}], `songs`: []}")
  = Ok (VDict [(py "movies", VList [VDict [(py "title", VStr (py "X"))]]);
               (py "songs", VList [])])
  /\ json_candidate (pyq "{`movies`: [{`title`: `X`,}], `songs`: []}")
     = pyq "{`movies`: [{`title`: `X`}], `songs`: []}"
  /\ Json.loads (pyq "{`movies`: [{`title`: `X`,}], `songs`: []}") = None
  /\ (forall (ws : pystr) (c : char) (rest : pystr),
         forallb Re.is_space ws = true ->
         c = ch "}" \/ c = ch "]" ->
         Re.sub trailing_comma [Re.RGroup 1] (ch "," :: ws ++ c :: rest)
         = c :: Re.sub trailing_comma [Re.RGroup 1] rest).
Proof.
  split; [vm_compute; reflexivity |].
  split; [vm_compute; reflexivity |].
  split; [vm_compute; reflexivity |].
  intros ws c rest Hws Hc. apply sub_trailing_comma_match; assumption.
Qed.

(** ** The metadata lookup *)

Lemma str_eqb_refl (s : pystr) : str_eqb s s = true.
Proof.
  induction s as [| c s IH]; simpl; [reflexivity |].
  rewrite N.eqb_refl. exact IH.
Qed.


Lemma omdb_lookup_no_key (cfg : config) (w : world) (title year : value)
      (log : list event) :
  truthy (getenv_value (OMDB_API_KEY cfg)) = false ->
  omdb_lookup cfg w title year log = (Ok all_absent, log).
Proof.
  intro H. unfold omdb_lookup. rewrite H. reflexivity.
Qed.

Lemma omdb_lookup_with_key (cfg : config) (w : world) (title year : value)
      (log : list event) :
  truthy (getenv_value (OMDB_API_KEY cfg)) = true ->
  let params := omdb_params (getenv_value (OMDB_API_KEY cfg)) title year in
  omdb_lookup cfg w title year log
  = (Ok (provider_answer (requests_get w log params)),
     log ++ [MetadataCall params]).
Proof.
  intros H params. unfold omdb_lookup. rewrite H. fold params.
  unfold provider_answer, bind, try_except, call_requests_get, lift, ret,
    json_loads, py_get.
  cbn [negb].
  destruct (requests_get w log params) as [body | msg]; [| reflexivity].
  destruct (Json.loads body) as [data |]; [| reflexivity].
  destruct data; try reflexivity.
  destruct (eq_str (dict_get_or entries (py "Response") VNone) (py "True"));
    [| reflexivity].
  destruct (eq_str (dict_get_or entries (py "Poster") VNone) (py "N/A"));
    reflexivity.
Qed.

(** C9. [omdb_lookup] never raises and degrades to four absent fields:
    at once and without any request when no credential is configured
    (unset or empty), and, with a credential, when the request raises
    (network error, timeout), when the body is not JSON, and when the
    decoded payload is not an object whose [Response] is ["True"]. *)
Theorem omdb_lookup_degrades (cfg : config) (w : world) (title year : value)
        (log : list event) :
  (exists answer log', omdb_lookup cfg w title year log = (Ok answer, log'))
  /\ (OMDB_API_KEY cfg = None \/ OMDB_API_KEY cfg = Some [] ->
      omdb_lookup cfg w title year log = (Ok all_absent, log))
  /\ (forall key : pystr,
         OMDB_API_KEY cfg = Some key -> key <> [] ->
         let params := omdb_params (VStr key) title year in
         (forall msg : pystr,
             requests_get w log params = HttpRaise msg ->
             omdb_lookup cfg w title year log
             = (Ok all_absent, log ++ [MetadataCall params]))
         /\ (forall body : pystr,
                requests_get w log params = HttpReply body ->
                Json.loads body = None ->
                omdb_lookup cfg w title year log
                = (Ok all_absent, log ++ [MetadataCall params]))
         /\ (forall (body : pystr) (data : value),
                requests_get w log params = HttpReply body ->
                Json.loads body = Some data ->
                match data with
                | VDict d =>
                    eq_str (dict_get_or d (py "Response") VNone) (py "True")
                | _ => false
                end = false ->
                omdb_lookup cfg w title year log
                = (Ok all_absent, log ++ [MetadataCall params]))).
Proof.
  split; [| split].
  - destruct (truthy (getenv_value (OMDB_API_KEY cfg))) eqn:K.
    + eexists. eexists. apply omdb_lookup_with_key. exact K.
    + eexists. eexists. apply omdb_lookup_no_key. exact K.
  - intros [K | K]; apply omdb_lookup_no_key; rewrite K; reflexivity.
  - intros key K Hne params.
    assert (T : truthy (getenv_value (OMDB_API_KEY cfg)) = true).
    { rewrite K. destruct key; [contradiction Hne; reflexivity | reflexivity]. }
    pose proof (omdb_lookup_with_key cfg w title year log T) as E.
    rewrite K in E. simpl getenv_value in E. fold params in E. cbv zeta in E.
    repeat split.
    + intros msg R. rewrite E, R. reflexivity.
    + intros body R J. rewrite E, R. simpl. rewrite J. reflexivity.
    + intros body data R J D. rewrite E, R. simpl. rewrite J.
      destruct data; try reflexivity. rewrite D. reflexivity.
Qed.

(** ** The route, stage by stage *)

Lemma recommend_no_mood (cfg : config) (w : world) (request_json mood : value)
      (log : list event) :
  request_mood request_json = Ok mood ->
  truthy mood = false ->
  recommend cfg w request_json log = (Ok mood_required, log).
Proof.
  intros Hm Ht. unfold recommend, request_mood in *.
  unfold bind at 1, lift. rewrite Hm, Ht. reflexivity.
Qed.

Lemma recommend_with_mood (cfg : config) (w : world)
      (request_json mood : value) (log : list event) :
  request_mood request_json = Ok mood ->
  truthy mood = true ->
  let rq := generation_request_for cfg (build_prompt (str_of w mood)) in
  recommend cfg w request_json log
  = match responses_create w rq with
    | ApiReturn response =>
        caught (after_generation cfg w response (log ++ [GenerationCall rq]))
    | ApiRaise msg =>
        (Ok (request_failed msg), log ++ [GenerationCall rq])
    end.
Proof.
  intros Hm Ht rq. unfold recommend, request_mood in *.
  unfold bind at 1, lift. rewrite Hm, Ht. cbn [negb].
  unfold try_except, bind at 1, call_responses_create.
  fold (generation_request_for cfg (build_prompt (str_of w mood))). fold rq.
  destruct (responses_create w rq) as [response | msg]; [| reflexivity].
  unfold caught.
  change (match after_generation cfg w response (log ++ [GenerationCall rq]) with
          | (Ok a, log') => (Ok a, log')
          | (Raise e, log') => (Ok (request_failed (exn_str e)), log')
          end
          = (let (r, log0) :=
               after_generation cfg w response (log ++ [GenerationCall rq]) in
             match r with
             | Ok a => (Ok a, log0)
             | Raise e => (Ok (request_failed (exn_str e)), log0)
             end)).
  destruct (after_generation cfg w response (log ++ [GenerationCall rq]))
    as [[a | e] l]; reflexivity.
Qed.

Lemma recommend_bad_request (cfg : config) (w : world) (request_json : value)
      (e : exn) (log : list event) :
  request_mood request_json = Raise e ->
  recommend cfg w request_json log = (Raise e, log).
Proof.
  intros Hm. unfold recommend, request_mood in *.
  unfold bind at 1, lift. rewrite Hm. reflexivity.
Qed.

(** C8. A request whose mood is absent or empty is answered with status
    400 and the body [{"error": "Mood is required"}], and the log of
    external calls is left as it was: neither service is called.  This
    covers a mood that is any falsy value, a body without the key, no
    body at all, and the body [{"mood": ""}]. *)
Theorem recommend_requires_mood (cfg : config) (w : world) (log : list event) :
  (forall request_json mood : value,
      request_mood request_json = Ok mood ->
      truthy mood = false ->
      recommend cfg w request_json log
      = (Ok (VDict [(py "error", VStr (py "Mood is required"))], 400), log))
  /\ (forall d : dict,
         dict_get d (py "mood") = None ->
         recommend cfg w (VDict d) log
         = (Ok (VDict [(py "error", VStr (py "Mood is required"))], 400), log))
  /\ recommend cfg w VNone log
     = (Ok (VDict [(py "error", VStr (py "Mood is required"))], 400), log)
  /\ recommend cfg w (VDict [(py "mood", VStr [])]) log
     = (Ok (VDict [(py "error", VStr (py "Mood is required"))], 400), log).
Proof.
  assert (G : forall request_json mood : value,
             request_mood request_json = Ok mood ->
             truthy mood = false ->
             recommend cfg w request_json log
             = (Ok (VDict [(py "error", VStr (py "Mood is required"))], 400),
                log)).
  { intros request_json mood Hm Ht.
    exact (recommend_no_mood cfg w request_json log Hm Ht). }
  split; [exact G | split; [| split]].
  - intros d Hd. apply (G (VDict d) VNone); [| reflexivity].
    unfold request_mood, py_or, py_get, dict_get_or.
    destruct d as [| kv d']; [reflexivity |].
    cbn [truthy]. rewrite Hd. reflexivity.
  - apply (G VNone VNone); reflexivity.
  - apply (G (VDict [(py "mood", VStr [])]) (VStr [])); reflexivity.
Qed.

Lemma recommend_soft_failure (cfg : config) (w : world)
      (request_json mood response text parsed : value) (log : list event) :
  request_mood request_json = Ok mood ->
  truthy mood = true ->
  responses_create w (generation_request_for cfg (build_prompt (str_of w mood)))
  = ApiReturn response ->
  extract_text_from_response w response = Ok text ->
  call_parse_json_block text = Ok parsed ->
  py_contains parsed (py "movies") = Ok false ->
  recommend cfg w request_json log
  = (Ok (no_movie_data text),
     log ++ [GenerationCall
               (generation_request_for cfg (build_prompt (str_of w mood)))]).
Proof.
  intros Hm Ht Hc Hx Hp Hk.
  rewrite (recommend_with_mood cfg w request_json log Hm Ht). cbv zeta.
  rewrite Hc. unfold after_generation, bind, lift.
  rewrite Hx, Hp, Hk. reflexivity.
Qed.

Lemma call_parse_json_block_fallback (s : pystr) :
  Json.loads (json_candidate (normalize_quotes s)) = None ->
  call_parse_json_block (VStr s)
  = Ok (VDict [(py "raw_text", VStr (normalize_quotes s))]).
Proof.
  intro Hj. cbn [call_parse_json_block].
  unfold parse_json_block, json_loads. rewrite Hj. reflexivity.
Qed.

(** C6, as far as the code bears it out.  When the generation call
    returns, text is extracted and parsed, and the test whether [movies]
    is in the parsed value comes out false, the answer is status 200 with
    [{"error": "No movie data returned", "raw": text}] where [text] is
    the extracted text; one external call was made, the generation call.
    So it is when parsing degraded to the raw-text fallback, and when it
    gave an object without that key.  (A parsed value on which the test
    itself raises is left aside here.) *)
Theorem recommend_no_movie_data (cfg : config) (w : world)
        (request_json mood response text : value) (log : list event) :
  request_mood request_json = Ok mood ->
  truthy mood = true ->
  responses_create w (generation_request_for cfg (build_prompt (str_of w mood)))
  = ApiReturn response ->
  extract_text_from_response w response = Ok text ->
  let answer :=
    (Ok (VDict [(py "error", VStr (py "No movie data returned"));
                (py "raw", text)], 200),
     log ++ [GenerationCall
               (generation_request_for cfg (build_prompt (str_of w mood)))]) in
  (forall parsed : value,
      call_parse_json_block text = Ok parsed ->
      py_contains parsed (py "movies") = Ok false ->
      recommend cfg w request_json log = answer)
  /\ (forall d : dict,
         call_parse_json_block text = Ok (VDict d) ->
         dict_get d (py "movies") = None ->
         recommend cfg w request_json log = answer)
  /\ (forall s : pystr,
         text = VStr s ->
         Json.loads (json_candidate (normalize_quotes s)) = None ->
         recommend cfg w request_json log = answer).
Proof.
  intros Hm Ht Hc Hx answer.
  assert (G : forall parsed : value,
             call_parse_json_block text = Ok parsed ->
             py_contains parsed (py "movies") = Ok false ->
             recommend cfg w request_json log = answer).
  { intros parsed Hp Hk.
    exact (recommend_soft_failure cfg w request_json log Hm Ht Hc Hx Hp Hk). }
  split; [exact G | split].
  - intros d Hp Hd. apply (G (VDict d) Hp).
    unfold py_contains, dict_mem. rewrite Hd. reflexivity.
  - intros s -> Hj.
    apply (G (VDict [(py "raw_text", VStr (normalize_quotes s))])).
    + apply call_parse_json_block_fallback. exact Hj.
    + reflexivity.
Qed.

(** A generation call that raises is answered with 500 and the
    exception's text, after that single call. *)
Lemma recommend_generation_failure (cfg : config) (w : world)
      (request_json mood : value) (msg : pystr) (log : list event) :
  request_mood request_json = Ok mood ->
  truthy mood = true ->
  responses_create w (generation_request_for cfg (build_prompt (str_of w mood)))
  = ApiRaise msg ->
  recommend cfg w request_json log
  = (Ok (VDict [(py "error", VStr (py "OpenAI request failed"));
                (py "details", VStr msg)], 500),
     log ++ [GenerationCall
               (generation_request_for cfg (build_prompt (str_of w mood)))]).
Proof.
  intros Hm Ht Hc.
  rewrite (recommend_with_mood cfg w request_json log Hm Ht). cbv zeta.
  rewrite Hc. reflexivity.
Qed.

(** ** The enrichment loop *)

Lemma omdb_lookup_eq (cfg : config) (w : world) (title year : value)
      (log : list event) :
  omdb_lookup cfg w title year log
  = (Ok (lookup_answer cfg w title year log), lookup_log cfg title year log).
Proof.
  unfold lookup_answer, lookup_log.
  destruct (truthy (getenv_value (OMDB_API_KEY cfg))) eqn:K.
  - apply omdb_lookup_with_key. exact K.
  - apply omdb_lookup_no_key. exact K.
Qed.

Lemma enrich_movie_dict (cfg : config) (w : world) (d : dict)
      (log : list event) :
  enrich_movie cfg w (VDict d) log
  = (Ok (enriched_entry d (movie_lookup_answer cfg w d log)),
     lookup_log cfg (dict_get_or d (py "title") VNone)
                (dict_get_or d (py "year") VNone) log).
Proof.
  unfold enrich_movie, movie_lookup_answer.
  unfold bind at 1, lift, py_get. unfold bind at 1. unfold bind at 1.
  unfold bind at 1. rewrite omdb_lookup_eq.
  destruct (lookup_answer cfg w (dict_get_or d (py "title") VNone)
                          (dict_get_or d (py "year") VNone) log)
    as [[[poster real_year] genre] plot].
  reflexivity.
Qed.

Lemma enrich_movie_not_dict (cfg : config) (w : world) (m : value)
      (log : list event) :
  (forall d, m <> VDict d) ->
  enrich_movie cfg w m log = (Raise (no_attribute m (py "get")), log).
Proof.
  intro H. unfold enrich_movie. unfold bind at 1, lift, py_get.
  destruct m; try reflexivity. exfalso. apply (H entries). reflexivity.
Qed.

Lemma enrich_loop_inv (cfg : config) (w : world) (movies : list value) :
  forall (acc : list value) (log : list event) (es : list value)
         (log' : list event),
    enrich_loop cfg w movies acc log = (Ok es, log') ->
    exists new, es = acc ++ new /\ Forall2 (enriches cfg w) movies new.
Proof.
  induction movies as [| m rest IH]; intros acc log es log' H.
  - cbn in H. injection H as <- _. exists []. split.
    + symmetry. apply app_nil_r.
    + constructor.
  - cbn [enrich_loop] in H. unfold bind at 1 in H.
    destruct m as [| | | | | | d |];
      try (rewrite enrich_movie_not_dict in H by (intros d0 E; discriminate E);
           discriminate H).
    rewrite enrich_movie_dict in H.
    apply IH in H. destruct H as [new [-> F]].
    exists (enriched_entry d (movie_lookup_answer cfg w d log) :: new).
    split.
    + rewrite <- app_assoc. reflexivity.
    + constructor; [| exact F].
      exists d, log. split; reflexivity.
Qed.

(** Objects alone never stop the loop, whatever the provider does. *)
Lemma enrich_loop_total (cfg : config) (w : world) (movies : list value) :
  Forall (fun m => exists d, m = VDict d) movies ->
  forall (acc : list value) (log : list event),
  exists es log', enrich_loop cfg w movies acc log = (Ok es, log').
Proof.
  induction 1 as [| m rest [d ->] _ IH]; intros acc log.
  - exists acc, log. reflexivity.
  - cbn [enrich_loop]. unfold bind at 1. rewrite enrich_movie_dict.
    apply IH.
Qed.

(** ** The successful answer *)

Lemma after_generation_success (cfg : config) (w : world) (response recs : value)
      (st : nat) (log log' : list event) :
  after_generation cfg w response log
  = (Ok (VDict [(py "recommendations", recs)], st), log') ->
  exists (text : pystr) (parsed : dict) (movies_v : value)
         (movies enriched : list value),
    extract_text_from_response w response = Ok (VStr text)
    /\ parse_json_block text = Ok (VDict parsed)
    /\ dict_get parsed (py "movies") = Some movies_v
    /\ py_iter movies_v = Ok movies
    /\ enrich_loop cfg w movies [] log = (Ok enriched, log')
    /\ recs = VDict (dict_set parsed (py "movies") (VList enriched))
    /\ st = 200.
Proof.
  unfold after_generation. unfold bind at 1, lift.
  destruct (extract_text_from_response w response) as [text | e];
    [| discriminate].
  unfold bind at 1.
  destruct (call_parse_json_block text) as [parsed | e] eqn:P; [| discriminate].
  unfold bind at 1.
  destruct (py_contains parsed (py "movies")) as [has | e] eqn:C;
    [| discriminate].
  destruct has; cbn [negb].
  2:{ unfold ret, no_movie_data, jsonify. intro H. discriminate H. }
  unfold bind at 1.
  destruct (py_getitem parsed (py "movies")) as [movies_v | e] eqn:G;
    [| discriminate].
  unfold bind at 1.
  destruct (py_iter movies_v) as [movies | e] eqn:I; [| discriminate].
  unfold bind at 1.
  destruct (enrich_loop cfg w movies [] log) as [[enriched | e] l] eqn:L;
    [| discriminate].
  unfold bind at 1.
  destruct parsed as [| | | | | | d |]; try discriminate.
  cbn [py_setitem]. unfold ret, recommendations, jsonify.
  intro H. injection H as <- <- <-.
  destruct text as [| | | | t | | |]; try discriminate P.
  cbn [call_parse_json_block] in P.
  cbn [py_getitem] in G.
  destruct (dict_get d (py "movies")) as [x |] eqn:D; [| discriminate G].
  injection G as ->.
  exists t, d, movies_v, movies, enriched.
  repeat split; assumption.
Qed.

Lemma recommend_success_inv (cfg : config) (w : world) (request_json recs : value)
      (st : nat) (log log' : list event) :
  recommend cfg w request_json log
  = (Ok (VDict [(py "recommendations", recs)], st), log') ->
  exists (mood response : value),
    request_mood request_json = Ok mood
    /\ truthy mood = true
    /\ responses_create w
         (generation_request_for cfg (build_prompt (str_of w mood)))
       = ApiReturn response
    /\ after_generation cfg w response
         (log ++ [GenerationCall
                    (generation_request_for cfg (build_prompt (str_of w mood)))])
       = (Ok (VDict [(py "recommendations", recs)], st), log').
Proof.
  intro H.
  destruct (request_mood request_json) as [mood | e] eqn:Hm.
  2:{ rewrite (recommend_bad_request cfg w request_json log Hm) in H.
      discriminate H. }
  destruct (truthy mood) eqn:Ht.
  2:{ rewrite (recommend_no_mood cfg w request_json log Hm Ht) in H.
      unfold mood_required, jsonify in H. vm_compute in H.
      discriminate H. }
  rewrite (recommend_with_mood cfg w request_json log Hm Ht) in H.
  cbv zeta in H.
  destruct (responses_create w _) as [response | msg] eqn:Hc.
  2:{ unfold request_failed, jsonify in H. discriminate H. }
  exists mood, response. repeat split; try assumption.
  unfold caught in H.
  destruct (after_generation cfg w response _) as [[a | e] l].
  - injection H as -> ->. reflexivity.
  - unfold request_failed, jsonify in H. discriminate H.
Qed.

Lemma dict_get_set_same (d : dict) (k : pystr) (v : value) :
  dict_get (dict_set d k v) k = Some v.
Proof.
  induction d as [| [k' v'] d IH]; cbn.
  - rewrite str_eqb_refl. reflexivity.
  - destruct (str_eqb k' k) eqn:E; cbn; rewrite E; [reflexivity | exact IH].
Qed.




(** ** Posters *)

Lemma enriched_entry_poster (cfg : config) (w : world) (d : dict)
      (l : list event) :
  poster_url_of (enriched_entry d (movie_lookup_answer cfg w d l))
  = Some (expected_poster_url cfg (requests_get w l (movie_params cfg d))).
Proof.
  unfold movie_lookup_answer, lookup_answer, expected_poster_url, movie_params.
  destruct (OMDB_API_KEY cfg) as [[| c key] |]; try reflexivity.
  cbn [getenv_value truthy].
  unfold provider_answer.
  destruct (requests_get w l _) as [body | msg]; [| reflexivity].
  destruct (Json.loads body) as [[| | | | | | data |] |]; try reflexivity.
  destruct (eq_str (dict_get_or data (py "Response") VNone) (py "True"));
    [| reflexivity].
  unfold dict_get_or.
  destruct (dict_get data (py "Poster")) as [p |]; [| reflexivity].
  destruct (eq_str p (py "N/A")); [reflexivity |].
  unfold enriched_entry, poster_url_of, py_or.
  destruct (truthy p); reflexivity.
Qed.

Lemma expected_poster_url_truthy (cfg : config) (reply : http_outcome) :
  truthy (expected_poster_url cfg reply) = true.
Proof.
  unfold expected_poster_url.
  destruct (OMDB_API_KEY cfg) as [[| c key] |]; try reflexivity.
  destruct reply as [body | msg]; [| reflexivity].
  destruct (Json.loads body) as [[| | | | | | data |] |]; try reflexivity.
  destruct (eq_str _ (py "True")); [| reflexivity].
  destruct (dict_get data (py "Poster")) as [p |]; [| reflexivity].
  destruct (eq_str p (py "N/A")); [reflexivity |].
  destruct (truthy p) eqn:T; [exact T | reflexivity].
Qed.

Lemma expected_poster_url_text (cfg : config) (w : world) (l : list event)
      (params : dict) :
  poster_is_text w ->
  exists s, expected_poster_url cfg (requests_get w l params) = VStr s
            /\ s <> [].
Proof.
  intro W.
  assert (P : exists s, VStr poster_placeholder = VStr s /\ s <> []).
  { exists poster_placeholder. split; [reflexivity |].
    vm_compute. intro H. discriminate H. }
  unfold expected_poster_url.
  destruct (OMDB_API_KEY cfg) as [[| c key] |]; try exact P.
  destruct (requests_get w l params) as [body | msg] eqn:R; [| exact P].
  destruct (Json.loads body) as [[| | | | | | data |] |] eqn:J; try exact P.
  destruct (eq_str _ (py "True")); [| exact P].
  destruct (dict_get data (py "Poster")) as [p |] eqn:D; [| exact P].
  destruct (eq_str p (py "N/A")); [exact P |].
  destruct (truthy p) eqn:T; [| exact P].
  destruct (W l params body data p R J D) as [-> | [s ->]].
  - discriminate T.
  - exists s. split; [reflexivity |].
    intros ->. discriminate T.
Qed.

Lemma lookup_calls_cons (cfg : config) (d : dict) (rest : list value)
      (log : list event) :
  lookup_log cfg (dict_get_or d (py "title") VNone)
             (dict_get_or d (py "year") VNone) log
  ++ lookup_calls cfg rest
  = log ++ lookup_calls cfg (VDict d :: rest).
Proof.
  unfold lookup_log, lookup_calls, movie_params.
  destruct (truthy (getenv_value (OMDB_API_KEY cfg))); [| reflexivity].
  cbn [flat_map]. rewrite <- app_assoc. reflexivity.
Qed.

Lemma lookup_calls_nil (cfg : config) : lookup_calls cfg [] = [].
Proof.
  unfold lookup_calls.
  destruct (truthy (getenv_value (OMDB_API_KEY cfg))); reflexivity.
Qed.

(** The loop, movie by movie: the entry at position [i] is built from the
    movie at position [i] and from the answer to its own lookup, made
    when the log holds the lookups of the movies before it. *)
Lemma enrich_loop_run (cfg : config) (w : world) (movies : list value) :
  forall (acc : list value) (log : list event) (es : list value)
         (log' : list event),
    enrich_loop cfg w movies acc log = (Ok es, log') ->
    exists new,
      es = acc ++ new
      /\ List.length new = List.length movies
      /\ forall (i : nat) (e : value),
          nth_error new i = Some e ->
          exists d,
            nth_error movies i = Some (VDict d)
            /\ e = enriched_entry
                     d (movie_lookup_answer
                          cfg w d (log ++ lookup_calls cfg (firstn i movies))).
Proof.
  induction movies as [| m rest IH]; intros acc log es log' H.
  - cbn in H. injection H as <- _. exists []. split.
    + symmetry. apply app_nil_r.
    + split; [reflexivity |]. intros [| i] e E; discriminate E.
  - cbn [enrich_loop] in H. unfold bind at 1 in H.
    destruct m as [| | | | | | d |];
      try (rewrite enrich_movie_not_dict in H by (intros d0 E; discriminate E);
           discriminate H).
    rewrite enrich_movie_dict in H.
    apply IH in H. destruct H as (new & -> & L & P).
    exists (enriched_entry d (movie_lookup_answer cfg w d log) :: new).
    split; [rewrite <- app_assoc; reflexivity |].
    split; [cbn [List.length]; rewrite L; reflexivity |].
    intros [| i] e E.
    + cbn [nth_error] in E. injection E as <-. exists d.
      split; [reflexivity |].
      cbn [firstn]. rewrite lookup_calls_nil, app_nil_r. reflexivity.
    + cbn [nth_error] in E. destruct (P i e E) as (d' & Hn & ->).
      exists d'. split; [exact Hn |].
      cbn [firstn]. rewrite lookup_calls_cons. reflexivity.
Qed.

(** C7, as far as the code bears it out.  In a successful answer the
    enriched movies are as many as the movies the model suggested, and
    the one at position [i] has a [poster_url] that is never empty.  It
    is the [Poster] of the provider's reply to the lookup of the movie at
    position [i] itself (made after the generation call and the lookups
    of the movies before it) when that lookup succeeded with a truthy
    [Poster] other than the marker [N/A], and the fixed placeholder
    [/static/poster-placeholder.png] when the provider brought none,
    brought the marker, or the lookup failed ([expected_poster_url]
    spells the cases out).  When the provider's [Poster] fields are text
    the [poster_url] is a non-empty string. *)
Theorem poster_url_never_empty (cfg : config) (w : world)
        (request_json recs : value) (st : nat) (log log' : list event) :
  recommend cfg w request_json log
  = (Ok (VDict [(py "recommendations", recs)], st), log') ->
  exists (mood response : value) (text : pystr) (parsed : dict)
         (movies_v : value) (movies enriched : list value),
    (request_mood request_json = Ok mood
     /\ responses_create w
          (generation_request_for cfg (build_prompt (str_of w mood)))
        = ApiReturn response
     /\ extract_text_from_response w response = Ok (VStr text)
     /\ parse_json_block text = Ok (VDict parsed)
     /\ dict_get parsed (py "movies") = Some movies_v
     /\ py_iter movies_v = Ok movies)
    /\ recs = VDict (dict_set parsed (py "movies") (VList enriched))
    /\ List.length enriched = List.length movies
    /\ forall (i : nat) (e : value),
        nth_error enriched i = Some e ->
        exists (d : dict) (url : value),
          nth_error movies i = Some (VDict d)
          /\ poster_url_of e = Some url
          /\ url = expected_poster_url
                     cfg
                     (requests_get
                        w
                        ((log ++ [GenerationCall
                                    (generation_request_for
                                       cfg (build_prompt (str_of w mood)))])
                           ++ lookup_calls cfg (firstn i movies))
                        (movie_params cfg d))
          /\ truthy url = true
          /\ (poster_is_text w -> exists s, url = VStr s /\ s <> []).
Proof.
  intro H.
  apply recommend_success_inv in H.
  destruct H as (mood & response & Hm & Ht & Hc & H).
  apply after_generation_success in H.
  destruct H as (text & parsed & movies_v & movies & enriched
                 & Hx & Hp & Hd & Hi & Hl & -> & ->).
  apply enrich_loop_run in Hl. destruct Hl as (new & E & L & P).
  cbn [app] in E. subst new.
  exists mood, response, text, parsed, movies_v, movies, enriched.
  split; [repeat split; assumption |].
  split; [reflexivity |].
  split; [exact L |].
  intros i e Hn. destruct (P i e Hn) as (d & Hd' & ->).
  exists d. eexists.
  split; [exact Hd' |].
  split; [apply enriched_entry_poster |].
  split; [reflexivity |].
  split; [apply expected_poster_url_truthy |].
  intro W. apply expected_poster_url_text. exact W.
Qed.

(** C7 as it was stated does not hold.  In [numeric_poster_world] the
    provider answers the lookup with [{"Response": "True", "Poster": 5}];
    the request succeeds and the [poster_url] of its movie is the number
    5, which is no string: the code passes the reply's [Poster] on
    without looking at its type. *)
Lemma poster_url_not_a_string :
  requests_get numeric_poster_world
               [GenerationCall (sample_generation_request numeric_poster_world)]
               (movie_params sample_config
                             [(py "title", VStr (py "Heat"));
                              (py "year", VStr (py "1995"));
                              (py "why", VStr (py "Tense."))])
  = HttpReply (pyq "{`Response`: `True`, `Poster`: 5}")
  /\ recommend sample_config numeric_poster_world sample_request []
     = (Ok (VDict
              [(py "recommendations",
                VDict [(py "movies",
                        VList [VDict [(py "title", VStr (py "Heat"));
                                      (py "year", VStr (py "1995"));
                                      (py "why", VStr (py "Tense."));
                                      (py "poster_url", VInt 5);
                                      (py "genre", VNone);
                                      (py "plot", VNone)]]);
                       (py "songs",
                        VList [VDict [(py "title", VStr (py "Blue"))]])])],
            200),
        [GenerationCall (sample_generation_request numeric_poster_world);
         MetadataCall
           (movie_params sample_config
                         [(py "title", VStr (py "Heat"));
                          (py "year", VStr (py "1995"));
                          (py "why", VStr (py "Tense."))])])
  /\ forall s : pystr, VInt 5 <> VStr s.
Proof.
  split; [reflexivity |].
  split; [vm_compute; reflexivity |].
  intros s E. discriminate E.
Qed.

(** ** Text extraction *)

Lemma collect_fragments_eq (cs : list value) :
  forall parts,
    fold_left collect_fragment cs parts
    = parts ++ flat_map element_fragments cs.
Proof.
  induction cs as [| c cs IH]; intro parts; cbn [fold_left flat_map].
  - symmetry. apply app_nil_r.
  - rewrite IH. unfold collect_fragment, element_fragments.
    destruct c; try reflexivity.
    + rewrite <- app_assoc. reflexivity.
    + destruct (dict_get entries (py "text")); [| reflexivity].
      rewrite <- app_assoc. reflexivity.
Qed.

Lemma collect_block_eq (parts : list value) (b : value) :
  collect_block parts b = parts ++ block_fragments b.
Proof.
  unfold collect_block, block_fragments, dict_get_or.
  destruct b as [| | | | | | d |]; try (symmetry; apply app_nil_r).
  destruct (dict_get d (py "content")) as [[| | | | s | cs | |] |];
    try (symmetry; apply app_nil_r).
  - reflexivity.
  - apply collect_fragments_eq.
Qed.

Lemma collect_blocks_eq (blocks : list value) :
  forall parts,
    fold_left collect_block blocks parts
    = parts ++ flat_map block_fragments blocks.
Proof.
  induction blocks as [| b blocks IH]; intro parts; cbn [fold_left flat_map].
  - symmetry. apply app_nil_r.
  - rewrite IH, collect_block_eq, <- app_assoc. reflexivity.
Qed.




(** ** The server-error answer *)

Lemma after_generation_well_formed (cfg : config) (w : world)
      (response : value) (s : pystr) (parsed : dict) (movies : list value)
      (log : list event) :
  extract_text_from_response w response = Ok (VStr s) ->
  parse_json_block s = Ok (VDict parsed) ->
  dict_get parsed (py "movies") = Some (VList movies) ->
  Forall (fun m => exists d, m = VDict d) movies ->
  exists enriched log',
    after_generation cfg w response log
    = (Ok (recommendations
             (VDict (dict_set parsed (py "movies") (VList enriched)))),
       log')
    /\ enrich_loop cfg w movies [] log = (Ok enriched, log').
Proof.
  intros Hx Hp Hd Hf.
  destruct (enrich_loop_total cfg w Hf [] log) as [enriched [log' E]].
  exists enriched, log'. split; [| exact E].
  unfold after_generation, bind, lift. rewrite Hx.
  cbn [call_parse_json_block]. rewrite Hp.
  cbn [py_contains py_getitem]. unfold dict_mem. rewrite Hd.
  cbn [negb py_iter]. rewrite E. reflexivity.
Qed.

(** C1, as far as the code bears it out.  With a mood given: a
    generation call that raises is answered with status 500 and
    [{"error": "OpenAI request failed", "details": text}], [text] being
    the failure's text.  When the call returns and text is extracted,
    that answer is not given in any of these cases, whatever the metadata
    provider does: the text does not decode (status 200, no movie data);
    it decodes to an object without [movies] (the same); it decodes to an
    object whose [movies] is a list of objects (status 200 with the
    recommendations, one entry per movie). *)
Theorem recommend_500_on_generation_failure
        (cfg : config) (w : world) (request_json mood : value)
        (log : list event) :
  request_mood request_json = Ok mood ->
  truthy mood = true ->
  let rq := generation_request_for cfg (build_prompt (str_of w mood)) in
  (forall msg : pystr,
      responses_create w rq = ApiRaise msg ->
      recommend cfg w request_json log
      = (Ok (VDict [(py "error", VStr (py "OpenAI request failed"));
                    (py "details", VStr msg)], 500),
         log ++ [GenerationCall rq]))
  /\ (forall (response : value) (s : pystr),
         responses_create w rq = ApiReturn response ->
         extract_text_from_response w response = Ok (VStr s) ->
         (Json.loads (json_candidate (normalize_quotes s)) = None ->
          recommend cfg w request_json log
          = (Ok (VDict [(py "error", VStr (py "No movie data returned"));
                        (py "raw", VStr s)], 200),
             log ++ [GenerationCall rq]))
         /\ (forall parsed : dict,
                parse_json_block s = Ok (VDict parsed) ->
                dict_get parsed (py "movies") = None ->
                recommend cfg w request_json log
                = (Ok (VDict [(py "error", VStr (py "No movie data returned"));
                              (py "raw", VStr s)], 200),
                   log ++ [GenerationCall rq]))
         /\ (forall (parsed : dict) (movies : list value),
                parse_json_block s = Ok (VDict parsed) ->
                dict_get parsed (py "movies") = Some (VList movies) ->
                Forall (fun m => exists d, m = VDict d) movies ->
                exists (enriched : list value) (log' : list event),
                  recommend cfg w request_json log
                  = (Ok (VDict [(py "recommendations",
                                 VDict (dict_set parsed (py "movies")
                                                 (VList enriched)))], 200),
                     log')
                  /\ List.length enriched = List.length movies)).
Proof.
  intros Hm Ht rq. split.
  - intros msg Hc.
    exact (recommend_generation_failure cfg w request_json log Hm Ht Hc).
  - intros response s Hc Hx. split; [| split].
    + intro Hj.
      apply (recommend_soft_failure cfg w request_json log Hm Ht Hc Hx
               (call_parse_json_block_fallback s Hj)).
      reflexivity.
    + intros parsed Hp Hd.
      apply (recommend_soft_failure cfg w request_json log Hm Ht Hc Hx
               (parsed := VDict parsed) Hp).
      unfold py_contains, dict_mem. rewrite Hd. reflexivity.
    + intros parsed movies Hp Hd Hf.
      destruct (after_generation_well_formed
                  cfg w response (log ++ [GenerationCall rq]) Hx Hp Hd Hf)
        as (enriched & log' & E & L).
      exists enriched, log'. split.
      * rewrite (recommend_with_mood cfg w request_json log Hm Ht). cbv zeta.
        fold rq. rewrite Hc, E. reflexivity.
      * apply enrich_loop_inv in L. destruct L as (new & -> & F).
        cbn [app]. symmetry. apply (Forall2_length F).
Qed.

(** C1 as it was stated does not hold.  In [titles_only_world] the
    generation call returns [{"movies": ["Inception"]}], and the answer is
    the 500 of a failed request: the loop calls [get] on a string.  In
    [numeric_fragment_world] the call returns too, text extraction fails
    on a fragment that is a number, and the answer is that 500 again. *)
Lemma recommend_500_without_generation_failure :
  (responses_create titles_only_world
                    (sample_generation_request titles_only_world)
   = ApiReturn (sample_response (pyq "{`movies`: [`Inception`]}"))
   /\ recommend sample_config titles_only_world sample_request []
      = (Ok (VDict [(py "error", VStr (py "OpenAI request failed"));
                    (py "details",
                     VStr (py "'str' object has no attribute 'get'"))], 500),
         [GenerationCall (sample_generation_request titles_only_world)]))
  /\ (responses_create numeric_fragment_world
                       (sample_generation_request numeric_fragment_world)
      = ApiReturn numeric_fragment_response
      /\ extract_text_from_response numeric_fragment_world
                                    numeric_fragment_response
         = Raise (Exn TypeError
                      (py "sequence item 0: expected str instance, int found"))
      /\ recommend sample_config numeric_fragment_world sample_request []
         = (Ok (VDict [(py "error", VStr (py "OpenAI request failed"));
                       (py "details",
                        VStr (py "sequence item 0: expected str instance, int found"))],
                500),
            [GenerationCall (sample_generation_request numeric_fragment_world)])).
Proof.
  split; [split | split; [| split]]; vm_compute; reflexivity.
Qed.

(** C6 as it was stated does not hold.  In [number_output_world] the
    generation call returns the text [42], which decodes to a number: a
    parsed value without the key [movies].  The membership test raises
    on it inside the [try] block and the answer is the 500 of a failed
    request, not the 200 with the raw text.  The text [null] goes the
    same way. *)
Lemma recommend_500_on_scalar_output :
  (responses_create number_output_world
                    (sample_generation_request number_output_world)
   = ApiReturn (sample_response (py "42"))
   /\ parse_json_block (py "42") = Ok (VInt 42)
   /\ recommend sample_config number_output_world sample_request []
      = (Ok (VDict [(py "error", VStr (py "OpenAI request failed"));
                    (py "details",
                     VStr (py "argument of type 'int' is not iterable"))],
             500),
         [GenerationCall (sample_generation_request number_output_world)]))
  /\ (responses_create null_output_world
                       (sample_generation_request null_output_world)
      = ApiReturn (sample_response (py "null"))
      /\ parse_json_block (py "null") = Ok VNone
      /\ recommend sample_config null_output_world sample_request []
         = (Ok (VDict [(py "error", VStr (py "OpenAI request failed"));
                       (py "details",
                        VStr (py "argument of type 'NoneType' is not iterable"))],
                500),
            [GenerationCall (sample_generation_request null_output_world)])).
Proof.
  split; (split; [reflexivity | split; vm_compute; reflexivity]).
Qed.

(** ** Instances

    Each statement above that rests on hypotheses, applied to one run of
    the program in which they hold. *)

Lemma parse_json_block_trailing_comma_instance :
  forallb Re.is_space (py " ") = true
  /\ (ch "]" = ch "}" \/ ch "]" = ch "]")
  /\ Re.sub trailing_comma [Re.RGroup 1] (ch "," :: py " " ++ ch "]" :: py "}")
     = ch "]" :: Re.sub trailing_comma [Re.RGroup 1] (py "}").
Proof.
  split; [reflexivity |].
  split; [right; reflexivity |].
  apply (proj2 (proj2 (proj2 parse_json_block_trailing_comma))).
  - reflexivity.
  - right. reflexivity.
Defined.


Lemma recommend_requires_mood_instance :
  request_mood (VDict [(py "mood", VStr [])]) = Ok (VStr [])
  /\ truthy (VStr []) = false
  /\ recommend sample_config (sample_world [] (HttpRaise []))
               (VDict [(py "mood", VStr [])]) []
     = (Ok (VDict [(py "error", VStr (py "Mood is required"))], 400), []).
Proof.
  split; [reflexivity |].
  split; [reflexivity |].
  apply (proj1 (recommend_requires_mood
                  sample_config (sample_world [] (HttpRaise [])) [])
               (VDict [(py "mood", VStr [])]) (VStr [])).
  - reflexivity.
  - reflexivity.
Defined.

Lemma omdb_lookup_degrades_instance :
  (OMDB_API_KEY sample_config_no_key = None
   /\ omdb_lookup sample_config_no_key (sample_world [] (HttpRaise []))
                  (VStr (py "Heat")) VNone []
      = (Ok all_absent, []))
  /\ (OMDB_API_KEY sample_config = Some (py "omdb-sample")
      /\ py "omdb-sample" <> []
      /\ requests_get (sample_world [] (HttpRaise (py "timed out"))) []
                      (omdb_params (VStr (py "omdb-sample"))
                                   (VStr (py "Heat")) VNone)
         = HttpRaise (py "timed out")
      /\ omdb_lookup sample_config
                     (sample_world [] (HttpRaise (py "timed out")))
                     (VStr (py "Heat")) VNone []
         = (Ok all_absent,
            [] ++ [MetadataCall (omdb_params (VStr (py "omdb-sample"))
                                             (VStr (py "Heat")) VNone)])).
Proof.
  split.
  - split; [reflexivity |].
    apply (proj1 (proj2 (omdb_lookup_degrades
                           sample_config_no_key
                           (sample_world [] (HttpRaise []))
                           (VStr (py "Heat")) VNone []))).
    left. reflexivity.
  - split; [reflexivity |].
    split; [vm_compute; discriminate |].
    split; [reflexivity |].
    apply (proj1 (proj2 (proj2 (omdb_lookup_degrades
                                  sample_config
                                  (sample_world [] (HttpRaise (py "timed out")))
                                  (VStr (py "Heat")) VNone []))
                        (py "omdb-sample") eq_refl
                        ltac:(vm_compute; discriminate))
                 (py "timed out")).
    reflexivity.
Defined.

Lemma recommend_no_movie_data_instance :
  request_mood sample_request = Ok sample_mood
  /\ truthy sample_mood = true
  /\ responses_create
       (sample_world (py "no json here") (HttpRaise []))
       (generation_request_for
          sample_config
          (build_prompt
             (str_of (sample_world (py "no json here") (HttpRaise []))
                     sample_mood)))
     = ApiReturn (VObj [(py "output_text", VStr (py "no json here"))]
                       (py "<Response>"))
  /\ extract_text_from_response
       (sample_world (py "no json here") (HttpRaise []))
       (VObj [(py "output_text", VStr (py "no json here"))] (py "<Response>"))
     = Ok (VStr (py "no json here"))
  /\ Json.loads (json_candidate (normalize_quotes (py "no json here"))) = None
  /\ recommend sample_config
               (sample_world (py "no json here") (HttpRaise []))
               sample_request []
     = (Ok (VDict [(py "error", VStr (py "No movie data returned"));
                   (py "raw", VStr (py "no json here"))], 200),
        [] ++ [GenerationCall
                 (generation_request_for
                    sample_config
                    (build_prompt
                       (str_of (sample_world (py "no json here") (HttpRaise []))
                               sample_mood)))]).
Proof.
  split; [reflexivity |].
  split; [reflexivity |].
  split; [reflexivity |].
  split; [reflexivity |].
  split; [vm_compute; reflexivity |].
  apply (proj2 (proj2 (@recommend_no_movie_data
                         sample_config
                         (sample_world (py "no json here") (HttpRaise []))
                         sample_request sample_mood
                         (VObj [(py "output_text", VStr (py "no json here"))]
                               (py "<Response>"))
                         (VStr (py "no json here")) []
                         eq_refl eq_refl eq_refl eq_refl))
               (py "no json here") eq_refl).
  vm_compute. reflexivity.
Defined.

Lemma sample_success :
  exists recs log',
    recommend sample_config sample_success_world sample_request []
    = (Ok (VDict [(py "recommendations", recs)], 200), log').
Proof.
  eexists. eexists. vm_compute. reflexivity.
Defined.

Lemma sample_success_world_poster_is_text :
  poster_is_text sample_success_world.
Proof.
  intros log params body data p R J D.
  cbn in R. injection R as <-.
  vm_compute in J. injection J as <-.
  vm_compute in D. injection D as <-.
  right. eexists. reflexivity.
Defined.

Lemma poster_url_never_empty_instance :
  exists recs log',
    recommend sample_config sample_success_world sample_request []
    = (Ok (VDict [(py "recommendations", recs)], 200), log')
    /\ poster_is_text sample_success_world
    /\ exists (parsed : dict) (movies enriched : list value),
      recs = VDict (dict_set parsed (py "movies") (VList enriched))
      /\ List.length enriched = List.length movies
      /\ forall (i : nat) (e : value),
          nth_error enriched i = Some e ->
          exists (d : dict) (s : pystr),
            nth_error movies i = Some (VDict d)
            /\ poster_url_of e = Some (VStr s)
            /\ s <> [].
Proof.
  destruct sample_success as [recs [log' H]].
  exists recs, log'. split; [exact H |].
  split; [exact sample_success_world_poster_is_text |].
  destruct (@poster_url_never_empty sample_config sample_success_world
                                    sample_request recs 200 [] log' H)
    as (mood & response & text & parsed & movies_v & movies & enriched
        & _ & Hr & L & P).
  exists parsed, movies, enriched.
  split; [exact Hr |]. split; [exact L |].
  intros i e Hn. destruct (P i e Hn) as (d & url & Hd & Hu & _ & _ & Hs).
  destruct (Hs sample_success_world_poster_is_text) as (s & -> & Hne).
  exists d, s. repeat split; assumption.
Defined.


Lemma recommend_500_on_generation_failure_instance :
  (request_mood sample_request = Ok sample_mood
   /\ truthy sample_mood = true
   /\ responses_create
        (World (fun _ => ApiRaise (py "quota exceeded"))
               (fun _ _ => HttpRaise [])
               (fun _ => py "<value>"))
        (generation_request_for sample_config
                                (build_prompt (py "wistful")))
      = ApiRaise (py "quota exceeded")
   /\ recommend sample_config
                (World (fun _ => ApiRaise (py "quota exceeded"))
                       (fun _ _ => HttpRaise [])
                       (fun _ => py "<value>"))
                sample_request []
      = (Ok (VDict [(py "error", VStr (py "OpenAI request failed"));
                    (py "details", VStr (py "quota exceeded"))], 500),
         [] ++ [GenerationCall
                  (generation_request_for sample_config
                                          (build_prompt (py "wistful")))]))
  /\ (responses_create sample_success_world
                       (sample_generation_request sample_success_world)
      = ApiReturn (sample_response sample_model_text)
      /\ extract_text_from_response sample_success_world
                                    (sample_response sample_model_text)
         = Ok (VStr sample_model_text)
      /\ exists (parsed : dict) (movies enriched : list value)
                (log' : list event),
        parse_json_block sample_model_text = Ok (VDict parsed)
        /\ dict_get parsed (py "movies") = Some (VList movies)
        /\ Forall (fun m => exists d, m = VDict d) movies
        /\ recommend sample_config sample_success_world sample_request []
           = (Ok (VDict [(py "recommendations",
                          VDict (dict_set parsed (py "movies")
                                          (VList enriched)))], 200),
              log')
        /\ List.length enriched = List.length movies).
Proof.
  split.
  - split; [reflexivity |].
    split; [reflexivity |].
    split; [reflexivity |].
    apply (proj1 (@recommend_500_on_generation_failure
                    sample_config
                    (World (fun _ => ApiRaise (py "quota exceeded"))
                           (fun _ _ => HttpRaise [])
                           (fun _ => py "<value>"))
                    sample_request sample_mood [] eq_refl eq_refl)
                 (py "quota exceeded")).
    reflexivity.
  - split; [reflexivity |].
    split; [reflexivity |].
    assert (Hp : parse_json_block sample_model_text
                 = Ok (VDict [(py "movies",
                               VList [VDict [(py "title", VStr (py "Heat"));
                                             (py "year", VStr (py "1995"));
                                             (py "why", VStr (py "Tense."))]]);
                              (py "songs",
                               VList [VDict [(py "title",
                                              VStr (py "Blue"))]])]))
      by (vm_compute; reflexivity).
    assert (Hf : Forall (fun m => exists d, m = VDict d)
                        [VDict [(py "title", VStr (py "Heat"));
                                (py "year", VStr (py "1995"));
                                (py "why", VStr (py "Tense."))]])
      by (constructor; [eexists; reflexivity | constructor]).
    destruct (proj2 (proj2 (proj2 (@recommend_500_on_generation_failure
                                     sample_config sample_success_world
                                     sample_request sample_mood []
                                     eq_refl eq_refl)
                                  (sample_response sample_model_text)
                                  sample_model_text eq_refl eq_refl))
                    _ _ Hp eq_refl Hf)
      as (enriched & log' & E & L).
    eexists. eexists. exists enriched, log'.
    split; [exact Hp |].
    split; [reflexivity |].
    split; [exact Hf |].
    split; [exact E | exact L].
Defined.

(** * Further properties *)

(** ** The prompt *)

Lemma starts_with_app (p s : pystr) : starts_with p (p ++ s) = true.
Proof.
  induction p as [| c p IH]; [reflexivity |].
  cbn [app starts_with]. rewrite N.eqb_refl. exact IH.
Qed.

Lemma str_contains_here (sub s : pystr) :
  starts_with sub s = true -> str_contains sub s = true.
Proof.
  intro H. destruct s; cbn [str_contains]; rewrite H; reflexivity.
Qed.

Lemma str_contains_app_r (sub pre s : pystr) :
  str_contains sub s = true -> str_contains sub (pre ++ s) = true.
Proof.
  intro H. induction pre as [| c pre IH]; [exact H |].
  cbn [app str_contains]. rewrite IH. apply orb_true_r.
Qed.

(** X1. Whatever the mood, the prompt holds it verbatim, names the keys
    ['movies'] and ['songs'] and asks for 3 movies and 3 songs; and the
    mood can be read back from the prompt: two moods give the same
    prompt only if they are the same. *)
Theorem build_prompt_embeds_mood :
  (forall mood : pystr,
      str_contains mood (build_prompt mood) = true
      /\ str_contains (py "'movies'") (build_prompt mood) = true
      /\ str_contains (py "'songs'") (build_prompt mood) = true
      /\ str_contains (py "suggest 3 movies and 3 songs.") (build_prompt mood)
         = true)
  /\ (forall m1 m2 : pystr, build_prompt m1 = build_prompt m2 -> m1 = m2).
Proof.
  split.
  - intro mood. unfold build_prompt.
    split; [| split; [| split]].
    + apply str_contains_app_r. apply str_contains_here. apply starts_with_app.
    + do 2 apply str_contains_app_r. vm_compute. reflexivity.
    + do 2 apply str_contains_app_r. vm_compute. reflexivity.
    + do 2 apply str_contains_app_r. vm_compute. reflexivity.
  - intros m1 m2 H. unfold build_prompt in H.
    apply app_inv_head in H. apply app_inv_tail in H. exact H.
Qed.

(** ** Matching, read backwards *)

Lemma star_greedy_inv (R : Type) (a : Re.atom) (s : pystr)
      (k : pystr -> option R) (r : R) :
  Re.star_greedy a s k = Some r ->
  exists taken rest,
    s = taken ++ rest
    /\ forallb (Re.atom_matches a) taken = true
    /\ k rest = Some r.
Proof.
  induction s as [| c s IH]; cbn [Re.star_greedy]; intro H.
  - exists [], []. repeat split. exact H.
  - destruct (Re.atom_matches a c) eqn:E.
    + destruct (Re.star_greedy a s k) as [r' |] eqn:G.
      * injection H as ->. destruct (IH eq_refl) as (taken & rest & -> & F & K).
        exists (c :: taken), rest. repeat split; [| exact K].
        cbn [forallb]. rewrite E, F. reflexivity.
      * exists [], (c :: s). repeat split. exact H.
    + exists [], (c :: s). repeat split. exact H.
Qed.

Lemma match_at_brace_span_eq (s : pystr) :
  Re.match_at brace_span s
  = match s with
    | c :: s' =>
        if N.eqb (ch "{") c then Re.star_greedy Re.Dot s' closing_brace
        else None
    | [] => None
    end.
Proof. destruct s; reflexivity. Qed.

Lemma closing_brace_inv (s rest : pystr) (gs : list pystr) :
  closing_brace s = Some (rest, gs) -> s = ch "}" :: rest /\ gs = [].
Proof.
  unfold closing_brace. cbn [Re.run Re.atom_matches].
  destruct s as [| c s]; [discriminate |].
  destruct (N.eqb (ch "}") c) eqn:E; [| discriminate].
  apply N.eqb_eq in E. subst c. intro H. injection H as <- <-.
  split; reflexivity.
Qed.

Lemma match_at_brace_span_inv (s rest : pystr) (gs : list pystr) :
  Re.match_at brace_span s = Some (rest, gs) ->
  exists mid, s = ch "{" :: mid ++ ch "}" :: rest /\ gs = [].
Proof.
  rewrite match_at_brace_span_eq.
  destruct s as [| c s]; [discriminate |].
  destruct (N.eqb (ch "{") c) eqn:E; [| discriminate].
  apply N.eqb_eq in E. subst c. intro H.
  apply star_greedy_inv in H. destruct H as (taken & rest0 & -> & _ & K).
  apply closing_brace_inv in K. destruct K as [-> ->].
  exists taken. split; reflexivity.
Qed.

Lemma star_dot_none (post : pystr) :
  ~ In (ch "}") post -> Re.star_greedy Re.Dot post closing_brace = None.
Proof.
  induction post as [| c post IH]; intro N; [reflexivity |].
  cbn [Re.star_greedy Re.atom_matches].
  rewrite IH by (intro H; apply N; right; exact H).
  unfold closing_brace. cbn [Re.run Re.atom_matches].
  destruct (N.eqb (ch "}") c) eqn:E; [| reflexivity].
  apply N.eqb_eq in E. exfalso. apply N. left. symmetry. exact E.
Qed.

Lemma star_dot_last (mid post : pystr) :
  ~ In (ch "}") post ->
  Re.star_greedy Re.Dot (mid ++ ch "}" :: post) closing_brace
  = Some (post, []).
Proof.
  intro N. induction mid as [| c mid IH].
  - cbn [app Re.star_greedy Re.atom_matches].
    rewrite (star_dot_none post N). reflexivity.
  - cbn [app Re.star_greedy Re.atom_matches]. rewrite IH. reflexivity.
Qed.

Lemma firstn_length_diff (m post : pystr) :
  firstn (List.length (m ++ post) - List.length post) (m ++ post) = m.
Proof.
  rewrite length_app.
  replace (List.length m + List.length post - List.length post)
    with (List.length m + 0) by lia.
  rewrite firstn_app_2. cbn [firstn]. apply app_nil_r.
Qed.

Lemma search_at_brace (mid post : pystr) :
  ~ In (ch "}") post ->
  Re.search brace_span (ch "{" :: mid ++ ch "}" :: post)
  = Some (ch "{" :: mid ++ [ch "}"]).
Proof.
  intro N.
  assert (M : Re.match_at brace_span (ch "{" :: mid ++ ch "}" :: post)
              = Some (post, [])).
  { rewrite match_at_brace_span_eq. rewrite N.eqb_refl.
    apply star_dot_last. exact N. }
  cbn [Re.search]. rewrite M. f_equal.
  replace (ch "{" :: mid ++ ch "}" :: post)
    with ((ch "{" :: mid ++ [ch "}"]) ++ post).
  - apply firstn_length_diff.
  - cbn [app]. rewrite <- app_assoc. reflexivity.
Qed.

Lemma search_skip (pre s : pystr) :
  ~ In (ch "{") pre ->
  Re.search brace_span (pre ++ s) = Re.search brace_span s.
Proof.
  induction pre as [| c pre IH]; intro N; [reflexivity |].
  cbn [app]. cbn [Re.search]. rewrite match_at_brace_span_eq.
  destruct (N.eqb (ch "{") c) eqn:E.
  - apply N.eqb_eq in E. exfalso. apply N. left. symmetry. exact E.
  - apply IH. intro H. apply N. right. exact H.
Qed.

Lemma search_brace_span_found (pre mid post : pystr) :
  ~ In (ch "{") pre -> ~ In (ch "}") post ->
  Re.search brace_span (pre ++ ch "{" :: mid ++ ch "}" :: post)
  = Some (ch "{" :: mid ++ [ch "}"]).
Proof.
  intros Npre Npost. rewrite (search_skip pre _ Npre).
  apply search_at_brace. exact Npost.
Qed.

Lemma search_eq (r : Re.regex) (s : pystr) :
  Re.search r s
  = match Re.match_at r s with
    | Some (rest, _) => Some (firstn (List.length s - List.length rest) s)
    | None =>
        match s with
        | [] => None
        | _ :: s' => Re.search r s'
        end
    end.
Proof. destruct s; reflexivity. Qed.

Lemma search_brace_span_sound (s : pystr) :
  forall m,
    Re.search brace_span s = Some m ->
    exists pre mid post,
      s = pre ++ m ++ post /\ m = ch "{" :: mid ++ [ch "}"].
Proof.
  induction s as [| c s IH]; intro m; rewrite search_eq.
  - rewrite match_at_brace_span_eq. discriminate.
  - destruct (Re.match_at brace_span (c :: s)) as [[rest gs] |] eqn:M.
    + intro H.
      assert (Hm : firstn (List.length (c :: s) - List.length rest) (c :: s)
                   = m) by (injection H; auto).
      apply match_at_brace_span_inv in M. destruct M as (mid & E & _).
      assert (E' : c :: s = (ch "{" :: mid ++ [ch "}"]) ++ rest)
        by (rewrite E; cbn [app]; rewrite <- app_assoc; reflexivity).
      rewrite E', firstn_length_diff in Hm. subst m.
      exists [], mid, rest. split; [exact E' | reflexivity].
    + intro H. destruct (IH m H) as (pre & mid & post & -> & E).
      exists (c :: pre), mid, post. split; [reflexivity | exact E].
Qed.

(** The first and the last occurrence of a character. *)
Lemma first_occurrence (x : char) (l : pystr) :
  In x l -> exists l1 l2, l = l1 ++ x :: l2 /\ ~ In x l1.
Proof.
  induction l as [| c l IH]; intro H; [contradiction |].
  destruct (N.eq_dec c x) as [-> | Ne].
  - exists [], l. split; [reflexivity | intros []].
  - destruct H as [-> | H]; [contradiction Ne; reflexivity |].
    destruct (IH H) as (l1 & l2 & -> & N).
    exists (c :: l1), l2. split; [reflexivity |].
    intros [E | E]; [exact (Ne E) | exact (N E)].
Qed.

Lemma last_occurrence (x : char) (l : pystr) :
  In x l -> exists l1 l2, l = l1 ++ x :: l2 /\ ~ In x l2.
Proof.
  induction l as [| c l IH]; intro H; [contradiction |].
  destruct (in_dec N.eq_dec x l) as [I | NI].
  - destruct (IH I) as (l1 & l2 & -> & N).
    exists (c :: l1), l2. split; [reflexivity | exact N].
  - destruct H as [-> | H]; [| contradiction].
    exists [], l. split; [reflexivity | exact NI].
Qed.

(** A text with an opening brace and a closing brace somewhere behind it
    has a brace span. *)
Lemma search_brace_span_complete (a b c : pystr) :
  exists pre mid post,
    a ++ ch "{" :: b ++ ch "}" :: c = pre ++ ch "{" :: mid ++ ch "}" :: post
    /\ ~ In (ch "{") pre /\ ~ In (ch "}") post.
Proof.
  destruct (@first_occurrence (ch "{") (a ++ ch "{" :: b ++ ch "}" :: c))
    as (pre & rest & E & Npre).
  { apply in_or_app. right. left. reflexivity. }
  assert (I : In (ch "}") rest).
  { (* the closing brace lies behind the first opening brace *)
    assert (L : List.length pre <= List.length a).
    { destruct (Nat.le_gt_cases (List.length pre) (List.length a)) as [L | G];
        [exact L | exfalso].
      apply Npre.
      assert (P : pre = firstn (List.length pre)
                              (a ++ ch "{" :: b ++ ch "}" :: c)).
      { rewrite E. rewrite firstn_app, Nat.sub_diag, firstn_all.
        cbn [firstn]. symmetry. apply app_nil_r. }
      rewrite P. rewrite firstn_app.
      apply in_or_app. right.
      replace (List.length pre - List.length a)
        with (S (List.length pre - List.length a - 1)) by lia.
      cbn [firstn]. left. reflexivity. }
    assert (S1 : skipn (S (List.length pre)) (a ++ ch "{" :: b ++ ch "}" :: c)
                 = rest).
    { rewrite E.
      replace (pre ++ ch "{" :: rest) with ((pre ++ [ch "{"]) ++ rest)
        by (rewrite <- app_assoc; reflexivity).
      replace (S (List.length pre)) with (List.length (pre ++ [ch "{"]))
        by (rewrite length_app; cbn [List.length]; lia).
      rewrite skipn_app, Nat.sub_diag, skipn_all. reflexivity. }
    rewrite <- S1.
    replace (a ++ ch "{" :: b ++ ch "}" :: c)
      with ((a ++ ch "{" :: b) ++ ch "}" :: c)
      by (rewrite <- app_assoc; reflexivity).
    rewrite skipn_app. apply in_or_app. right.
    assert (Z : S (List.length pre) - List.length (a ++ ch "{" :: b) = 0).
    { rewrite length_app. cbn [List.length]. lia. }
    rewrite Z. cbn [skipn]. left. reflexivity. }
  destruct (last_occurrence _ _ I) as (mid & post & -> & Npost).
  exists pre, mid, post. split; [exact E | split; assumption].
Qed.

(** ** Quote normalization *)

Lemma replace_char_app (old : char) (new a b : pystr) :
  replace_char old new (a ++ b)
  = replace_char old new a ++ replace_char old new b.
Proof. unfold replace_char. apply flat_map_app. Qed.

Lemma replace_char_in (old : char) (new s : pystr) (c : char) :
  In c (replace_char old new s) -> In c new \/ (In c s /\ c <> old).
Proof.
  unfold replace_char. intro H. apply in_flat_map in H.
  destruct H as (x & Hx & Hc).
  destruct (N.eqb x old) eqn:E.
  - left. exact Hc.
  - right. destruct Hc as [<- | []]. split; [exact Hx |].
    apply N.eqb_neq. exact E.
Qed.

Lemma replace_char_id (old : char) (new s : pystr) :
  ~ In old s -> replace_char old new s = s.
Proof.
  unfold replace_char. induction s as [| c s IH]; intro Hn; [reflexivity |].
  cbn [flat_map]. destruct (N.eqb c old) eqn:E.
  - apply N.eqb_eq in E. exfalso. apply Hn. left. exact E.
  - cbn [app]. f_equal. apply IH. intro H. apply Hn. right. exact H.
Qed.

Lemma normalize_quotes_app (a b : pystr) :
  normalize_quotes (a ++ b) = normalize_quotes a ++ normalize_quotes b.
Proof.
  unfold normalize_quotes. rewrite !replace_char_app. reflexivity.
Qed.

Lemma normalize_quotes_in (s : pystr) (c : char) :
  In c (normalize_quotes s) ->
  c = dquote \/ c = ch "'"
  \/ (In c s /\ c <> left_double_quote /\ c <> right_double_quote
      /\ c <> right_single_quote).
Proof.
  unfold normalize_quotes. intro H.
  apply replace_char_in in H. destruct H as [[<- | []] | [H N3]].
  { right. left. reflexivity. }
  apply replace_char_in in H. destruct H as [[<- | []] | [H N2]].
  { left. reflexivity. }
  apply replace_char_in in H. destruct H as [[<- | []] | [H N1]].
  { left. reflexivity. }
  right. right. repeat split; assumption.
Qed.

Lemma normalize_quotes_plain (s : pystr) : plain_quotes (normalize_quotes s).
Proof.
  unfold plain_quotes.
  repeat split; intro H; apply normalize_quotes_in in H;
    destruct H as [E | [E | (_ & N1 & N2 & N3)]];
    try discriminate E; congruence.
Qed.

Lemma normalize_quotes_id (s : pystr) :
  plain_quotes s -> normalize_quotes s = s.
Proof.
  intros (N1 & N2 & N3). unfold normalize_quotes.
  rewrite (replace_char_id _ _ _ N1), (replace_char_id _ _ _ N2).
  apply replace_char_id. exact N3.
Qed.

Lemma normalize_quotes_not_in (s : pystr) (c : char) :
  c <> dquote -> c <> ch "'" -> ~ In c s -> ~ In c (normalize_quotes s).
Proof.
  intros Nd Na Hn H. apply normalize_quotes_in in H.
  destruct H as [E | [E | (I & _)]]; [exact (Nd E) | exact (Na E) | exact (Hn I)].
Qed.

Lemma normalize_quotes_cons (c : char) (s : pystr) :
  c <> left_double_quote -> c <> right_double_quote ->
  c <> right_single_quote ->
  normalize_quotes (c :: s) = c :: normalize_quotes s.
Proof.
  intros N1 N2 N3.
  change (c :: s) with ([c] ++ s). rewrite normalize_quotes_app.
  rewrite (@normalize_quotes_id [c]); [reflexivity |].
  unfold plain_quotes.
  repeat split; intros [E | []]; congruence.
Qed.

(** X3. Typographic quotes count as plain ones: no left or right double
    quote and no right single quote is left in the normalized text, so
    normalizing twice changes nothing, a text without them is not
    touched, and [parse_json_block] gives the same result for a text and
    for its normalization, fallback included. *)
Theorem parse_json_block_quotes (text : pystr) :
  plain_quotes (normalize_quotes text)
  /\ normalize_quotes (normalize_quotes text) = normalize_quotes text
  /\ parse_json_block (normalize_quotes text) = parse_json_block text
  /\ (plain_quotes text -> normalize_quotes text = text).
Proof.
  assert (I : normalize_quotes (normalize_quotes text) = normalize_quotes text)
    by (apply normalize_quotes_id, normalize_quotes_plain).
  split; [apply normalize_quotes_plain |].
  split; [exact I |].
  split; [| apply normalize_quotes_id].
  unfold parse_json_block. rewrite I. reflexivity.
Qed.

(** ** The comma rewrite, as a whole *)

Lemma match_at_trailing_comma_eq (s : pystr) :
  Re.match_at trailing_comma s
  = match s with
    | c :: s' =>
        if N.eqb (ch ",") c then Re.star_greedy Re.Space s' closing_group
        else None
    | [] => None
    end.
Proof. destruct s; reflexivity. Qed.

Lemma closing_group_inv (s rest : pystr) (gs : list pystr) :
  closing_group s = Some (rest, gs) ->
  exists c, s = c :: rest /\ (c = ch "}" \/ c = ch "]") /\ gs = [[c]].
Proof.
  unfold closing_group. cbn [Re.run Re.atom_matches existsb].
  destruct s as [| c s]; [discriminate |].
  destruct (N.eqb c (ch "}") || (N.eqb c (ch "]") || false)) eqn:E;
    [| discriminate].
  intro H.
  assert (Hr : s = rest) by (injection H; auto). subst rest.
  assert (Hg : [] ++ [firstn (List.length (c :: s) - List.length s) (c :: s)]
               = gs) by (injection H; auto).
  exists c. split; [reflexivity |]. split.
  - apply orb_true_iff in E. destruct E as [E | E].
    + left. apply N.eqb_eq. exact E.
    + rewrite orb_false_r in E. right. apply N.eqb_eq. exact E.
  - rewrite <- Hg. cbn [app List.length].
    replace (S (List.length s) - List.length s) with 1 by lia.
    reflexivity.
Qed.

Lemma match_at_trailing_comma_inv (s rest : pystr) (gs : list pystr) :
  Re.match_at trailing_comma s = Some (rest, gs) ->
  exists ws c,
    s = ch "," :: ws ++ c :: rest
    /\ forallb Re.is_space ws = true
    /\ (c = ch "}" \/ c = ch "]").
Proof.
  rewrite match_at_trailing_comma_eq.
  destruct s as [| c0 s]; [discriminate |].
  destruct (N.eqb (ch ",") c0) eqn:E; [| discriminate].
  apply N.eqb_eq in E. subst c0. intro H.
  apply star_greedy_inv in H. destruct H as (ws & rest0 & -> & F & K).
  apply closing_group_inv in K. destruct K as (c & -> & Hc & _).
  exists ws, c. repeat split; assumption.
Qed.

Lemma sub_step_none (r : Re.regex) (repl : list Re.repl_item) (c : char)
      (s : pystr) :
  Re.match_at r (c :: s) = None ->
  Re.sub r repl (c :: s) = c :: Re.sub r repl s.
Proof.
  intro H. unfold Re.sub. cbn [Re.sub_from]. rewrite H. reflexivity.
Qed.

Lemma filter_spaces (ws : pystr) :
  forallb Re.is_space ws = true ->
  filter (fun c => negb (comma_or_space c)) ws = [].
Proof.
  induction ws as [| c ws IH]; intro H; [reflexivity |].
  cbn [forallb] in H. apply andb_true_iff in H. destruct H as [Hc Hws].
  cbn [filter]. unfold comma_or_space at 1. rewrite Hc, orb_true_r.
  cbn [negb]. apply IH. exact Hws.
Qed.

Lemma closer_kept (c : char) :
  c = ch "}" \/ c = ch "]" -> negb (comma_or_space c) = true.
Proof. intros [-> | ->]; reflexivity. Qed.

(** X5. The rewrite of [parse_json_block] deletes nothing but commas and
    white space: what is left of a text when its commas and its white
    space are taken out is the same before and after the rewrite.  The
    rewrite never makes a text longer, and a text without a comma comes
    back as it is. *)
Theorem comma_rewrite_deletes_only_commas_and_spaces (s : pystr) :
  filter (fun c => negb (comma_or_space c))
         (Re.sub trailing_comma [Re.RGroup 1] s)
  = filter (fun c => negb (comma_or_space c)) s
  /\ List.length (Re.sub trailing_comma [Re.RGroup 1] s) <= List.length s
  /\ (~ In (ch ",") s -> Re.sub trailing_comma [Re.RGroup 1] s = s).
Proof.
  assert (G : forall n s,
             List.length s <= n ->
             filter (fun c => negb (comma_or_space c))
                    (Re.sub trailing_comma [Re.RGroup 1] s)
             = filter (fun c => negb (comma_or_space c)) s
             /\ List.length (Re.sub trailing_comma [Re.RGroup 1] s)
                <= List.length s).
  { clear s. induction n as [| n IH]; intros s L.
    - destruct s; [split; [reflexivity | cbn; lia] | cbn in L; lia].
    - destruct s as [| x s']; [split; [reflexivity | cbn; lia] |].
      destruct (Re.match_at trailing_comma (x :: s')) as [[rest gs] |] eqn:M.
      + apply match_at_trailing_comma_inv in M.
        destruct M as (ws & c & E & Hws & Hc).
        rewrite E, (sub_trailing_comma_match ws rest Hws Hc).
        assert (Lr : List.length rest <= n).
        { apply (f_equal (@List.length char)) in E.
          cbn [List.length] in E, L. rewrite length_app in E.
          cbn [List.length] in E. lia. }
        destruct (IH rest Lr) as [F Len]. split.
        * cbn [filter]. rewrite (closer_kept Hc), F.
          change (ch "," :: ws ++ c :: rest)
            with ([ch ","] ++ ws ++ [c] ++ rest).
          rewrite !filter_app, (filter_spaces ws Hws).
          cbn [filter app]. rewrite (closer_kept Hc).
          replace (negb (comma_or_space (ch ","))) with false by reflexivity.
          reflexivity.
        * cbn [List.length]. rewrite length_app. cbn [List.length]. lia.
      + rewrite (sub_step_none trailing_comma [Re.RGroup 1] x s' M).
        cbn [List.length] in L.
        destruct (IH s' ltac:(lia)) as [F Len]. split.
        * cbn [filter]. rewrite F. reflexivity.
        * cbn [List.length]. lia. }
  destruct (G (List.length s) s (le_n _)) as [F Len].
  split; [exact F | split; [exact Len |]].
  clear. induction s as [| x s IH]; intro Hn; [reflexivity |].
  rewrite sub_trailing_comma_other.
  - f_equal. apply IH. intro H. apply Hn. right. exact H.
  - intro E. apply Hn. left. exact E.
Qed.

(** ** Brace spans *)

Lemma parse_object_items_dict (scan : pystr -> option (value * pystr))
      (fuel : nat) :
  forall s acc v r,
    Json.parse_object_items scan fuel s acc = Some (v, r) ->
    exists d, v = VDict d.
Proof.
  induction fuel as [| n IH]; intros s acc v r H; [discriminate H |].
  cbn [Json.parse_object_items] in H.
  destruct s as [| q s0]; [discriminate H |].
  destruct (q =? 34)%N; [| discriminate H].
  destruct (Json.scanstring s0 []) as [[key r1] |]; [| discriminate H].
  destruct (Json.skip_ws r1) as [| colon r2]; [discriminate H |].
  destruct (colon =? 58)%N; [| discriminate H].
  destruct (scan (Json.skip_ws r2)) as [[v0 r3] |]; [| discriminate H].
  destruct (Json.skip_ws r3) as [| c r4]; [discriminate H |].
  destruct (c =? 125)%N.
  - injection H as <- _. eexists. reflexivity.
  - destruct (c =? 44)%N; [| discriminate H].
    apply IH in H. exact H.
Qed.

Lemma loads_brace_dict (t : pystr) (v : value) :
  Json.loads (ch "{" :: t) = Some v -> exists d, v = VDict d.
Proof.
  unfold Json.loads.
  change (starts_with [65279%N] (ch "{" :: t)) with false. cbv iota.
  change (Json.skip_ws (ch "{" :: t)) with (ch "{" :: t).
  cbn [Json.scan_once].
  change ((ch "{" =? 34)%N) with false.
  change ((ch "{" =? 123)%N) with true. cbv iota.
  unfold Json.parse_object.
  destruct (Json.skip_ws t) as [| c r]; [discriminate |].
  destruct (c =? 125)%N.
  - destruct (Json.skip_ws r); [| discriminate].
    intro H. injection H as <-. eexists. reflexivity.
  - destruct (Json.parse_object_items _ _ _ _) as [[v0 rest] |] eqn:P;
      [| discriminate].
    destruct (Json.skip_ws rest); [| discriminate].
    intro H. injection H as <-.
    apply parse_object_items_dict in P. exact P.
Qed.

Lemma json_candidate_of_span (pre mid post : pystr) :
  ~ In (ch "{") pre -> ~ In (ch "}") post ->
  json_candidate (pre ++ ch "{" :: mid ++ ch "}" :: post)
  = ch "{" :: Re.sub trailing_comma [Re.RGroup 1] (mid ++ [ch "}"]).
Proof.
  intros Npre Npost. unfold json_candidate.
  rewrite (search_brace_span_found pre mid post Npre Npost).
  apply sub_trailing_comma_other. discriminate.
Qed.

Lemma normalize_quotes_span (a b c : pystr) :
  normalize_quotes (a ++ ch "{" :: b ++ ch "}" :: c)
  = normalize_quotes a
    ++ ch "{" :: normalize_quotes b ++ ch "}" :: normalize_quotes c.
Proof.
  rewrite normalize_quotes_app.
  rewrite normalize_quotes_cons by discriminate.
  rewrite normalize_quotes_app.
  rewrite normalize_quotes_cons by discriminate.
  reflexivity.
Qed.

(** X6. A text with an opening brace and a closing brace somewhere
    behind it never parses to a list, a string or a number: the result of
    [parse_json_block] is an object, decoded or the fallback, so the
    membership test of the route cannot raise on it. *)
Theorem parse_json_block_brace_span_gives_object (a b c : pystr) :
  exists d : dict,
    parse_json_block (a ++ ch "{" :: b ++ ch "}" :: c) = Ok (VDict d)
    /\ exists has : bool, py_contains (VDict d) (py "movies") = Ok has.
Proof.
  unfold parse_json_block. rewrite normalize_quotes_span.
  destruct (search_brace_span_complete (normalize_quotes a)
              (normalize_quotes b) (normalize_quotes c))
    as (pre & mid & post & -> & Npre & Npost).
  rewrite (json_candidate_of_span pre mid post Npre Npost).
  unfold json_loads.
  destruct (Json.loads _) as [v |] eqn:J.
  - apply loads_brace_dict in J. destruct J as [d ->].
    exists d. split; [reflexivity |]. eexists. reflexivity.
  - eexists. split; [reflexivity |]. eexists. reflexivity.
Qed.

(** X4. Prose around the object is ignored.  When nothing before the
    object holds an opening brace and nothing behind it a closing one,
    the candidate handed to the decoder is the one of the object alone;
    so if the object decodes, [parse_json_block] gives the decoded
    value with or without the prose. *)
Theorem parse_json_block_ignores_prose (pre mid post : pystr) :
  ~ In (ch "{") pre ->
  ~ In (ch "}") post ->
  let body := ch "{" :: mid ++ [ch "}"] in
  json_candidate (normalize_quotes (pre ++ body ++ post))
  = json_candidate (normalize_quotes body)
  /\ (forall v : value,
         Json.loads (json_candidate (normalize_quotes body)) = Some v ->
         parse_json_block (pre ++ body ++ post) = Ok v
         /\ parse_json_block body = Ok v).
Proof.
  intros Npre Npost body.
  assert (E : json_candidate (normalize_quotes (pre ++ body ++ post))
              = json_candidate (normalize_quotes body)).
  { unfold body.
    replace (pre ++ (ch "{" :: mid ++ [ch "}"]) ++ post)
      with (pre ++ ch "{" :: mid ++ ch "}" :: post)
      by (cbn [app]; rewrite <- app_assoc; reflexivity).
    replace (ch "{" :: mid ++ [ch "}"])
      with ([] ++ ch "{" :: mid ++ ch "}" :: []) by reflexivity.
    rewrite !normalize_quotes_span.
    rewrite !json_candidate_of_span;
      try (intros []);
      try (apply normalize_quotes_not_in; [discriminate | discriminate |];
           assumption).
    reflexivity. }
  split; [exact E |].
  intros v J. unfold parse_json_block, json_loads.
  rewrite E, J. split; reflexivity.
Qed.

(** ** The prompt and the parser *)

Lemma build_prompt_split (mood : pystr) :
  build_prompt mood = prompt_head mood ++ prompt_example_text.
Proof.
  unfold build_prompt, prompt_head.
  rewrite <- !app_assoc.
  apply (f_equal (app _)). apply (f_equal (app mood)).
  vm_compute. reflexivity.
Qed.

Lemma forallb_not_in (x : char) (l : pystr) :
  forallb (fun c => negb (N.eqb c x)) l = true -> ~ In x l.
Proof.
  intros F H. rewrite forallb_forall in F. specialize (F x H).
  rewrite N.eqb_refl in F. discriminate F.
Qed.

Lemma prompt_head_no_brace (mood : pystr) :
  ~ In (ch "{") mood -> ~ In (ch "{") (prompt_head mood).
Proof.
  intros Hm H. unfold prompt_head in H.
  apply in_app_or in H. destruct H as [H | H].
  { revert H. apply forallb_not_in. vm_compute. reflexivity. }
  apply in_app_or in H. destruct H as [H | H]; [exact (Hm H) |].
  revert H. apply forallb_not_in. vm_compute. reflexivity.
Qed.

(** X2. The example the prompt shows is accepted by the program's own
    parser: for every mood without an opening brace,
    [parse_json_block] applied to the whole prompt gives the example,
    an object with one movie under [movies] and one song under
    [songs]. *)
Theorem parse_json_block_reads_prompt_example (mood : pystr) :
  ~ In (ch "{") mood ->
  parse_json_block (build_prompt mood) = Ok prompt_example.
Proof.
  intro Hm. rewrite build_prompt_split.
  unfold parse_json_block. rewrite normalize_quotes_app.
  replace (normalize_quotes prompt_example_text) with prompt_example_text
    by (vm_compute; reflexivity).
  unfold json_candidate.
  rewrite search_skip.
  2:{ apply normalize_quotes_not_in; [discriminate | discriminate |].
      apply prompt_head_no_brace. exact Hm. }
  replace (Re.search brace_span prompt_example_text)
    with (Some prompt_example_text) by (vm_compute; reflexivity).
  replace (json_loads (Re.sub trailing_comma [Re.RGroup 1] prompt_example_text))
    with (Ok prompt_example) by (vm_compute; reflexivity).
  reflexivity.
Qed.

(** ** Text extraction: failure and fallback *)

Lemma join_from_cases (parts : list value) :
  forall i,
    (forallb is_text parts = true -> exists s, join_from i parts = Ok s)
    /\ (forallb is_text parts = false ->
        exists e, join_from i parts = Raise e /\ exn_class_of e = TypeError).
Proof.
  induction parts as [| p parts IH]; intro i.
  - split; [intros _; exists []; reflexivity | discriminate].
  - destruct (IH (S i)) as [IHt IHf].
    destruct p; cbn [forallb is_text join_from andb];
      try (split; [discriminate |
                   intros _; eexists; split; reflexivity]).
    split.
    + intro H. destruct (IHt H) as [t ->]. eexists. reflexivity.
    + intro H. destruct (IHf H) as (e & -> & C). exists e.
      split; [reflexivity | exact C].
Qed.

(** X7. With no populated direct text, extraction fails in one way only.
    An [output] that is absent, [None] or an empty list gives
    [str(response)].  A non-empty list of blocks gives text if every
    collected fragment is text, and raises a [TypeError] (the one of
    [join]) if some fragment is not: a keyed element whose [text] is a
    number, a list or null is collected like any other. *)
Theorem extract_text_failure_modes (w : world) (response : value) :
  populated_output_text response = None ->
  ((getattr response (py "output") = None
    \/ getattr response (py "output") = Some VNone
    \/ getattr response (py "output") = Some (VList [])) ->
   extract_text_from_response w response = Ok (VStr (str_of w response)))
  /\ (forall blocks : list value,
         getattr response (py "output") = Some (VList blocks) ->
         blocks <> [] ->
         (forallb is_text (flat_map block_fragments blocks) = true ->
          exists s, extract_text_from_response w response = Ok (VStr s))
         /\ (forallb is_text (flat_map block_fragments blocks) = false ->
             exists e,
               extract_text_from_response w response = Raise e
               /\ exn_class_of e = TypeError)).
Proof.
  intro Hp. split.
  - intros [Ho | [Ho | Ho]]; unfold extract_text_from_response;
      rewrite Hp, Ho; reflexivity.
  - intros blocks Ho Hb. unfold extract_text_from_response. rewrite Hp, Ho.
    destruct blocks as [| b blocks]; [contradiction Hb; reflexivity |].
    cbn [truthy py_iter rbind]. rewrite collect_blocks_eq. cbn [app].
    unfold py_join.
    destruct (join_from_cases (flat_map block_fragments (b :: blocks)) 0)
      as [Jt Jf].
    split; intro H.
    + destruct (Jt H) as [s ->]. exists s. reflexivity.
    + destruct (Jf H) as (e & -> & C). exists e. split; [reflexivity | exact C].
Qed.

Lemma no_dict_no_fragments (blocks : list value) :
  Forall (fun b => forall d, b <> VDict d) blocks ->
  flat_map block_fragments blocks = [].
Proof.
  induction 1 as [| b blocks Hb _ IH]; [reflexivity |].
  cbn [flat_map]. rewrite IH.
  destruct b; try reflexivity. exfalso. apply (Hb entries). reflexivity.
Qed.

(** X8. A response with no direct text whose output blocks are not
    dictionaries (the SDK's own objects, for instance) yields the empty
    text, not [str(response)]; the route then answers 200 with the
    error [No movie data returned] and the empty string as [raw]. *)
Theorem recommend_opaque_blocks (cfg : config) (w : world)
        (request_json mood response : value) (blocks : list value)
        (log : list event) :
  request_mood request_json = Ok mood ->
  truthy mood = true ->
  responses_create w (generation_request_for cfg (build_prompt (str_of w mood)))
  = ApiReturn response ->
  populated_output_text response = None ->
  getattr response (py "output") = Some (VList blocks) ->
  blocks <> [] ->
  Forall (fun b => forall d, b <> VDict d) blocks ->
  extract_text_from_response w response = Ok (VStr [])
  /\ recommend cfg w request_json log
     = (Ok (VDict [(py "error", VStr (py "No movie data returned"));
                   (py "raw", VStr [])], 200),
        log ++ [GenerationCall
                  (generation_request_for cfg
                                          (build_prompt (str_of w mood)))]).
Proof.
  intros Hm Ht Hc Hp Ho Hb Hf.
  assert (Hx : extract_text_from_response w response = Ok (VStr [])).
  { unfold extract_text_from_response. rewrite Hp, Ho.
    destruct blocks as [| b blocks]; [contradiction Hb; reflexivity |].
    cbn [truthy py_iter rbind]. rewrite collect_blocks_eq. cbn [app].
    rewrite (no_dict_no_fragments Hf). reflexivity. }
  split; [exact Hx |].
  apply (recommend_soft_failure cfg w request_json log Hm Ht Hc Hx
           (parsed := VDict [(py "raw_text", VStr [])]));
    reflexivity.
Qed.

(** ** The lookup's request and its answer *)

(** X9. With a credential configured a lookup issues exactly one
    request, whatever comes of it.  Its query holds the title under [t]
    and the credential under [apikey], and the year under [y] exactly
    when the year is truthy: a missing or empty year is not sent. *)
Theorem omdb_lookup_one_request (cfg : config) (w : world) (title year : value)
        (log : list event) (key : pystr) :
  OMDB_API_KEY cfg = Some key ->
  key <> [] ->
  let params := omdb_params (VStr key) title year in
  (exists answer,
      omdb_lookup cfg w title year log
      = (Ok answer, log ++ [MetadataCall params]))
  /\ dict_get params (py "t") = Some title
  /\ dict_get params (py "apikey") = Some (VStr key)
  /\ dict_get params (py "y") = (if truthy year then Some year else None)
  /\ map fst params
     = (if truthy year then [py "t"; py "apikey"; py "y"]
        else [py "t"; py "apikey"]).
Proof.
  intros K Hne params.
  assert (T : truthy (getenv_value (OMDB_API_KEY cfg)) = true).
  { rewrite K. destruct key; [contradiction Hne; reflexivity | reflexivity]. }
  split.
  - eexists. rewrite omdb_lookup_eq. unfold lookup_log. rewrite T, K.
    reflexivity.
  - unfold params, omdb_params. destruct (truthy year); repeat split; reflexivity.
Qed.

(** X10. When the provider's reply decodes to an object whose [Response]
    is ["True"], the lookup returns its [Poster], [Year], [Genre] and
    [Plot] as they are, each [None] if the key is missing, except that a
    [Poster] equal to the marker ["N/A"] is returned as [None]. *)
Theorem omdb_lookup_success (cfg : config) (w : world) (title year : value)
        (log : list event) (key body : pystr) (data : dict) :
  OMDB_API_KEY cfg = Some key ->
  key <> [] ->
  let params := omdb_params (VStr key) title year in
  requests_get w log params = HttpReply body ->
  Json.loads body = Some (VDict data) ->
  dict_get data (py "Response") = Some (VStr (py "True")) ->
  omdb_lookup cfg w title year log
  = (Ok (match dict_get data (py "Poster") with
         | Some poster => if eq_str poster (py "N/A") then VNone else poster
         | None => VNone
         end,
         dict_get_or data (py "Year") VNone,
         dict_get_or data (py "Genre") VNone,
         dict_get_or data (py "Plot") VNone),
     log ++ [MetadataCall params]).
Proof.
  intros K Hne params R J D.
  assert (T : truthy (getenv_value (OMDB_API_KEY cfg)) = true).
  { rewrite K. destruct key; [contradiction Hne; reflexivity | reflexivity]. }
  rewrite omdb_lookup_eq. unfold lookup_answer, lookup_log. rewrite T, K.
  cbn [getenv_value]. fold params. rewrite R.
  unfold provider_answer. rewrite J.
  unfold dict_get_or. rewrite D.
  change (eq_str (VStr (py "True")) (py "True")) with true. cbv iota zeta.
  destruct (dict_get data (py "Poster")) as [poster |]; [| reflexivity].
  destruct (eq_str poster (py "N/A")); reflexivity.
Qed.

(** ** The calls of a request *)

Lemma enrich_movie_log (cfg : config) (w : world) (m : value)
      (log : list event) (r : result value) (log' : list event) :
  enrich_movie cfg w m log = (r, log') ->
  exists calls,
    log' = log ++ calls /\ Forall is_metadata_call calls
    /\ List.length calls <= 1.
Proof.
  destruct m as [| | | | | | d |];
    try (rewrite enrich_movie_not_dict by (intros d0 E; discriminate E);
         intro H; injection H as _ <-; exists [];
         rewrite app_nil_r; repeat split; [constructor | cbn; lia]).
  rewrite enrich_movie_dict. intro H. injection H as _ <-.
  unfold lookup_log.
  destruct (truthy (getenv_value (OMDB_API_KEY cfg))).
  - eexists. split; [reflexivity |]. split; [| cbn; lia].
    constructor; [exact I | constructor].
  - exists []. rewrite app_nil_r. repeat split; [constructor | cbn; lia].
Qed.

Lemma enrich_loop_log (cfg : config) (w : world) (movies : list value) :
  forall (acc : list value) (log : list event) (r : result (list value))
         (log' : list event),
    enrich_loop cfg w movies acc log = (r, log') ->
    exists calls,
      log' = log ++ calls /\ Forall is_metadata_call calls
      /\ List.length calls <= List.length movies.
Proof.
  induction movies as [| m rest IH]; intros acc log r log' H.
  - cbn in H. injection H as _ <-. exists []. rewrite app_nil_r.
    repeat split; [constructor | cbn; lia].
  - cbn [enrich_loop] in H. unfold bind at 1 in H.
    destruct (enrich_movie cfg w m log) as [[e | x] l1] eqn:E.
    + apply enrich_movie_log in E. destruct E as (c1 & -> & F1 & L1).
      apply IH in H. destruct H as (c2 & -> & F2 & L2).
      exists (c1 ++ c2). rewrite app_assoc.
      split; [reflexivity |]. split.
      * apply Forall_app. split; assumption.
      * rewrite length_app. cbn [List.length]. lia.
    + apply enrich_movie_log in E. destruct E as (c1 & -> & F1 & L1).
      injection H as _ <-. exists c1.
      split; [reflexivity |]. split; [exact F1 | cbn [List.length]; lia].
Qed.

Lemma after_generation_log (cfg : config) (w : world) (response : value)
      (log : list event) (r : result (value * nat)) (log' : list event) :
  after_generation cfg w response log = (r, log') ->
  exists calls, log' = log ++ calls /\ Forall is_metadata_call calls.
Proof.
  assert (Z : forall (x : result (value * nat)) (l : list event),
             (x, log) = (r, l) ->
             exists calls, l = log ++ calls /\ Forall is_metadata_call calls).
  { intros x l H. injection H as _ <-. exists []. rewrite app_nil_r.
    split; [reflexivity | constructor]. }
  unfold after_generation. unfold bind at 1, lift.
  destruct (extract_text_from_response w response) as [text | e];
    [| apply Z].
  unfold bind at 1.
  destruct (call_parse_json_block text) as [parsed | e]; [| apply Z].
  unfold bind at 1.
  destruct (py_contains parsed (py "movies")) as [has | e]; [| apply Z].
  destruct has; cbn [negb]; [| apply Z].
  unfold bind at 1.
  destruct (py_getitem parsed (py "movies")) as [movies_v | e]; [| apply Z].
  unfold bind at 1.
  destruct (py_iter movies_v) as [movies | e]; [| apply Z].
  unfold bind at 1.
  destruct (enrich_loop cfg w movies [] log) as [[enriched | e] l] eqn:L.
  - apply enrich_loop_log in L. destruct L as (calls & -> & F & _).
    unfold bind, lift, ret.
    destruct (py_setitem parsed (py "movies") (VList enriched));
      intro H; injection H as _ <-; exists calls; split;
      [reflexivity | exact F | reflexivity | exact F].
  - apply enrich_loop_log in L. destruct L as (calls & -> & F & _).
    intro H. injection H as _ <-. exists calls.
    split; [reflexivity | exact F].
Qed.

(** X11. Whatever the request and whatever the services do, the route
    only adds to the log of calls.  It either makes no call at all, or
    exactly one generation call first (to the configured model, with
    the prompt built from the mood, temperature 0.7 and at most 700
    output tokens) followed by metadata lookups only. *)
Theorem recommend_call_discipline (cfg : config) (w : world)
        (request_json : value) (log : list event)
        (r : result (value * nat)) (log' : list event) :
  recommend cfg w request_json log = (r, log') ->
  log' = log
  \/ exists (mood : value) (rq : generation_request) (calls : list event),
      request_mood request_json = Ok mood
      /\ truthy mood = true
      /\ log' = log ++ GenerationCall rq :: calls
      /\ Forall is_metadata_call calls
      /\ req_model rq = OPENAI_MODEL cfg
      /\ req_input rq = build_prompt (str_of w mood)
      /\ req_temperature rq = FDec false 7 (-1)
      /\ req_max_output_tokens rq = 700%Z.
Proof.
  intro H.
  destruct (request_mood request_json) as [mood | e] eqn:Hm.
  2:{ rewrite (recommend_bad_request cfg w request_json log Hm) in H.
      injection H as _ <-. left. reflexivity. }
  destruct (truthy mood) eqn:Ht.
  2:{ rewrite (recommend_no_mood cfg w request_json log Hm Ht) in H.
      injection H as _ <-. left. reflexivity. }
  right. rewrite (recommend_with_mood cfg w request_json log Hm Ht) in H.
  cbv zeta in H.
  exists mood, (generation_request_for cfg (build_prompt (str_of w mood))).
  destruct (responses_create w _) as [response | msg].
  - unfold caught in H.
    destruct (after_generation cfg w response _) as [x l] eqn:A.
    apply after_generation_log in A. destruct A as (calls & -> & F).
    exists calls.
    assert (E : log' = (log ++ [GenerationCall
                                  (generation_request_for
                                     cfg (build_prompt (str_of w mood)))])
                       ++ calls)
      by (destruct x; injection H as _ <-; reflexivity).
    rewrite <- app_assoc in E. cbn [app] in E.
    repeat split; try assumption; reflexivity.
  - injection H as _ <-. exists [].
    repeat split; try assumption; try reflexivity. constructor.
Qed.

Lemma enrich_loop_calls (cfg : config) (w : world) (movies : list value) :
  forall (acc : list value) (log : list event) (es : list value)
         (log' : list event),
    enrich_loop cfg w movies acc log = (Ok es, log') ->
    log' = log ++ lookup_calls cfg movies
    /\ Forall (fun m => exists d, m = VDict d) movies.
Proof.
  induction movies as [| m rest IH]; intros acc log es log' H.
  - cbn in H. injection H as _ <-. unfold lookup_calls.
    destruct (truthy _); cbn [flat_map]; rewrite app_nil_r;
      (split; [reflexivity | constructor]).
  - cbn [enrich_loop] in H. unfold bind at 1 in H.
    destruct m as [| | | | | | d |];
      try (rewrite enrich_movie_not_dict in H by (intros d0 E; discriminate E);
           discriminate H).
    rewrite enrich_movie_dict in H. apply IH in H. destruct H as [-> F].
    split.
    + unfold lookup_log, lookup_calls, movie_params.
      destruct (truthy (getenv_value (OMDB_API_KEY cfg)));
        [| reflexivity].
      cbn [flat_map]. rewrite <- app_assoc. reflexivity.
    + constructor; [exists d; reflexivity | exact F].
Qed.

Lemma lookup_calls_length (cfg : config) (movies : list value) :
  Forall (fun m => exists d, m = VDict d) movies ->
  List.length (lookup_calls cfg movies)
  = if truthy (getenv_value (OMDB_API_KEY cfg)) then List.length movies
    else 0.
Proof.
  intro F. unfold lookup_calls.
  destruct (truthy (getenv_value (OMDB_API_KEY cfg))); [| reflexivity].
  induction F as [| m rest [d ->] _ IH]; [reflexivity |].
  cbn [flat_map app List.length]. rewrite IH. reflexivity.
Qed.

(** X12. In a request that succeeds, the calls are the generation call
    and then the lookups of the enrichment loop and nothing else: with a
    credential one lookup for each suggested movie, in the order of the
    suggestions, each with that movie's title and year; without a
    credential none. *)
Theorem recommend_lookup_sequence (cfg : config) (w : world)
        (request_json recs : value) (st : nat) (log log' : list event) :
  recommend cfg w request_json log
  = (Ok (VDict [(py "recommendations", recs)], st), log') ->
  exists (mood response : value) (text : pystr) (parsed : dict)
         (movies_v : value) (movies : list value),
    request_mood request_json = Ok mood
    /\ responses_create w
         (generation_request_for cfg (build_prompt (str_of w mood)))
       = ApiReturn response
    /\ extract_text_from_response w response = Ok (VStr text)
    /\ parse_json_block text = Ok (VDict parsed)
    /\ dict_get parsed (py "movies") = Some movies_v
    /\ py_iter movies_v = Ok movies
    /\ log' = log
              ++ GenerationCall
                   (generation_request_for cfg (build_prompt (str_of w mood)))
              :: lookup_calls cfg movies
    /\ List.length (lookup_calls cfg movies)
       = (if truthy (getenv_value (OMDB_API_KEY cfg))
          then List.length movies else 0).
Proof.
  intro H.
  apply recommend_success_inv in H.
  destruct H as (mood & response & Hm & Ht & Hc & H).
  apply after_generation_success in H.
  destruct H as (text & parsed & movies_v & movies & enriched
                 & Hx & Hp & Hd & Hi & Hl & _ & _).
  apply enrich_loop_calls in Hl. destruct Hl as [-> F].
  exists mood, response, text, parsed, movies_v, movies.
  repeat split; try assumption.
  - rewrite <- app_assoc. reflexivity.
  - apply lookup_calls_length. exact F.
Qed.

Lemma lookup_answer_no_key (cfg : config) (w : world) (title year : value)
      (log : list event) :
  truthy (getenv_value (OMDB_API_KEY cfg)) = false ->
  lookup_answer cfg w title year log = all_absent.
Proof. intro K. unfold lookup_answer. rewrite K. reflexivity. Qed.

(** X13. Without a credential (unset or empty) enrichment is switched
    off and the request still succeeds: the only call is the generation
    call, and the movies that come back are those of the object the
    model's text was parsed to, one for one and in their order, each
    with its own title, year and why, the placeholder as poster, and no
    genre and no plot. *)
Theorem recommend_without_credential (cfg : config) (w : world)
        (request_json recs : value) (st : nat) (log log' : list event) :
  truthy (getenv_value (OMDB_API_KEY cfg)) = false ->
  recommend cfg w request_json log
  = (Ok (VDict [(py "recommendations", recs)], st), log') ->
  exists (mood response : value) (text : pystr) (parsed : dict)
         (movies_v : value) (movies enriched : list value),
    (request_mood request_json = Ok mood
     /\ responses_create w
          (generation_request_for cfg (build_prompt (str_of w mood)))
        = ApiReturn response
     /\ extract_text_from_response w response = Ok (VStr text)
     /\ parse_json_block text = Ok (VDict parsed)
     /\ dict_get parsed (py "movies") = Some movies_v
     /\ py_iter movies_v = Ok movies)
    /\ log' = log ++ [GenerationCall
                        (generation_request_for
                           cfg (build_prompt (str_of w mood)))]
    /\ recs = VDict (dict_set parsed (py "movies") (VList enriched))
    /\ Forall2
         (fun m e =>
            exists d : dict,
              m = VDict d
              /\ e = VDict [(py "title", dict_get_or d (py "title") VNone);
                            (py "year", dict_get_or d (py "year") VNone);
                            (py "why", dict_get_or d (py "why") (VStr []));
                            (py "poster_url", VStr poster_placeholder);
                            (py "genre", VNone);
                            (py "plot", VNone)])
         movies enriched.
Proof.
  intros K H.
  apply recommend_success_inv in H.
  destruct H as (mood & response & Hm & Ht & Hc & H).
  apply after_generation_success in H.
  destruct H as (text & parsed & movies_v & movies & enriched
                 & Hx & Hp & Hd & Hi & Hl & -> & _).
  pose proof (enrich_loop_calls cfg w movies [] _ Hl) as [El _].
  apply enrich_loop_inv in Hl. destruct Hl as (new & E & F).
  cbn [app] in E. subst new.
  exists mood, response, text, parsed, movies_v, movies, enriched.
  split; [repeat split; assumption |].
  split.
  { rewrite El. unfold lookup_calls. rewrite K. rewrite app_nil_r.
    reflexivity. }
  split; [reflexivity |].
  clear - F K. induction F as [| m e ms es [d [l [-> ->]]] _ IH];
    constructor; [| exact IH].
  exists d. split; [reflexivity |].
  unfold movie_lookup_answer. rewrite (lookup_answer_no_key cfg w _ _ l K).
  reflexivity.
Qed.

(** ** The shape of an enriched movie *)

Lemma lookup_answer_year (cfg : config) (w : world) (title year : value)
      (l : list event) (suggested : value) :
  py_or (snd (fst (fst (lookup_answer cfg w title year l)))) suggested
  = expected_year
      cfg
      (requests_get w l (omdb_params (getenv_value (OMDB_API_KEY cfg))
                                     title year))
      suggested.
Proof.
  unfold lookup_answer, expected_year.
  destruct (OMDB_API_KEY cfg) as [[| c key] |]; try reflexivity.
  cbn [getenv_value truthy].
  unfold provider_answer.
  destruct (requests_get w l _) as [body | msg]; [| reflexivity].
  destruct (Json.loads body) as [[| | | | | | data |] |]; try reflexivity.
  destruct (eq_str (dict_get_or data (py "Response") VNone) (py "True"));
    [| reflexivity].
  cbn [fst snd]. unfold dict_get_or at 1.
  destruct (dict_get data (py "Year")) as [y |]; reflexivity.
Qed.

Lemma enriched_keys_NoDup : NoDup enriched_keys.
Proof.
  vm_compute.
  repeat (constructor; [cbn [In]; intuition discriminate |]).
  constructor.
Qed.

(** The fields of the entry built for the movie [d] when its lookup is
    made at the log [l]. *)
Lemma enriched_entry_fields (cfg : config) (w : world) (d : dict)
      (l : list event) :
  exists fields : dict,
    enriched_entry d (movie_lookup_answer cfg w d l) = VDict fields
    /\ map fst fields = enriched_keys
    /\ dict_get fields (py "title") = Some (dict_get_or d (py "title") VNone)
    /\ dict_get fields (py "why")
       = Some (dict_get_or d (py "why") (VStr []))
    /\ dict_get fields (py "year")
       = Some (expected_year cfg (requests_get w l (movie_params cfg d))
                             (dict_get_or d (py "year") VNone)).
Proof.
  unfold movie_params.
  rewrite <- (lookup_answer_year cfg w (dict_get_or d (py "title") VNone)
                                 (dict_get_or d (py "year") VNone) l
                                 (dict_get_or d (py "year") VNone)).
  unfold movie_lookup_answer.
  destruct (lookup_answer cfg w (dict_get_or d (py "title") VNone)
                          (dict_get_or d (py "year") VNone) l)
    as [[[p ry] g] pl].
  cbn [enriched_entry fst snd].
  eexists. split; [reflexivity |].
  repeat split; reflexivity.
Qed.

(** X14. In a successful answer the enriched movies are as many as the
    movies of the object the model's text was parsed to, and the one at
    position [i] is built from the movie at position [i]: it has exactly
    the six keys [title], [year], [why], [poster_url], [genre], [plot],
    whatever keys the suggestion had.  Its title and its why are the
    suggestion's ([None] and the empty string when missing).  Its year
    is the [Year] of the provider's reply to that movie's own lookup
    (made after the generation call and the lookups of the movies before
    it) when a credential is configured, that reply is an object whose
    [Response] is ["True"] and its [Year] is truthy; in every other case
    it is the suggestion's year ([expected_year]). *)
Theorem enriched_movie_shape (cfg : config) (w : world)
        (request_json recs : value) (st : nat) (log log' : list event) :
  recommend cfg w request_json log
  = (Ok (VDict [(py "recommendations", recs)], st), log') ->
  exists (mood response : value) (text : pystr) (parsed : dict)
         (movies_v : value) (movies enriched : list value),
    (request_mood request_json = Ok mood
     /\ responses_create w
          (generation_request_for cfg (build_prompt (str_of w mood)))
        = ApiReturn response
     /\ extract_text_from_response w response = Ok (VStr text)
     /\ parse_json_block text = Ok (VDict parsed)
     /\ dict_get parsed (py "movies") = Some movies_v
     /\ py_iter movies_v = Ok movies)
    /\ recs = VDict (dict_set parsed (py "movies") (VList enriched))
    /\ List.length enriched = List.length movies
    /\ forall (i : nat) (e : value),
        nth_error enriched i = Some e ->
        exists (d fields : dict),
          nth_error movies i = Some (VDict d)
          /\ e = VDict fields
          /\ (forall k : pystr,
                 In k (map fst fields) <-> In k enriched_keys)
          /\ NoDup (map fst fields)
          /\ dict_get fields (py "title")
             = Some (dict_get_or d (py "title") VNone)
          /\ dict_get fields (py "why")
             = Some (dict_get_or d (py "why") (VStr []))
          /\ dict_get fields (py "year")
             = Some (expected_year
                       cfg
                       (requests_get w (log_at_lookup cfg w mood log movies i)
                                     (movie_params cfg d))
                       (dict_get_or d (py "year") VNone)).
Proof.
  intro H.
  apply recommend_success_inv in H.
  destruct H as (mood & response & Hm & Ht & Hc & H).
  apply after_generation_success in H.
  destruct H as (text & parsed & movies_v & movies & enriched
                 & Hx & Hp & Hd & Hi & Hl & -> & _).
  apply enrich_loop_run in Hl. destruct Hl as (new & E & L & P).
  cbn [app] in E. subst new.
  exists mood, response, text, parsed, movies_v, movies, enriched.
  split; [repeat split; assumption |].
  split; [reflexivity |].
  split; [exact L |].
  intros i e Hn. destruct (P i e Hn) as (d & Hd' & ->).
  destruct (enriched_entry_fields
              cfg w d (log_at_lookup cfg w mood log movies i))
    as (fields & Hf & Hk & Ht' & Hw & Hy).
  exists d, fields.
  split; [exact Hd' |].
  split; [exact Hf |].
  split; [intro k; rewrite Hk; reflexivity |].
  split; [rewrite Hk; exact enriched_keys_NoDup |].
  split; [exact Ht' |].
  split; [exact Hw | exact Hy].
Qed.

(** ** The answers of the route *)

Lemma after_generation_shape (cfg : config) (w : world) (response : value)
      (log : list event) (body : value) (st : nat) (log' : list event) :
  after_generation cfg w response log = (Ok (body, st), log') ->
  st = 200
  /\ exists d, body = VDict d
               /\ (dict_mem d (py "error") = true
                   \/ dict_mem d (py "recommendations") = true).
Proof.
  unfold after_generation. unfold bind at 1, lift.
  destruct (extract_text_from_response w response) as [text | e];
    [| discriminate].
  unfold bind at 1.
  destruct (call_parse_json_block text) as [parsed | e]; [| discriminate].
  unfold bind at 1.
  destruct (py_contains parsed (py "movies")) as [has | e]; [| discriminate].
  destruct has; cbn [negb].
  2:{ unfold ret, no_movie_data, jsonify. intro H. injection H as <- <- _.
      split; [reflexivity |]. eexists. split; [reflexivity |].
      left. reflexivity. }
  unfold bind at 1.
  destruct (py_getitem parsed (py "movies")) as [movies_v | e];
    [| discriminate].
  unfold bind at 1.
  destruct (py_iter movies_v) as [movies | e]; [| discriminate].
  unfold bind at 1.
  destruct (enrich_loop cfg w movies [] log) as [[enriched | e] l];
    [| discriminate].
  unfold bind at 1, lift.
  destruct (py_setitem parsed (py "movies") (VList enriched)) as [p' | e];
    [| discriminate].
  unfold ret, recommendations, jsonify. intro H. injection H as <- <- _.
  split; [reflexivity |]. eexists. split; [reflexivity |].
  right. reflexivity.
Qed.

(** X15. What the view does, from the call of [request.get_json()] on.
    When that call raises (a body that is not JSON, a content type that
    is not JSON), its exception leaves the view and no call is made.
    When it returns a falsy value or an object, no exception leaves the
    view, whatever the two services do, and the answer is one of three
    kinds: 400 with the mood error and no call made; 200 with an [error]
    or a [recommendations] key; 500 with the error [OpenAI request
    failed].  When it returns a value that is truthy and not an object
    (a list, a number, a string), the [AttributeError] of line 109
    leaves the view, before any call. *)
Theorem recommend_always_answers (cfg : config) (w : world)
        (get_json : result value) (log : list event) :
  match get_json with
  | Raise e => recommend_view cfg w get_json log = (Raise e, log)
  | Ok request_json =>
      ((truthy request_json = false \/ exists d, request_json = VDict d) ->
       exists (body : dict) (status : nat) (log' : list event),
         recommend_view cfg w get_json log = (Ok (VDict body, status), log')
         /\ ((status = 400 /\ log' = log
              /\ body = [(py "error", VStr (py "Mood is required"))])
             \/ (status = 200
                 /\ (dict_mem body (py "error") = true
                     \/ dict_mem body (py "recommendations") = true))
             \/ (status = 500
                 /\ dict_get body (py "error")
                    = Some (VStr (py "OpenAI request failed")))))
      /\ (truthy request_json = true ->
          (forall d, request_json <> VDict d) ->
          recommend_view cfg w get_json log
          = (Raise (no_attribute request_json (py "get")), log))
  end.
Proof.
  destruct get_json as [request_json | e]; [| reflexivity].
  change (recommend_view cfg w (Ok request_json) log)
    with (recommend cfg w request_json log).
  split.
  - intro Hb.
    assert (Hm : exists mood, request_mood request_json = Ok mood).
    { unfold request_mood, py_or.
      destruct Hb as [F | [d ->]].
      - rewrite F. eexists. reflexivity.
      - destruct (truthy (VDict d)); eexists; reflexivity. }
    destruct Hm as [mood Hm].
    destruct (truthy mood) eqn:Ht.
    + rewrite (recommend_with_mood cfg w request_json log Hm Ht). cbv zeta.
      destruct (responses_create w _) as [response | msg].
      * unfold caught.
        destruct (after_generation cfg w response _) as [[[body st] | e] l]
          eqn:A.
        -- apply after_generation_shape in A.
           destruct A as (-> & d & -> & K).
           exists d, 200, l. split; [reflexivity |].
           right. left. split; [reflexivity | exact K].
        -- eexists _, 500, l. split; [reflexivity |].
           right. right. split; reflexivity.
      * eexists _, 500, _. split; [reflexivity |].
        right. right. split; reflexivity.
    + rewrite (recommend_no_mood cfg w request_json log Hm Ht).
      eexists _, 400, log. split; [reflexivity |].
      left. repeat split; reflexivity.
  - intros T Hn. apply recommend_bad_request.
    unfold request_mood, py_or. rewrite T.
    destruct request_json; try reflexivity; try discriminate T.
    exfalso. apply (Hn entries). reflexivity.
Qed.

(** X16. When the model's text has no brace span and decodes to
    something that is not an object, the membership test decides.  A
    list is answered 200 with no movie data unless one of its elements
    is the string [movies]; a string likewise unless it contains
    [movies]; in both exceptions, and for a number, a boolean or null,
    the answer is 500 with the error [OpenAI request failed]. *)
Theorem recommend_non_object_output (cfg : config) (w : world)
        (request_json mood response : value) (s : pystr) (parsed : value)
        (log : list event) :
  request_mood request_json = Ok mood ->
  truthy mood = true ->
  responses_create w (generation_request_for cfg (build_prompt (str_of w mood)))
  = ApiReturn response ->
  extract_text_from_response w response = Ok (VStr s) ->
  parse_json_block s = Ok parsed ->
  let log1 :=
    log ++ [GenerationCall
              (generation_request_for cfg (build_prompt (str_of w mood)))] in
  let soft :=
    (Ok (VDict [(py "error", VStr (py "No movie data returned"));
                (py "raw", VStr s)], 200), log1) in
  let hard (details : pystr) :=
    (Ok (VDict [(py "error", VStr (py "OpenAI request failed"));
                (py "details", VStr details)], 500), log1) in
  (forall items : list value,
      parsed = VList items ->
      (existsb (fun x => eq_str x (py "movies")) items = false ->
       recommend cfg w request_json log = soft)
      /\ (existsb (fun x => eq_str x (py "movies")) items = true ->
          exists details, recommend cfg w request_json log = hard details))
  /\ (forall t : pystr,
         parsed = VStr t ->
         (str_contains (py "movies") t = false ->
          recommend cfg w request_json log = soft)
         /\ (str_contains (py "movies") t = true ->
             exists details, recommend cfg w request_json log = hard details))
  /\ ((parsed = VNone \/ (exists b, parsed = VBool b)
       \/ (exists z, parsed = VInt z) \/ (exists f, parsed = VFloat f)) ->
      exists details, recommend cfg w request_json log = hard details).
Proof.
  intros Hm Ht Hc Hx Hp log1 soft hard.
  assert (E : recommend cfg w request_json log
              = caught (after_generation cfg w response log1)).
  { rewrite (recommend_with_mood cfg w request_json log Hm Ht). cbv zeta.
    rewrite Hc. reflexivity. }
  assert (A : after_generation cfg w response log1
              = match py_contains parsed (py "movies") with
                | Ok false => (Ok (no_movie_data (VStr s)), log1)
                | Ok true =>
                    match py_getitem parsed (py "movies") with
                    | Ok movies_v =>
                        (movies <- lift (py_iter movies_v) ;;
                         enriched <- enrich_loop cfg w movies [] ;;
                         parsed' <- lift (py_setitem parsed (py "movies")
                                                     (VList enriched)) ;;
                         ret (recommendations parsed'))%py log1
                    | Raise e => (Raise e, log1)
                    end
                | Raise e => (Raise e, log1)
                end).
  { unfold after_generation, bind at 1, lift. rewrite Hx.
    unfold bind at 1. cbn [call_parse_json_block]. rewrite Hp.
    unfold bind at 1.
    destruct (py_contains parsed (py "movies")) as [[|] | e];
      try reflexivity.
    all: cbn [negb]; unfold bind at 1;
      destruct (py_getitem parsed (py "movies")); reflexivity. }
  rewrite E, A. clear E A.
  split; [| split].
  - intros items ->. cbn [py_contains py_getitem]. split; intros ->.
    + reflexivity.
    + eexists. reflexivity.
  - intros t ->. cbn [py_contains py_getitem]. split; intros ->.
    + reflexivity.
    + eexists. reflexivity.
  - intros [-> | [[b ->] | [[z ->] | [f ->]]]];
      eexists; reflexivity.
Qed.

(** ** Start-up *)

(** X17. The process starts exactly when [OPENAI_API_KEY] is set and not
    empty, and then keeps it; otherwise it stops with the error that
    asks for it and prints nothing.  The model is [gpt-4o-mini] only when
    [OPENAI_MODEL] is unset: a value that is set, even the empty one, is
    kept.  The OMDb warning is printed exactly when the settings make
    every lookup return four [None] without any request; when it is not
    printed every lookup issues its request. *)
Theorem startup_settings (environ : pystr -> option pystr) :
  ((environ (py "OPENAI_API_KEY") = None
    \/ environ (py "OPENAI_API_KEY") = Some []) ->
   startup environ
   = StartupError (py "Please set your OPENAI_API_KEY in the environment."))
  /\ (forall (cfg : config) (printed : list pystr),
         startup environ = Started cfg printed ->
         OPENAI_API_KEY cfg <> []
         /\ environ (py "OPENAI_API_KEY") = Some (OPENAI_API_KEY cfg)
         /\ OMDB_API_KEY cfg = environ (py "OMDB_API_KEY")
         /\ (environ (py "OPENAI_MODEL") = None ->
             OPENAI_MODEL cfg = py "gpt-4o-mini")
         /\ (forall m, environ (py "OPENAI_MODEL") = Some m ->
                       OPENAI_MODEL cfg = m)
         /\ ((printed = [omdb_warning]
              /\ forall w title year log,
                  omdb_lookup cfg w title year log = (Ok all_absent, log))
             \/ (printed = []
                 /\ forall w title year log,
                   exists answer params,
                     omdb_lookup cfg w title year log
                     = (Ok answer, log ++ [MetadataCall params])))).
Proof.
  split.
  - intros [E | E]; unfold startup; rewrite E; reflexivity.
  - intros cfg printed H. unfold startup in H.
    destruct (environ (py "OPENAI_API_KEY")) as [[| c key] |];
      try discriminate H.
    injection H as <- <-. cbn [OPENAI_API_KEY OMDB_API_KEY OPENAI_MODEL].
    split; [discriminate |]. split; [reflexivity |]. split; [reflexivity |].
    split; [intros ->; reflexivity |]. split; [intros m ->; reflexivity |].
    destruct (truthy (getenv_value (environ (py "OMDB_API_KEY")))) eqn:K;
      cbn [negb].
    + right. split; [reflexivity |]. intros w title year log.
      eexists. eexists. rewrite omdb_lookup_eq. unfold lookup_log.
      cbn [OMDB_API_KEY]. rewrite K. reflexivity.
    + left. split; [reflexivity |]. intros w title year log.
      apply omdb_lookup_no_key. exact K.
Qed.

(** ** The value under [movies] *)

Lemma enrich_loop_raises (cfg : config) (w : world) (movies : list value) :
  Exists (fun m => forall d, m <> VDict d) movies ->
  forall (acc : list value) (log : list event),
  exists e log',
    enrich_loop cfg w movies acc log = (Raise e, log')
    /\ exn_class_of e = AttributeError.
Proof.
  induction movies as [| m rest IH]; intros Hx acc log.
  - inversion Hx.
  - cbn [enrich_loop]. unfold bind at 1.
    destruct m as [| | | | | | d |];
      try (rewrite enrich_movie_not_dict by (intros d0 E; discriminate E);
           eexists; eexists; split; reflexivity).
    rewrite enrich_movie_dict. apply IH.
    inversion Hx as [? ? Hd | ? ? Hr]; [| exact Hr].
    exfalso. apply (Hd d). reflexivity.
Qed.

(** X18. What the value under [movies] does to the answer.  An empty
    list, an empty object and an empty string all give a successful
    answer with an empty movie list and no lookup.  A list with an
    element that is not an object, a non-empty string, a non-empty
    object (the loop visits its keys), a number, a boolean and null all
    give the 500 answer. *)
Theorem recommend_movies_value (cfg : config) (w : world)
        (request_json mood response : value) (s : pystr) (parsed : dict)
        (movies_v : value) (log : list event) :
  request_mood request_json = Ok mood ->
  truthy mood = true ->
  responses_create w (generation_request_for cfg (build_prompt (str_of w mood)))
  = ApiReturn response ->
  extract_text_from_response w response = Ok (VStr s) ->
  parse_json_block s = Ok (VDict parsed) ->
  dict_get parsed (py "movies") = Some movies_v ->
  let log1 :=
    log ++ [GenerationCall
              (generation_request_for cfg (build_prompt (str_of w mood)))] in
  ((movies_v = VList [] \/ movies_v = VDict [] \/ movies_v = VStr []) ->
   recommend cfg w request_json log
   = (Ok (VDict [(py "recommendations",
                  VDict (dict_set parsed (py "movies") (VList [])))], 200),
      log1))
  /\ (((exists movies, movies_v = VList movies
                       /\ Exists (fun m => forall d, m <> VDict d) movies)
       \/ (exists c t, movies_v = VStr (c :: t))
       \/ (exists kv d, movies_v = VDict (kv :: d))
       \/ movies_v = VNone \/ (exists b, movies_v = VBool b)
       \/ (exists z, movies_v = VInt z) \/ (exists f, movies_v = VFloat f)) ->
      exists details log',
        recommend cfg w request_json log
        = (Ok (VDict [(py "error", VStr (py "OpenAI request failed"));
                      (py "details", VStr details)], 500), log')).
Proof.
  intros Hm Ht Hc Hx Hp Hd log1.
  assert (E : recommend cfg w request_json log
              = caught ((movies <- lift (py_iter movies_v) ;;
                         enriched <- enrich_loop cfg w movies [] ;;
                         parsed' <- lift (py_setitem (VDict parsed) (py "movies")
                                                     (VList enriched)) ;;
                         ret (recommendations parsed'))%py log1)).
  { rewrite (recommend_with_mood cfg w request_json log Hm Ht). cbv zeta.
    rewrite Hc. fold log1. f_equal.
    unfold after_generation, bind at 1, lift. rewrite Hx.
    unfold bind at 1. cbn [call_parse_json_block]. rewrite Hp.
    unfold bind at 1. cbn [py_contains]. unfold dict_mem. rewrite Hd.
    cbn [negb]. unfold bind at 1. cbn [py_getitem]. rewrite Hd.
    reflexivity. }
  rewrite E. clear E. split.
  - intros [-> | [-> | ->]]; reflexivity.
  - assert (Strs : forall vs : list value,
               vs <> [] ->
               Forall (fun m => exists t, m = VStr t) vs ->
               Exists (fun m => forall d, m <> VDict d) vs).
    { intros vs Hn F. destruct F as [| m ms [t ->] _];
        [contradiction Hn; reflexivity |].
      apply Exists_cons_hd. intros d E. discriminate E. }
    assert (Loop : forall movies,
               py_iter movies_v = Ok movies ->
               Exists (fun m => forall d, m <> VDict d) movies ->
               exists details log',
                 caught ((movies <- lift (py_iter movies_v) ;;
                          enriched <- enrich_loop cfg w movies [] ;;
                          parsed' <- lift (py_setitem (VDict parsed)
                                                      (py "movies")
                                                      (VList enriched)) ;;
                          ret (recommendations parsed'))%py log1)
                 = (Ok (request_failed details), log')).
    { intros movies Hi Hx'. unfold bind at 1, lift. rewrite Hi.
      unfold bind at 1.
      destruct (enrich_loop_raises cfg w Hx' [] log1) as (e & l & -> & _).
      eexists. eexists. reflexivity. }
    intros [(movies & -> & Hx') | [(c & t & ->) | [(kv & d & ->) | Hs]]].
    + apply (Loop movies eq_refl Hx').
    + apply (Loop _ eq_refl). apply Strs; [discriminate |].
      cbn [map]. constructor; [eexists; reflexivity |].
      apply Forall_forall. intros x Hin. apply in_map_iff in Hin.
      destruct Hin as (y & <- & _). eexists. reflexivity.
    + apply (Loop _ eq_refl). apply Strs; [discriminate |].
      cbn [map]. constructor; [eexists; reflexivity |].
      apply Forall_forall. intros x Hin. apply in_map_iff in Hin.
      destruct Hin as (y & <- & _). eexists. reflexivity.
    + destruct Hs as [-> | [[b ->] | [[z ->] | [f ->]]]];
        eexists; eexists; reflexivity.
Qed.

(** ** Instances of the further properties *)

Lemma build_prompt_embeds_mood_instance :
  build_prompt (py "calm") = build_prompt (py "calm")
  /\ py "calm" = py "calm".
Proof.
  split; [reflexivity |].
  apply (proj2 build_prompt_embeds_mood (py "calm") (py "calm")).
  reflexivity.
Defined.

Lemma parse_json_block_reads_prompt_example_instance :
  ~ In (ch "{") (py "wistful")
  /\ parse_json_block (build_prompt (py "wistful")) = Ok prompt_example.
Proof.
  assert (Hn : ~ In (ch "{") (py "wistful"))
    by (apply forallb_not_in; vm_compute; reflexivity).
  split; [exact Hn |].
  apply (parse_json_block_reads_prompt_example (py "wistful") Hn).
Defined.

Lemma parse_json_block_quotes_instance :
  plain_quotes (py "{}") /\ normalize_quotes (py "{}") = py "{}".
Proof.
  assert (P : plain_quotes (py "{}")).
  { unfold plain_quotes.
    repeat split; apply forallb_not_in; vm_compute; reflexivity. }
  split; [exact P |].
  apply (proj2 (proj2 (proj2 (parse_json_block_quotes (py "{}")))) P).
Defined.

Lemma parse_json_block_ignores_prose_instance :
  ~ In (ch "{") (py "Here you go: ")
  /\ ~ In (ch "}") (py " Enjoy!")
  /\ parse_json_block
       (py "Here you go: " ++ (ch "{" :: pyq "`movies`: []" ++ [ch "}"])
           ++ py " Enjoy!")
     = Ok (VDict [(py "movies", VList [])]).
Proof.
  assert (Hpre : ~ In (ch "{") (py "Here you go: "))
    by (apply forallb_not_in; vm_compute; reflexivity).
  assert (Hpost : ~ In (ch "}") (py " Enjoy!"))
    by (apply forallb_not_in; vm_compute; reflexivity).
  split; [exact Hpre |]. split; [exact Hpost |].
  apply (proj2 (parse_json_block_ignores_prose
                  (py "Here you go: ") (pyq "`movies`: []") (py " Enjoy!")
                  Hpre Hpost)
               (VDict [(py "movies", VList [])])).
  vm_compute. reflexivity.
Defined.

Lemma comma_rewrite_deletes_only_commas_and_spaces_instance :
  ~ In (ch ",") (py "[1]")
  /\ Re.sub trailing_comma [Re.RGroup 1] (py "[1]") = py "[1]".
Proof.
  assert (Hn : ~ In (ch ",") (py "[1]"))
    by (apply forallb_not_in; vm_compute; reflexivity).
  split; [exact Hn |].
  apply (proj2 (proj2 (comma_rewrite_deletes_only_commas_and_spaces
                         (py "[1]"))) Hn).
Defined.

Lemma extract_text_failure_modes_instance :
  populated_output_text numeric_fragment_response = None
  /\ getattr numeric_fragment_response (py "output")
     = Some (VList [VDict [(py "content",
                            VList [VDict [(py "text", VInt 5)]])]])
  /\ forallb is_text
             (flat_map block_fragments
                       [VDict [(py "content",
                                VList [VDict [(py "text", VInt 5)]])]])
     = false
  /\ exists e,
      extract_text_from_response numeric_fragment_world
                                 numeric_fragment_response = Raise e
      /\ exn_class_of e = TypeError.
Proof.
  split; [reflexivity |]. split; [reflexivity |]. split; [reflexivity |].
  apply (proj2 (proj2 (@extract_text_failure_modes
                         numeric_fragment_world numeric_fragment_response
                         eq_refl)
                      [VDict [(py "content",
                               VList [VDict [(py "text", VInt 5)]])]]
                      eq_refl ltac:(discriminate))).
  reflexivity.
Defined.

Lemma recommend_opaque_blocks_instance :
  request_mood sample_request = Ok sample_mood
  /\ populated_output_text opaque_blocks_response = None
  /\ Forall (fun b => forall d, b <> VDict d) [VObj [] (py "<Message>")]
  /\ recommend sample_config opaque_blocks_world sample_request []
     = (Ok (VDict [(py "error", VStr (py "No movie data returned"));
                   (py "raw", VStr [])], 200),
        [] ++ [GenerationCall (sample_generation_request opaque_blocks_world)]).
Proof.
  assert (F : Forall (fun b => forall d, b <> VDict d)
                     [VObj [] (py "<Message>")])
    by (constructor; [intros d E; discriminate E | constructor]).
  split; [reflexivity |]. split; [reflexivity |]. split; [exact F |].
  apply (proj2 (@recommend_opaque_blocks
                  sample_config opaque_blocks_world sample_request sample_mood
                  opaque_blocks_response [VObj [] (py "<Message>")] []
                  eq_refl eq_refl eq_refl eq_refl eq_refl
                  ltac:(discriminate) F)).
Defined.

Lemma omdb_lookup_one_request_instance :
  OMDB_API_KEY sample_config = Some (py "omdb-sample")
  /\ py "omdb-sample" <> []
  /\ (exists answer,
         omdb_lookup sample_config sample_success_world
                     (VStr (py "Heat")) (VStr []) []
         = (Ok answer,
            [] ++ [MetadataCall (omdb_params (VStr (py "omdb-sample"))
                                             (VStr (py "Heat")) (VStr []))]))
  /\ dict_get (omdb_params (VStr (py "omdb-sample")) (VStr (py "Heat"))
                           (VStr []))
              (py "y")
     = None.
Proof.
  assert (Hne : py "omdb-sample" <> []) by (vm_compute; discriminate).
  split; [reflexivity |]. split; [exact Hne |].
  destruct (@omdb_lookup_one_request
              sample_config sample_success_world (VStr (py "Heat")) (VStr [])
              [] (py "omdb-sample") eq_refl Hne)
    as (A & _ & _ & Y & _).
  split; [exact A | exact Y].
Defined.

Lemma omdb_lookup_success_instance :
  OMDB_API_KEY sample_config = Some (py "omdb-sample")
  /\ py "omdb-sample" <> []
  /\ requests_get sample_success_world []
                  (omdb_params (VStr (py "omdb-sample"))
                               (VStr (py "Heat")) (VStr (py "1995")))
     = sample_provider_reply
  /\ omdb_lookup sample_config sample_success_world
                 (VStr (py "Heat")) (VStr (py "1995")) []
     = (Ok (VStr (py "https://img.example/heat.jpg"), VStr (py "1995"),
            VStr (py "Crime"), VStr (py "A heist.")),
        [MetadataCall (omdb_params (VStr (py "omdb-sample"))
                                   (VStr (py "Heat")) (VStr (py "1995")))]).
Proof.
  assert (Hne : py "omdb-sample" <> []) by (vm_compute; discriminate).
  split; [reflexivity |]. split; [exact Hne |]. split; [reflexivity |].
  etransitivity.
  - eapply (@omdb_lookup_success
              sample_config sample_success_world
              (VStr (py "Heat")) (VStr (py "1995")) [] (py "omdb-sample")).
    + reflexivity.
    + exact Hne.
    + reflexivity.
    + vm_compute. reflexivity.
    + vm_compute. reflexivity.
  - vm_compute. reflexivity.
Defined.

Lemma recommend_call_discipline_instance :
  exists r log',
    recommend sample_config sample_success_world sample_request [] = (r, log')
    /\ (log' = []
        \/ exists (mood : value) (rq : generation_request)
                  (calls : list event),
          request_mood sample_request = Ok mood
          /\ truthy mood = true
          /\ log' = [] ++ GenerationCall rq :: calls
          /\ Forall is_metadata_call calls
          /\ req_model rq = OPENAI_MODEL sample_config
          /\ req_input rq = build_prompt (str_of sample_success_world mood)
          /\ req_temperature rq = FDec false 7 (-1)
          /\ req_max_output_tokens rq = 700%Z).
Proof.
  destruct sample_success as [recs [log' H]].
  eexists. exists log'. split; [exact H |].
  exact (recommend_call_discipline sample_config sample_success_world
                                   sample_request [] H).
Defined.

Lemma recommend_lookup_sequence_instance :
  exists recs log',
    recommend sample_config sample_success_world sample_request []
    = (Ok (VDict [(py "recommendations", recs)], 200), log')
    /\ exists movies : list value,
      log' = [] ++ GenerationCall
                     (sample_generation_request sample_success_world)
                :: lookup_calls sample_config movies
      /\ List.length (lookup_calls sample_config movies) = List.length movies.
Proof.
  destruct sample_success as [recs [log' H]].
  exists recs, log'. split; [exact H |].
  destruct (@recommend_lookup_sequence
              sample_config sample_success_world sample_request recs 200
              [] log' H)
    as (mood & response & text & parsed & movies_v & movies
        & Hm & _ & _ & _ & _ & _ & El & Len).
  injection Hm as <-.
  exists movies. split; [exact El | exact Len].
Defined.

Lemma sample_success_no_key :
  exists recs log',
    recommend sample_config_no_key sample_success_world sample_request []
    = (Ok (VDict [(py "recommendations", recs)], 200), log').
Proof.
  eexists. eexists. vm_compute. reflexivity.
Defined.

Lemma recommend_without_credential_instance :
  truthy (getenv_value (OMDB_API_KEY sample_config_no_key)) = false
  /\ exists recs log',
    recommend sample_config_no_key sample_success_world sample_request []
    = (Ok (VDict [(py "recommendations", recs)], 200), log')
    /\ exists (mood : value) (text : pystr) (parsed : dict),
      request_mood sample_request = Ok mood
      /\ parse_json_block text = Ok (VDict parsed)
      /\ log' = [] ++ [GenerationCall
                         (generation_request_for
                            sample_config_no_key
                            (build_prompt (str_of sample_success_world mood)))].
Proof.
  split; [reflexivity |].
  destruct sample_success_no_key as [recs [log' H]].
  exists recs, log'. split; [exact H |].
  destruct (@recommend_without_credential
              sample_config_no_key sample_success_world sample_request recs
              200 [] log' eq_refl H)
    as (mood & response & text & parsed & movies_v & movies & enriched
        & (Hm & _ & _ & Hp & _) & El & _).
  exists mood, text, parsed.
  split; [exact Hm |]. split; [exact Hp | exact El].
Defined.

Lemma other_year_success :
  exists recs log',
    recommend sample_config other_year_world sample_request []
    = (Ok (VDict [(py "recommendations", recs)], 200), log').
Proof.
  eexists. eexists. vm_compute. reflexivity.
Defined.

Lemma enriched_movie_shape_instance :
  exists recs log',
    recommend sample_config other_year_world sample_request []
    = (Ok (VDict [(py "recommendations", recs)], 200), log')
    /\ exists (parsed : dict) (movies enriched : list value),
      recs = VDict (dict_set parsed (py "movies") (VList enriched))
      /\ List.length enriched = List.length movies
      /\ forall (i : nat) (e : value),
          nth_error enriched i = Some e ->
          exists (d fields : dict),
            nth_error movies i = Some (VDict d)
            /\ e = VDict fields
            /\ dict_get fields (py "year")
               = Some (expected_year sample_config other_year_reply
                                     (dict_get_or d (py "year") VNone)).
Proof.
  destruct other_year_success as [recs [log' H]].
  exists recs, log'. split; [exact H |].
  destruct (@enriched_movie_shape
              sample_config other_year_world sample_request recs 200
              [] log' H)
    as (mood & response & text & parsed & movies_v & movies & enriched
        & _ & Hr & L & P).
  exists parsed, movies, enriched.
  split; [exact Hr |]. split; [exact L |].
  intros i e Hn.
  destruct (P i e Hn) as (d & fields & Hd & He & _ & _ & _ & _ & Hy).
  exists d, fields. repeat split; assumption.
Defined.

Lemma recommend_always_answers_instance :
  (exists d, sample_request = VDict d)
  /\ exists (body : dict) (status : nat) (log' : list event),
    recommend_view sample_config sample_success_world (Ok sample_request) []
    = (Ok (VDict body, status), log')
    /\ (status = 200 \/ status = 400 \/ status = 500).
Proof.
  assert (Hd : exists d, sample_request = VDict d)
    by (eexists; reflexivity).
  split; [exact Hd |].
  destruct (proj1 (recommend_always_answers
                     sample_config sample_success_world
                     (Ok sample_request) [])
                  (or_intror Hd))
    as (body & status & log' & H & K).
  exists body, status, log'. split; [exact H |].
  destruct K as [[-> _] | [[-> _] | [-> _]]]; auto.
Defined.

Lemma recommend_non_object_output_instance :
  request_mood sample_request = Ok sample_mood
  /\ truthy sample_mood = true
  /\ extract_text_from_response list_output_world
                                (sample_response (py "[1, 2]"))
     = Ok (VStr (py "[1, 2]"))
  /\ parse_json_block (py "[1, 2]") = Ok (VList [VInt 1; VInt 2])
  /\ existsb (fun x => eq_str x (py "movies")) [VInt 1; VInt 2] = false
  /\ recommend sample_config list_output_world sample_request []
     = (Ok (VDict [(py "error", VStr (py "No movie data returned"));
                   (py "raw", VStr (py "[1, 2]"))], 200),
        [] ++ [GenerationCall (sample_generation_request list_output_world)]).
Proof.
  assert (Hp : parse_json_block (py "[1, 2]") = Ok (VList [VInt 1; VInt 2]))
    by (vm_compute; reflexivity).
  split; [reflexivity |]. split; [reflexivity |]. split; [reflexivity |].
  split; [exact Hp |]. split; [reflexivity |].
  apply (proj1 (proj1 (@recommend_non_object_output
                         sample_config list_output_world sample_request
                         sample_mood (sample_response (py "[1, 2]"))
                         (py "[1, 2]") (VList [VInt 1; VInt 2]) []
                         eq_refl eq_refl eq_refl eq_refl Hp)
                      [VInt 1; VInt 2] eq_refl)).
  reflexivity.
Defined.

Lemma startup_settings_instance :
  sample_environ (py "OPENAI_API_KEY") = Some (py "sk-sample")
  /\ startup sample_environ
     = Started (Config (py "sk-sample") None (py "gpt-4o-mini")) [omdb_warning]
  /\ OPENAI_API_KEY (Config (py "sk-sample") None (py "gpt-4o-mini")) <> []
  /\ startup (fun _ => None)
     = StartupError (py "Please set your OPENAI_API_KEY in the environment.").
Proof.
  assert (S : startup sample_environ
              = Started (Config (py "sk-sample") None (py "gpt-4o-mini"))
                        [omdb_warning])
    by (vm_compute; reflexivity).
  split; [reflexivity |]. split; [exact S |]. split.
  - exact (proj1 (proj2 (startup_settings sample_environ) _ _ S)).
  - apply (proj1 (startup_settings (fun _ => None))). left. reflexivity.
Defined.

Lemma recommend_movies_value_instance :
  request_mood sample_request = Ok sample_mood
  /\ truthy sample_mood = true
  /\ extract_text_from_response no_movies_world (sample_response no_movies_text)
     = Ok (VStr no_movies_text)
  /\ parse_json_block no_movies_text
     = Ok (VDict [(py "movies", VList []); (py "songs", VList [])])
  /\ recommend sample_config no_movies_world sample_request []
     = (Ok (VDict [(py "recommendations",
                    VDict (dict_set [(py "movies", VList []);
                                     (py "songs", VList [])]
                                    (py "movies") (VList [])))], 200),
        [] ++ [GenerationCall (sample_generation_request no_movies_world)]).
Proof.
  assert (Hp : parse_json_block no_movies_text
               = Ok (VDict [(py "movies", VList []); (py "songs", VList [])]))
    by (vm_compute; reflexivity).
  split; [reflexivity |]. split; [reflexivity |]. split; [reflexivity |].
  split; [exact Hp |].
  apply (proj1 (@recommend_movies_value
                  sample_config no_movies_world sample_request sample_mood
                  (sample_response no_movies_text) no_movies_text
                  [(py "movies", VList []); (py "songs", VList [])]
                  (VList []) []
                  eq_refl eq_refl eq_refl eq_refl Hp eq_refl)).
  left. reflexivity.
Defined.
